(** * tsbun: a shallow embedding of the build wrapper

    The repository holds two near-identical entry scripts (a verbose one
    that inlines its helpers and reports artifacts, and a terse one), a
    [utils] layer ([loadConfig], [formatSize], [parse]) and build
    configuration.  Every script is a straight-line sequence of calls to the
    platform (file system, dynamic import, bundler, child process, console)
    wrapped in one top-level [try]/[catch].

    The embedding keeps that shape: the platform is a record of oracles
    ([World]), a script is a computation in a small writer-and-exception
    monad [M] whose trace lists every platform call in program order, and
    [process.exit] is an outcome that no [catch] intercepts. *)

From Stdlib Require Import ZArith String Ascii List Bool DecimalString Lia.
Import ListNotations.

Local Open Scope Z_scope.
Local Open Scope string_scope.

(** ** JavaScript values that the scripts inspect *)

(** [!s] on a string: only the empty string is falsy. *)
Definition truthy (s : string) : bool := negb (s =? EmptyString).

(** [!x] on a value that is a string or [undefined]. *)
Definition truthyOpt (x : option string) : bool :=
  match x with
  | Some s => truthy s
  | None => false
  end.

(** A thrown value is caught as [err: any]; the handlers only ever read
    [err.message].  Reading a property of [null] or [undefined] raises a
    [TypeError]; on any other value it yields what the template literal
    then prints. *)
Inductive Thrown : Type :=
| ThrownNullish
| ThrownObject (message : string).

(** What a call into the platform gives back. *)
Inductive Result (A : Type) : Type :=
| Raised (e : Thrown)
| Returned (a : A).
Arguments Raised {A} e.
Arguments Returned {A} a.

(** ** Data model *)

(** [target?: "bun" | "browser" | "node"] *)
Inductive Target : Type := TargetBun | TargetBrowser | TargetNode.

Definition targetName (t : Target) : string :=
  match t with
  | TargetBun => "bun"
  | TargetBrowser => "browser"
  | TargetNode => "node"
  end.

(** [entry?: string | string[]] *)
Inductive Entry : Type :=
| EntryString (path : string)
| EntryList (paths : list string).

(** [type TsBunConfig]; an absent field is [None]. *)
Record TsBunConfig : Type := {
  entry : option Entry;
  outdir : option string;
  minify : option bool;
  target : option Target
}.

(** The module object produced by [import(configUrl)]: its default export
    when that is truthy, and the namespace object read as a configuration. *)
Record ConfigModule : Type := {
  default : option TsBunConfig;
  namespace : TsBunConfig
}.

(** [values] of [parseArgs] for the three boolean options. *)
Record Values : Type := {
  help : bool;
  version : bool;
  watch : bool
}.

(** The argument of [Bun.build]. *)
Record BuildOptions : Type := {
  entrypoints : list string;
  build_outdir : string;
  build_target : Target;
  build_minify : bool
}.

Record BuildArtifact : Type := {
  path : string;
  size : Z
}.

(** The value [Bun.build] resolves to; log messages are kept as the text
    [console.error] prints for them. *)
Record BuildOutput : Type := {
  success : bool;
  logs : list string;
  outputs : list BuildArtifact
}.

(** The fields the scripts import from [package.json]. *)
Record PackageJson : Type := {
  name : string;
  pkg_version : string;
  author_name : string;
  author_email : string;
  author_url : string
}.

(** ** The platform

    One record of oracles per invocation: what the runtime, the file
    system and the two external tools answer.

    - [pkg], [cwd]: the imported [package.json] fields and [process.cwd()];
    - [join], [relative]: the [node:path] functions;
    - [parseArgs]: [node:util]'s [parseArgs] on the option schema of the
      scripts and [process.argv.slice(2)], which returns the flag values
      and the positionals or throws;
    - [fileExists]: existence queries made before the output directory is
      cleaned; the terse script asks for [tsconfig.json] only after
      cleaning and bundling, which may have changed the disk, so that
      query is answered by [fileExistsAfterBuild];
    - [importModule]: the dynamic [import], which yields the module or
      throws whatever the module's evaluation threw;
    - [rmSync], [bunBuild], [spawnSync]: the three effects of the build;
      a child process reports an exit code or none;
    - [floorLog1024 b]: the double-precision value of
      [Math.floor(Math.log(b) / Math.log(1024))];
    - [elapsed]: the rounded difference of the two [performance.now()]
      readings;
    - [typeErrorText]: the message of the [TypeError] the engine raises
      when a property of [null] or [undefined] is read. *)
Record World : Type := {
  pkg : PackageJson;
  cwd : string;
  join : string -> string -> string;
  relative : string -> string -> string;
  parseArgs : Result (Values * list string);
  fileExists : string -> bool;
  fileExistsAfterBuild : string -> bool;
  importModule : string -> Result ConfigModule;
  rmSync : string -> Result unit;
  bunBuild : BuildOptions -> Result BuildOutput;
  spawnSync : list string -> Result (option Z);
  floorLog1024 : Z -> Z;
  elapsed : Z;
  typeErrorText : string
}.

(** ** Traces and the script monad *)

Inductive Event : Type :=
| ConsoleLog (line : string)
| ConsoleError (line : string)
| ConsoleWarn (line : string)
| FileExists (file : string)
| Import (url : string)
| RmSync (dir : string) (force : bool)
| BunBuild (options : BuildOptions)
| SpawnSync (argv : list string).

Inductive Outcome (A : Type) : Type :=
| Ret (a : A)
| Exit (code : Z)
| Throw (e : Thrown).
Arguments Ret {A} a.
Arguments Exit {A} code.
Arguments Throw {A} e.

Definition M (A : Type) : Type := (list Event * Outcome A)%type.

Definition ret {A} (a : A) : M A := ([], Ret a).

Definition bind {A B} (m : M A) (f : A -> M B) : M B :=
  match m with
  | (t, Ret a) => let (t', o) := f a in ((t ++ t')%list, o)
  | (t, Exit c) => (t, Exit c)
  | (t, Throw e) => (t, Throw e)
  end.

Notation "x <- m ;; k" := (bind m (fun x => k))
  (at level 61, m at next level, right associativity).
Notation "m ;;; k" := (bind m (fun _ => k))
  (at level 61, right associativity).

Definition tell (e : Event) : M unit := ([e], Ret tt).
Definition throw {A} (e : Thrown) : M A := ([], Throw e).

(** [process.exit(code)]: ends the run; a surrounding [try] does not see it. *)
Definition processExit {A} (code : Z) : M A := ([], Exit code).

(** [try { m } catch (err) { h err }] *)
Definition tryCatch {A} (m : M A) (h : Thrown -> M A) : M A :=
  match m with
  | (t, Throw e) => let (t', o) := h e in ((t ++ t')%list, o)
  | other => other
  end.

Definition ofResult {A} (r : Result A) : M A :=
  match r with
  | Raised e => throw e
  | Returned a => ret a
  end.

Definition when (b : bool) (m : M unit) : M unit :=
  if b then m else ret tt.

(** [for (const x of xs) body] *)
Fixpoint forEach {A} (xs : list A) (body : A -> M unit) : M unit :=
  match xs with
  | [] => ret tt
  | x :: rest => body x ;;; forEach rest body
  end.

Definition trace {A} (m : M A) : list Event := fst m.
Definition outcome {A} (m : M A) : Outcome A := snd m.

Definition consoleLog (s : string) : M unit := tell (ConsoleLog s).
Definition consoleError (s : string) : M unit := tell (ConsoleError s).
Definition consoleWarn (s : string) : M unit := tell (ConsoleWarn s).

(** [err.message] *)
Definition messageOf (w : World) (err : Thrown) : M string :=
  match err with
  | ThrownNullish => throw (ThrownObject (typeErrorText w))
  | ThrownObject message => ret message
  end.

(** ** Printing numbers *)

Definition showZ (z : Z) : string := NilZero.string_of_int (Z.to_int z).

Definition digit (d : Z) : string :=
  String (ascii_of_nat (48 + Z.to_nat d)) EmptyString.

(** The decimal text of [n / 100] with exactly two fraction digits, for
    [0 <= n]. *)
Definition fixed2 (n : Z) : string :=
  showZ (n / 100) ++ "." ++ digit (n / 10 mod 10) ++ digit (n mod 10).

(** [(num / den).toFixed(2)] for a non-negative quotient of integers:
    the integer [n] with [n / 100] nearest to the quotient, the larger one
    on a tie. *)
Definition nearestHundredth (num den : Z) : Z :=
  (200 * num + den) / (2 * den).

Definition toFixed2 (num den : Z) : string :=
  fixed2 (nearestHundredth num den).

(** ** [formatSize]

    [const i = Math.floor(Math.log(bytes) / Math.log(k))] is computed in
    double precision by the engine's [Math.log], whose rounding the
    language leaves to the implementation; the function therefore takes
    that index computation as its first argument (the script passes
    [floorLog1024] of the platform).  The division by [Math.pow(k, i)], a
    power of two, is exact, so [toFixed(2)] rounds the true quotient; for
    a negative [i] the divisor is [1 / 1024^(-i)].  A negative [bytes]
    makes the logarithm [NaN], which prints as [NaN undefined].  Byte
    counts are integers. *)

Definition sizes : list string := ["B"; "KB"; "MB"; "GB"; "TB"].

(** [${sizes[i]}]: an index outside the array prints as [undefined]. *)
Definition sizeAt (i : Z) : string :=
  if (i <? 0)%Z then "undefined"
  else match nth_error sizes (Z.to_nat i) with
       | Some unit => unit
       | None => "undefined"
       end.

Definition formatSize (floorLog : Z -> Z) (bytes : Z) : string :=
  if (bytes =? 0)%Z then "0 B"
  else if (bytes <? 0)%Z then "NaN undefined"
  else
    let k := 1024 in
    let i := floorLog bytes in
    (if (0 <=? i)%Z then toFixed2 bytes (k ^ i)
     else toFixed2 (bytes * k ^ (- i)) 1)
    ++ " " ++ sizeAt i.

(** The mathematical value of the index, [floor (log_1024 b)]. *)
Definition exactLog1024 (b : Z) : Z := Z.log2 b / 10.

(** ** Text constants *)

Definition nl : string := String (ascii_of_nat 10) EmptyString.
Definition quote : string := String (ascii_of_nat 34) EmptyString.

Fixpoint unlines (ls : list string) : string :=
  match ls with
  | [] => EmptyString
  | [l] => l
  | l :: rest => l ++ nl ++ unlines rest
  end.

Definition versionLine (p : PackageJson) : string :=
  name p ++ "@" ++ pkg_version p.

Definition helpMessage (p : PackageJson) : string :=
  unlines
    [ "Version:";
      "  " ++ name p ++ "@" ++ pkg_version p;
      EmptyString;
      "Usage:";
      "  $ " ++ name p ++ " [entry] [options]";
      EmptyString;
      "Options:";
      "  -v, --version  Display version";
      "  -h, --help     Display help message";
      "  --watch        Watch mode";
      EmptyString;
      "Author:";
      "  " ++ author_name p ++ " <" ++ author_email p ++ "> ("
           ++ author_url p ++ ")" ].

Definition notFoundMessage : string :=
  "Could not find entry point (index.ts or src/index.ts). Please specify one.".

(** ** Code shared verbatim by the two entry scripts *)

(** [parse]: [parseArgs] with its error re-raised under a uniform prefix. *)
Definition parse (w : World) : M (Values * list string) :=
  tryCatch (ofResult (parseArgs w))
    (fun err =>
       message <- messageOf w err ;;
       throw (ThrownObject ("Error parsing arguments: " ++ message))).

(** [Bun.file(p).exists()] and [existsSync(p)]. *)
Definition exists_ (w : World) (p : string) : M bool :=
  tell (FileExists p) ;;; ret (fileExists w p).

Definition existsAfterBuild (w : World) (p : string) : M bool :=
  tell (FileExists p) ;;; ret (fileExistsAfterBuild w p).

Definition defaultEntries : list string := ["index.ts"; "src/index.ts"].

(** [for (const e of defaultEntries) if (exists(e)) { entry = e; break }] *)
Fixpoint scanDefaults (w : World) (candidates : list string)
    (current : option string) : M (option string) :=
  match candidates with
  | [] => ret current
  | e :: rest =>
      found <- exists_ w e ;;
      if found then ret (Some e) else scanDefaults w rest current
  end.

(** [config?.field] *)
Definition field {A} (config : option TsBunConfig)
    (f : TsBunConfig -> option A) : option A :=
  match config with
  | Some c => f c
  | None => None
  end.

(** [if (!entry && config?.entry) { ... }]: a string is taken as it is, an
    array gives its first element when it has one.  An array is truthy
    even when empty; a string only when non-empty. *)
Definition entryFromConfig (current : option string)
    (config : option TsBunConfig) : option string :=
  if truthyOpt current then current
  else match field config entry with
       | Some (EntryString s) => if truthy s then Some s else current
       | Some (EntryList (first :: _)) => Some first
       | Some (EntryList []) => current
       | None => current
       end.

(** Verbose script lines 92-110, terse script lines 294-312. *)
Definition resolveEntry (w : World) (positionals : list string)
    (config : option TsBunConfig) : M (option string) :=
  let current := nth_error positionals 0 in
  current <- (if truthyOpt current then ret current
              else scanDefaults w defaultEntries current) ;;
  ret (entryFromConfig current config).

(** [if (!entry) { console.error(...); process.exit(1) }]: past this
    point [entry] is a non-empty string. *)
Definition requireEntry (current : option string) : M string :=
  match current with
  | Some e =>
      if truthy e then ret e
      else consoleError notFoundMessage ;;; processExit 1
  | None => consoleError notFoundMessage ;;; processExit 1
  end.

(** [x || d] on an optional string. *)
Definition orString (x : option string) (d : string) : string :=
  match x with
  | Some s => if truthy s then s else d
  | None => d
  end.

(** [const outdir = config?.outdir || "dist"] *)
Definition outdirOf (config : option TsBunConfig) : string :=
  orString (field config outdir) "dist".

(** [const minify = config?.minify !== undefined ? config.minify : true] *)
Definition minifyOf (config : option TsBunConfig) : bool :=
  match field config minify with
  | Some b => b
  | None => true
  end.

(** [const target = config?.target || "bun"]; each of the three target
    names is truthy. *)
Definition targetOf (config : option TsBunConfig) : Target :=
  match field config target with
  | Some t => t
  | None => TargetBun
  end.

Definition buildOptions (config : option TsBunConfig) (e : string)
    : BuildOptions :=
  {| entrypoints := [e];
     build_outdir := outdirOf config;
     build_target := targetOf config;
     build_minify := minifyOf config |}.

Definition declarationFlags (out : string) : list string :=
  ["--declaration"; "--emitDeclarationOnly"; "--noEmit"; "false";
   "--outDir"; out].

Definition projectFlags : list string := ["--project"; "tsconfig.json"].

Definition fallbackFlags : list string :=
  ["--esModuleInterop"; "--skipLibCheck"; "--moduleResolution"; "bundler";
   "--target"; "esnext"].

(** [tscArgs] after the [push] of either branch. *)
Definition tscArgs (hasTsConfig : bool) (out e : string) : list string :=
  (declarationFlags out
   ++ (if hasTsConfig then projectFlags else fallbackFlags ++ [e]))%list.

(** The handler of the top-level [catch]. *)
Definition reportUncaught (w : World) (err : Thrown) : M unit :=
  consoleError (helpMessage (pkg w)) ;;;
  message <- messageOf w err ;;
  consoleError (nl ++ message ++ nl) ;;;
  processExit 1.

(** [if (values.version) ...; if (values.help) ...] *)
Definition shortCircuit (w : World) (values : Values) : M unit :=
  when (version values)
    (consoleLog (versionLine (pkg w)) ;;; processExit 0) ;;;
  when (help values)
    (consoleLog (helpMessage (pkg w)) ;;; processExit 0).

(** [config.default || config] *)
Definition exported (config : ConfigModule) : TsBunConfig :=
  match default config with
  | Some c => c
  | None => namespace config
  end.

(** [import(configUrl)] followed by [config.default || config]. *)
Definition importConfig (w : World) (configUrl : string) : M TsBunConfig :=
  tell (Import configUrl) ;;;
  config <- ofResult (importModule w configUrl) ;;
  ret (exported config).

Definition warnLoadFailure (w : World) (err : Thrown) : M unit :=
  message <- messageOf w err ;;
  consoleWarn ("Warning: Failed to load tsbun.config.ts: " ++ message).

(** ** The verbose script

    The first script of [part_002] (lines 1-210).  Its [loadConfig] is
    also, word for word, the one the [utils] layer exports ([part_000],
    lines 19-35). *)
Module Verbose.

Definition loadConfig (w : World)
    : M (option TsBunConfig * option string) :=
  let configPath := join w (cwd w) "tsbun.config.ts" in
  present <- exists_ w configPath ;;
  if present then
    tryCatch
      (let configUrl := "file://" ++ configPath in
       config <- importConfig w configUrl ;;
       ret (Some config, Some configPath))
      (fun err => warnLoadFailure w err ;;; ret (None, None))
  else ret (None, None).

Definition reportArtifact (w : World) (output : BuildArtifact) : M unit :=
  consoleLog ("ESM " ++ relative w (cwd w) (path output) ++ " "
              ++ formatSize (floorLog1024 w) (size output)).

(** The [try] block up to the cleaning of the output directory: argument
    parsing, the two short circuits, configuration, entry resolution and
    the start-up log lines. *)
Definition prepare (w : World) : M (option TsBunConfig * bool * string) :=
  parsed <- parse w ;;
  let (values, positionals) := parsed in
  shortCircuit w values ;;;
  loaded <- loadConfig w ;;
  let (config, configPath) := loaded in
  current <- resolveEntry w positionals config ;;
  e <- requireEntry current ;;
  consoleLog ("CLI Building entry: {" ++ quote ++ e ++ quote ++ ":"
              ++ quote ++ e ++ quote ++ "}") ;;;
  hasTsConfig <- exists_ w "tsconfig.json" ;;
  when hasTsConfig (consoleLog "CLI Using tsconfig: tsconfig.json") ;;;
  consoleLog ("CLI " ++ name (pkg w) ++ " v" ++ pkg_version (pkg w)) ;;;
  when (truthyOpt configPath)
    (consoleLog ("CLI Using tsbun config: "
                 ++ match configPath with
                    | Some p => p
                    | None => EmptyString
                    end)) ;;;
  consoleLog ("CLI Target: " ++ targetName (targetOf config)) ;;;
  consoleLog "CLI Cleaning output folder" ;;;
  ret (config, hasTsConfig, e).

(** The rest of the [try] block, from [rmSync] to [process.exit(0)]. *)
Definition build (w : World) (config : option TsBunConfig)
    (hasTsConfig : bool) (e : string) : M unit :=
  let out := outdirOf config in
  tell (RmSync out true) ;;;
  ofResult (rmSync w out) ;;;
  consoleLog "ESM Build start" ;;;
  tell (BunBuild (buildOptions config e)) ;;;
  result <- ofResult (bunBuild w (buildOptions config e)) ;;
  when (negb (success result))
    (consoleError "Build failed!" ;;;
     forEach (logs result) consoleError ;;;
     processExit 1) ;;;
  forEach (outputs result) (reportArtifact w) ;;;
  consoleLog ("ESM ⚡️ Build success in " ++ showZ (elapsed w) ++ "ms") ;;;
  let argv := ("bun" :: "x" :: "tsc" :: tscArgs hasTsConfig out e)%list in
  tell (SpawnSync argv) ;;;
  tsc <- ofResult (spawnSync w argv) ;;
  when (match tsc with Some 0 => false | _ => true end)
    (consoleError "Type generation failed!" ;;; processExit 1) ;;;
  processExit 0.

Definition main (w : World) : M unit :=
  tryCatch
    (ready <- prepare w ;;
     let '(config, hasTsConfig, e) := ready in
     build w config hasTsConfig e)
    (reportUncaught w).

End Verbose.

(** ** The terse script

    The second script of [part_002] (lines 211-397).  Its [loadConfig]
    returns the configuration alone, and it looks for [tsconfig.json] only
    once the bundle is written. *)
Module Terse.

Definition loadConfig (w : World) : M (option TsBunConfig) :=
  let configPath := join w (cwd w) "tsbun.config.ts" in
  present <- exists_ w configPath ;;
  if present then
    tryCatch
      (let configUrl := "file://" ++ configPath in
       config <- importConfig w configUrl ;;
       ret (Some config))
      (fun err => warnLoadFailure w err ;;; ret None)
  else ret None.

(** The [try] block up to the cleaning of the output directory. *)
Definition prepare (w : World) : M (option TsBunConfig * string) :=
  parsed <- parse w ;;
  let (values, positionals) := parsed in
  shortCircuit w values ;;;
  config <- loadConfig w ;;
  when (match config with Some _ => true | None => false end)
    (consoleLog "Using tsbun.config.ts...") ;;;
  current <- resolveEntry w positionals config ;;
  e <- requireEntry current ;;
  consoleLog ("Building " ++ e ++ "...") ;;;
  ret (config, e).

(** The rest of the [try] block, from the cleaning of the output
    directory to [process.exit(0)]. *)
Definition build (w : World) (config : option TsBunConfig) (e : string)
    : M unit :=
  let out := outdirOf config in
  present <- exists_ w out ;;
  when present (tell (RmSync out false) ;;; ofResult (rmSync w out)) ;;;
  tell (BunBuild (buildOptions config e)) ;;;
  result <- ofResult (bunBuild w (buildOptions config e)) ;;
  when (negb (success result))
    (consoleError "Build failed!" ;;;
     forEach (logs result) consoleError ;;;
     processExit 1) ;;;
  consoleLog "JS Bundle created!" ;;;
  consoleLog "Generating types..." ;;;
  hasTsConfig <- existsAfterBuild w "tsconfig.json" ;;
  when hasTsConfig (consoleLog "Using tsconfig.json...") ;;;
  let argv := ("bun" :: "x" :: "tsc" :: tscArgs hasTsConfig out e)%list in
  tell (SpawnSync argv) ;;;
  tsc <- ofResult (spawnSync w argv) ;;
  when (match tsc with Some 0 => false | _ => true end)
    (consoleError "Type generation failed!" ;;; processExit 1) ;;;
  consoleLog "Build complete!" ;;;
  processExit 0.

Definition main (w : World) : M unit :=
  tryCatch
    (ready <- prepare w ;;
     let (config, e) := ready in
     build w config e)
    (reportUncaught w).

End Terse.

(** ** Observations on runs *)

(** Lines 92-117 (294-319 in the terse script): the entry the build
    receives, or the early exit. *)
Definition entryStage (w : World) (positionals : list string)
    (config : option TsBunConfig) : M string :=
  current <- resolveEntry w positionals config ;;
  requireEntry current.

(** Every event of a run satisfies [P]. *)
Definition emits {A} (P : Event -> Prop) (m : M A) : Prop :=
  Forall P (trace m).

(** Events that neither write to standard error nor touch the output
    directory, the bundler or a child process. *)
Definition quiet (ev : Event) : Prop :=
  match ev with
  | ConsoleLog _ | ConsoleWarn _ | FileExists _ | Import _ => True
  | ConsoleError _ | RmSync _ _ | BunBuild _ | SpawnSync _ => False
  end.

(** Events other than cleaning, bundling and spawning. *)
Definition calm (ev : Event) : Prop :=
  match ev with
  | RmSync _ _ | BunBuild _ | SpawnSync _ => False
  | _ => True
  end.

(** What a stage guarantees when it returns: every event it emitted
    satisfies [P] and the returned value satisfies [Q]. *)
Definition returnsWith {A} (P : Event -> Prop) (Q : A -> Prop) (m : M A)
    : Prop :=
  forall a, outcome m = Ret a -> Forall P (trace m) /\ Q a.

Definition bundlesWith (options : BuildOptions) (ev : Event) : Prop :=
  match ev with
  | BunBuild o => o = options
  | _ => True
  end.

Definition spawnsWith (argv : list string) (ev : Event) : Prop :=
  match ev with
  | SpawnSync a => a = argv
  | _ => True
  end.

Definition configPath (w : World) : string :=
  join w (cwd w) "tsbun.config.ts".

Definition configUrl (w : World) : string := "file://" ++ configPath w.

(** The first default candidate present on disk. *)
Definition firstDefault (w : World) : option string :=
  find (fileExists w) defaultEntries.

(** ** The claims as the specification words them *)

(** Entry resolution with the priority positional, default file, config,
    where "present" and "is a string" carry no further condition. *)
Definition entry_priority_as_stated (w : World) (positionals : list string)
    (config : option TsBunConfig) : Prop :=
  let resolved := outcome (entryStage w positionals config) in
  (forall p rest, positionals = p :: rest -> resolved = Ret p) /\
  (positionals = [] ->
   (forall e, firstDefault w = Some e -> resolved = Ret e) /\
   (firstDefault w = None ->
    (forall s, field config entry = Some (EntryString s) ->
               resolved = Ret s) /\
    (forall first others,
        field config entry = Some (EntryList (first :: others)) ->
        resolved = Ret first))).

(** [formatSize b] is a two-decimal value, a space and a unit of [sizes],
    the unit being the one that scales [b] into [1, 1024). *)
Definition formatSize_spec (floorLog : Z -> Z) (b : Z) : Prop :=
  exists (i : nat) (unit : string) (n : Z),
    nth_error sizes i = Some unit /\
    0 <= n /\
    2 * Z.abs (100 * b - n * 1024 ^ Z.of_nat i) <= 1024 ^ Z.of_nat i /\
    formatSize floorLog b = fixed2 n ++ " " ++ unit /\
    1024 ^ Z.of_nat i <= b < 1024 ^ (Z.of_nat i + 1) /\
    (b < 1024 -> unit = "B").

(** Effective options, where a given [outdir] is used whatever it is. *)
Definition effective_options_as_stated (c : TsBunConfig) : Prop :=
  (forall d, outdir c = Some d -> outdirOf (Some c) = d) /\
  (outdir c = None -> outdirOf (Some c) = "dist") /\
  (forall b, minify c = Some b -> minifyOf (Some c) = b) /\
  (minify c = None -> minifyOf (Some c) = true) /\
  (forall t, target c = Some t -> targetOf (Some c) = t) /\
  (target c = None -> targetOf (Some c) = TargetBun).

(** The two ways entry resolution can end. *)
Definition entryDefined (stage : M string) : Prop :=
  exists e, e <> EmptyString /\ outcome stage = Ret e /\ emits quiet stage.

Definition entryMissing (stage : M string) : Prop :=
  outcome stage = Exit 1 /\
  exists queries,
    trace stage = (queries ++ [ConsoleError notFoundMessage])%list.

(** ** Sample platforms *)

Definition samplePackage : PackageJson :=
  {| name := "tsbun";
     pkg_version := "1.0.0";
     author_name := "Author";
     author_email := "author@example.org";
     author_url := "https://example.org" |}.

Definition noFields : TsBunConfig :=
  {| entry := None; outdir := None; minify := None; target := None |}.

Definition onDisk (files : list string) (p : string) : bool :=
  existsb (String.eqb p) files.

Definition noFlags : Values :=
  {| help := false; version := false; watch := false |}.

Definition sampleWorld (args : Result (Values * list string))
    (files : list string) (imported : Result ConfigModule)
    (bundle : Result BuildOutput) (tsc : option Z) : World :=
  {| pkg := samplePackage;
     cwd := "/work";
     join := fun a b => a ++ "/" ++ b;
     relative := fun _ b => b;
     parseArgs := args;
     fileExists := onDisk files;
     fileExistsAfterBuild := onDisk files;
     importModule := fun _ => imported;
     rmSync := fun _ => Returned tt;
     bunBuild := fun _ => bundle;
     spawnSync := fun _ => Returned tsc;
     floorLog1024 := exactLog1024;
     elapsed := 12;
     typeErrorText := "null is not an object (evaluating 'err.message')" |}.

Definition moduleOf (c : TsBunConfig) : ConfigModule :=
  {| default := Some c; namespace := noFields |}.

Definition bundled : Result BuildOutput :=
  Returned {| success := true; logs := [];
              outputs := [ {| path := "dist/index.js"; size := 1536 |} ] |}.

Definition bundleFailed : Result BuildOutput :=
  Returned {| success := false;
              logs := ["error: Could not resolve ./missing"];
              outputs := [] |}.


(** ** Further observations *)

(** Calls to the two external tools, the bundler and the type generator. *)
Definition isToolCall (ev : Event) : bool :=
  match ev with
  | BunBuild _ | SpawnSync _ => true
  | _ => false
  end.

Definition toolCalls (t : list Event) : list Event := filter isToolCall t.

(** [tsc.exitCode !== 0] and [tsc.status !== 0], as the status the script
    then exits with. *)
Definition statusAfter (tsc : option Z) : Z :=
  match tsc with
  | Some 0 => 0
  | _ => 1
  end.

(** The line the verbose script prints for one artifact. *)
Definition artifactLine (w : World) (output : BuildArtifact) : Event :=
  ConsoleLog ("ESM " ++ relative w (cwd w) (path output) ++ " "
              ++ formatSize (floorLog1024 w) (size output)).

(** The two lines of the top-level handler for an error with a message. *)
Definition uncaughtReport (w : World) (message : string) : list Event :=
  [ConsoleError (helpMessage (pkg w)); ConsoleError (nl ++ message ++ nl)].

(** The command line both scripts start the type generator with. *)
Definition tscCommand (hasTsConfig : bool) (config : option TsBunConfig)
    (e : string) : list string :=
  "bun" :: "x" :: "tsc" :: tscArgs hasTsConfig (outdirOf config) e.

(** What the terse script does to clean [out]: a query, and [rmSync] when
    the directory is there. *)
Definition terseCleaning (w : World) (out : string) : list Event :=
  FileExists out :: (if fileExists w out then [RmSync out false] else []).

(** What the terse script prints between the bundle and the child
    process. *)
Definition terseAnnounce (hasTsConfig : bool) : list Event :=
  [ConsoleLog "JS Bundle created!"; ConsoleLog "Generating types...";
   FileExists "tsconfig.json"]
  ++ (if hasTsConfig then [ConsoleLog "Using tsconfig.json..."] else []).

(** What a build asks of the two tools, and how it ends: nothing when
    cleaning throws; the bundler alone when it throws or fails; the
    bundler and then the type generator when the bundle succeeded. *)
Definition buildSummary (w : World) (config : option TsBunConfig)
    (hasTsConfig : bool) (e : string) : list Event * Outcome unit :=
  let options := buildOptions config e in
  let argv := tscCommand hasTsConfig config e in
  match bunBuild w options with
  | Raised err => ([BunBuild options], Throw err)
  | Returned result =>
      if success result then
        ([BunBuild options; SpawnSync argv],
         match spawnSync w argv with
         | Raised err => Throw err
         | Returned code => Exit (statusAfter code)
         end)
      else ([BunBuild options], Exit 1)
  end.

(** The order in which a run may call the two tools. *)
Definition toolOrder (w : World) (calls : list Event) : Prop :=
  calls = [] \/
  (exists o,
      calls = [BunBuild o] /\
      forall result, bunBuild w o = Returned result ->
                     success result = false) \/
  (exists o result argv,
      calls = [BunBuild o; SpawnSync argv] /\
      bunBuild w o = Returned result /\ success result = true).

(** How a run that ended with status 0 got there. *)
Definition reachedStatusZero (w : World) (calls : list Event) : Prop :=
  (exists values positionals,
      parseArgs w = Returned (values, positionals) /\
      (version values = true \/ help values = true) /\
      calls = []) \/
  (exists o result argv,
      calls = [BunBuild o; SpawnSync argv] /\
      bunBuild w o = Returned result /\ success result = true /\
      spawnSync w argv = Returned (Some 0)).

(** The three ways a run of a script can end. *)
Definition endsProperly (w : World) (run : M unit) : Prop :=
  outcome run = Exit 0 \/
  outcome run = Exit 1 \/
  (outcome run = Throw (ThrownObject (typeErrorText w)) /\
   exists before,
     trace run = (before ++ [ConsoleError (helpMessage (pkg w))])%list).

(** A run that ended with status 1 right after [call], the last two things
    printed being the help text and [message]. *)
Definition reportedAfter (w : World) (run : M unit) (call : Event)
    (message : string) : Prop :=
  outcome run = Exit 1 /\
  exists before,
    trace run = (before ++ call :: uncaughtReport w message)%list.

(** Events other than a dynamic import and a warning. *)
Definition withoutImport (ev : Event) : Prop :=
  match ev with
  | Import _ | ConsoleWarn _ => False
  | _ => True
  end.

(** The options the bundler gets when no configuration is in effect. *)
Definition defaultOptions (e : string) : BuildOptions :=
  {| entrypoints := [e];
     build_outdir := "dist";
     build_target := TargetBun;
     build_minify := true |}.

(** The platform [w] with another result of [parseArgs]. *)
Definition withArguments (w : World) (args : Result (Values * list string))
    : World :=
  {| pkg := pkg w;
     cwd := cwd w;
     join := join w;
     relative := relative w;
     parseArgs := args;
     fileExists := fileExists w;
     fileExistsAfterBuild := fileExistsAfterBuild w;
     importModule := importModule w;
     rmSync := rmSync w;
     bunBuild := bunBuild w;
     spawnSync := spawnSync w;
     floorLog1024 := floorLog1024 w;
     elapsed := elapsed w;
     typeErrorText := typeErrorText w |}.

(** [values] with the [watch] option set to [b]. *)
Definition setWatch (b : bool) (values : Values) : Values :=
  {| help := help values; version := version values; watch := b |}.

(** The platform [w] on which removing a directory throws. *)
Definition withoutRemoval (w : World) (message : string) : World :=
  {| pkg := pkg w;
     cwd := cwd w;
     join := join w;
     relative := relative w;
     parseArgs := parseArgs w;
     fileExists := fileExists w;
     fileExistsAfterBuild := fileExistsAfterBuild w;
     importModule := importModule w;
     rmSync := fun _ => Raised (ThrownObject message);
     bunBuild := bunBuild w;
     spawnSync := spawnSync w;
     floorLog1024 := floorLog1024 w;
     elapsed := elapsed w;
     typeErrorText := typeErrorText w |}.

(** * Properties *)

Lemma length_append (s1 s2 : string) :
  String.length (s1 ++ s2) = (String.length s1 + String.length s2)%nat.
Proof.
  induction s1 as [| c s1 IH]; cbn; [reflexivity | now rewrite IH].
Qed.

#[local] Arguments helpMessage : simpl never.
#[local] Arguments versionLine : simpl never.
#[local] Arguments truthy : simpl never.
#[local] Arguments String.append : simpl never.
#[local] Arguments formatSize : simpl never.
#[local] Arguments showZ : simpl never.
#[local] Arguments entryFromConfig : simpl never.

(** ** The script monad *)

Lemma trace_bind {A B} (m : M A) (f : A -> M B) :
  trace (bind m f) =
  (trace m ++ match outcome m with
              | Ret a => trace (f a)
              | _ => []
              end)%list.
Proof.
  destruct m as [t [a | c | e]]; cbn; try (now rewrite app_nil_r).
  destruct (f a); reflexivity.
Qed.

Lemma outcome_bind {A B} (m : M A) (f : A -> M B) :
  outcome (bind m f) =
  match outcome m with
  | Ret a => outcome (f a)
  | Exit c => Exit c
  | Throw e => Throw e
  end.
Proof.
  destruct m as [t [a | c | e]]; cbn; try reflexivity.
  destruct (f a); reflexivity.
Qed.

Lemma trace_tryCatch {A} (m : M A) (h : Thrown -> M A) :
  trace (tryCatch m h) =
  (trace m ++ match outcome m with
              | Throw e => trace (h e)
              | _ => []
              end)%list.
Proof.
  destruct m as [t [a | c | e]]; cbn; try (now rewrite app_nil_r).
  destruct (h e); reflexivity.
Qed.

Lemma outcome_tryCatch {A} (m : M A) (h : Thrown -> M A) :
  outcome (tryCatch m h) =
  match outcome m with
  | Throw e => outcome (h e)
  | other => other
  end.
Proof.
  destruct m as [t [a | c | e]]; cbn; try reflexivity.
  destruct (h e); reflexivity.
Qed.

Lemma run_eta {A} (m : M A) : m = (trace m, outcome m).
Proof. destruct m; reflexivity. Qed.

Lemma bind_returns {A B} (m : M A) (f : A -> M B) (b : B) :
  outcome (bind m f) = Ret b ->
  exists a, outcome m = Ret a /\ outcome (f a) = Ret b.
Proof.
  rewrite outcome_bind. destruct (outcome m) as [a | c | e]; try discriminate.
  intros H. exists a. split; [reflexivity | assumption].
Qed.

Lemma forEach_tell {A} (f : A -> Event) (xs : list A) :
  forEach xs (fun x => tell (f x)) = (map f xs, Ret tt).
Proof.
  induction xs as [| x xs IH]; cbn; [reflexivity|].
  rewrite IH. reflexivity.
Qed.

(** *** Trace invariants *)

Lemma emits_ret {A} (P : Event -> Prop) (a : A) : emits P (ret a).
Proof. constructor. Qed.

Lemma emits_throw {A} (P : Event -> Prop) (e : Thrown) :
  emits P (@throw A e).
Proof. constructor. Qed.

Lemma emits_processExit {A} (P : Event -> Prop) (c : Z) :
  emits P (@processExit A c).
Proof. constructor. Qed.

Lemma emits_tell (P : Event -> Prop) (ev : Event) :
  P ev -> emits P (tell ev).
Proof. intros H. repeat constructor. exact H. Qed.

Lemma emits_ofResult {A} (P : Event -> Prop) (r : Result A) :
  emits P (ofResult r).
Proof. destruct r; constructor. Qed.

Lemma emits_bind {A B} (P : Event -> Prop) (m : M A) (f : A -> M B) :
  emits P m -> (forall a, emits P (f a)) -> emits P (bind m f).
Proof.
  unfold emits. intros Hm Hf. rewrite trace_bind.
  apply Forall_app. split; [exact Hm|].
  destruct (outcome m); [apply Hf | constructor | constructor].
Qed.

Lemma emits_tryCatch {A} (P : Event -> Prop) (m : M A) (h : Thrown -> M A) :
  emits P m -> (forall e, emits P (h e)) -> emits P (tryCatch m h).
Proof.
  unfold emits. intros Hm Hh. rewrite trace_tryCatch.
  apply Forall_app. split; [exact Hm|].
  destruct (outcome m); [constructor | constructor | apply Hh].
Qed.

Lemma emits_when (P : Event -> Prop) (b : bool) (m : M unit) :
  emits P m -> emits P (when b m).
Proof. intros H. destruct b; [exact H | constructor]. Qed.

Lemma emits_forEach {A} (P : Event -> Prop) (xs : list A)
    (body : A -> M unit) :
  (forall x, emits P (body x)) -> emits P (forEach xs body).
Proof.
  intros H. induction xs as [| x xs IH]; cbn [forEach].
  - constructor.
  - apply emits_bind; [apply H | intros _; exact IH].
Qed.

Lemma emits_weaken {A} (P Q : Event -> Prop) (m : M A) :
  (forall ev, P ev -> Q ev) -> emits P m -> emits Q m.
Proof. intros H. apply Forall_impl. exact H. Qed.

Lemma quiet_calm (ev : Event) : quiet ev -> calm ev.
Proof. destruct ev; cbn; tauto. Qed.

(** Walks a script along its binds; a [tell] leaves its event to check. *)
Ltac emits_walk :=
  repeat first
    [ apply emits_ret | apply emits_throw | apply emits_processExit
    | apply emits_ofResult
    | apply emits_bind; [| intros ?]
    | apply emits_tryCatch; [| intros ?]
    | apply emits_when
    | apply emits_forEach; intros ?
    | apply emits_tell; exact I
    | match goal with
      | |- emits _ (match ?x with _ => _ end) => destruct x
      end ].

Lemma emits_messageOf (P : Event -> Prop) (w : World) (err : Thrown) :
  emits P (messageOf w err).
Proof. destruct err; constructor. Qed.

Lemma emits_parse (P : Event -> Prop) (w : World) : emits P (parse w).
Proof.
  unfold parse. apply emits_tryCatch; [apply emits_ofResult|].
  intros e. apply emits_bind; [apply emits_messageOf | intros; constructor].
Qed.

Lemma emits_shortCircuit (w : World) (values : Values) :
  emits quiet (shortCircuit w values).
Proof. unfold shortCircuit, consoleLog. emits_walk. Qed.

Lemma emits_exists (w : World) (p : string) : emits quiet (exists_ w p).
Proof. unfold exists_. emits_walk. Qed.

Lemma emits_importConfig (w : World) (url : string) :
  emits quiet (importConfig w url).
Proof. unfold importConfig. emits_walk. Qed.

Lemma emits_warnLoadFailure (w : World) (err : Thrown) :
  emits quiet (warnLoadFailure w err).
Proof.
  unfold warnLoadFailure, consoleWarn.
  apply emits_bind; [apply emits_messageOf | intros; emits_walk].
Qed.

Lemma emits_scanDefaults (w : World) (candidates : list string)
    (current : option string) :
  emits quiet (scanDefaults w candidates current).
Proof.
  induction candidates as [| e rest IH]; cbn [scanDefaults].
  - constructor.
  - apply emits_bind; [apply emits_exists|].
    intros found. destruct found; [constructor | exact IH].
Qed.

Lemma emits_resolveEntry (w : World) (positionals : list string)
    (config : option TsBunConfig) :
  emits quiet (resolveEntry w positionals config).
Proof.
  unfold resolveEntry. apply emits_bind; [| intros; constructor].
  destruct (truthyOpt _); [constructor | apply emits_scanDefaults].
Qed.

Lemma emits_reportUncaught (w : World) (err : Thrown) :
  emits calm (reportUncaught w err).
Proof.
  unfold reportUncaught, consoleError.
  apply emits_bind; [emits_walk | intros _].
  apply emits_bind; [apply emits_messageOf | intros; emits_walk].
Qed.

Lemma emits_requireEntry (current : option string) :
  emits calm (requireEntry current).
Proof. unfold requireEntry, consoleError. emits_walk. Qed.

(** ** Parsing and the two flags *)

Lemma shortCircuit_version (w : World) (values : Values) :
  version values = true ->
  shortCircuit w values = ([ConsoleLog (versionLine (pkg w))], Exit 0).
Proof.
  intros H. unfold shortCircuit. rewrite H. reflexivity.
Qed.

Lemma shortCircuit_help (w : World) (values : Values) :
  version values = false -> help values = true ->
  shortCircuit w values = ([ConsoleLog (helpMessage (pkg w))], Exit 0).
Proof.
  intros Hv Hh. unfold shortCircuit. rewrite Hv, Hh. reflexivity.
Qed.

Lemma shortCircuit_none (w : World) (values : Values) :
  version values = false -> help values = false ->
  shortCircuit w values = ([], Ret tt).
Proof.
  intros Hv Hh. unfold shortCircuit. rewrite Hv, Hh. reflexivity.
Qed.

Lemma parse_returned (w : World) (parsed : Values * list string) :
  parseArgs w = Returned parsed -> parse w = ([], Ret parsed).
Proof.
  intros H. unfold parse. rewrite H. reflexivity.
Qed.

(** ** Entry resolution *)

Lemma truthy_nonempty (s : string) : truthy s = true <-> s <> EmptyString.
Proof.
  unfold truthy. destruct (String.eqb_spec s EmptyString) as [-> | Hne];
    cbn; split; intros H; congruence.
Qed.

Lemma scanDefaults_outcome (w : World) (candidates : list string)
    (current : option string) :
  outcome (scanDefaults w candidates current) =
  Ret (match find (fileExists w) candidates with
       | Some e => Some e
       | None => current
       end).
Proof.
  induction candidates as [| e rest IH]; cbn [scanDefaults find].
  - reflexivity.
  - rewrite outcome_bind. cbn.
    destruct (fileExists w e); [reflexivity | exact IH].
Qed.

Lemma firstDefault_truthy (w : World) (e : string) :
  firstDefault w = Some e -> truthy e = true.
Proof.
  unfold firstDefault. intros H. apply find_some in H as [Hin _].
  destruct Hin as [<- | [<- | []]]; reflexivity.
Qed.

(** The value of [entry] after line 110 (312). *)
Lemma resolveEntry_outcome (w : World) (positionals : list string)
    (config : option TsBunConfig) :
  outcome (resolveEntry w positionals config) =
  Ret (entryFromConfig
         (if truthyOpt (nth_error positionals 0)
          then nth_error positionals 0
          else match firstDefault w with
               | Some e => Some e
               | None => nth_error positionals 0
               end)
         config).
Proof.
  unfold resolveEntry. rewrite outcome_bind.
  destruct (truthyOpt (nth_error positionals 0)); [reflexivity|].
  rewrite scanDefaults_outcome. reflexivity.
Qed.

Lemma entryStage_outcome (w : World) (positionals : list string)
    (config : option TsBunConfig) :
  outcome (entryStage w positionals config) =
  outcome
    (requireEntry
       (entryFromConfig
          (if truthyOpt (nth_error positionals 0)
           then nth_error positionals 0
           else match firstDefault w with
                | Some e => Some e
                | None => nth_error positionals 0
                end)
          config)).
Proof.
  unfold entryStage. rewrite outcome_bind, resolveEntry_outcome. reflexivity.
Qed.

Lemma requireEntry_truthy (e : string) :
  truthy e = true -> requireEntry (Some e) = ([], Ret e).
Proof. intros H. unfold requireEntry. rewrite H. reflexivity. Qed.

Lemma entryFromConfig_truthy (e : string) (config : option TsBunConfig) :
  truthy e = true -> entryFromConfig (Some e) config = Some e.
Proof. intros H. unfold entryFromConfig. cbn. rewrite H. reflexivity. Qed.

Lemma emits_bind_outcome {A B} (P : Event -> Prop) (m : M A)
    (f : A -> M B) :
  emits P m -> (forall a, outcome m = Ret a -> emits P (f a)) ->
  emits P (bind m f).
Proof.
  unfold emits. intros Hm Hf. rewrite trace_bind.
  apply Forall_app. split; [exact Hm|].
  destruct (outcome m); [apply Hf; reflexivity | constructor | constructor].
Qed.

(** *** What a stage guarantees when it returns *)

Lemma returnsWith_bind {A B} (P : Event -> Prop) (Q : A -> Prop)
    (R : B -> Prop) (m : M A) (f : A -> M B) :
  returnsWith P Q m -> (forall a, Q a -> returnsWith P R (f a)) ->
  returnsWith P R (bind m f).
Proof.
  intros Hm Hf b Hb.
  apply bind_returns in Hb as (a & Ha & Hb).
  destruct (Hm a Ha) as [Ht Hq].
  destruct (Hf a Hq b Hb) as [Ht' Hr].
  split; [| exact Hr].
  rewrite trace_bind, Ha. apply Forall_app. split; assumption.
Qed.

Lemma returnsWith_emits {A} (P : Event -> Prop) (m : M A) :
  emits P m -> returnsWith P (fun a => outcome m = Ret a) m.
Proof. intros H a Ha. split; assumption. Qed.

Lemma returnsWith_ret {A} (P : Event -> Prop) (Q : A -> Prop) (a : A) :
  Q a -> returnsWith P Q (ret a).
Proof.
  intros H a' Ha. cbn in Ha. injection Ha as <-.
  split; [constructor | exact H].
Qed.

Lemma parse_returns (w : World) :
  returnsWith quiet (fun parsed => parseArgs w = Returned parsed) (parse w).
Proof.
  intros parsed H. split; [apply emits_parse|].
  unfold parse in H. destruct (parseArgs w) as [err | p]; cbn in H.
  - destruct err; cbn in H; discriminate H.
  - congruence.
Qed.

Lemma shortCircuit_returns (w : World) (values : Values) :
  returnsWith quiet
    (fun _ => version values = false /\ help values = false)
    (shortCircuit w values).
Proof.
  intros u H. split; [apply emits_shortCircuit|].
  unfold shortCircuit in H.
  destruct (version values), (help values); cbn in H;
    try discriminate H; split; reflexivity.
Qed.

Lemma requireEntry_returns (current : option string) :
  returnsWith quiet
    (fun e => requireEntry current = ([], Ret e) /\ truthy e = true)
    (requireEntry current).
Proof.
  intros e H. unfold requireEntry in *.
  destruct current as [s |]; [destruct (truthy s) eqn:Hs |];
    cbn in H; try discriminate H.
  injection H as <-. repeat split; [constructor | assumption].
Qed.

Lemma exists_returns (w : World) (p : string) :
  returnsWith quiet (fun b => b = fileExists w p) (exists_ w p).
Proof.
  intros b H. split; [apply emits_exists|].
  cbn in H. congruence.
Qed.

Lemma emits_consoleLog (s : string) : emits quiet (consoleLog s).
Proof. apply emits_tell. exact I. Qed.

Lemma emits_consoleError (s : string) : emits calm (consoleError s).
Proof. apply emits_tell. exact I. Qed.

(** ** Preparation *)

Lemma emits_Verbose_loadConfig (w : World) :
  emits quiet (Verbose.loadConfig w).
Proof.
  unfold Verbose.loadConfig.
  apply emits_bind; [apply emits_exists | intros present].
  destruct present; [| constructor].
  apply emits_tryCatch.
  - apply emits_bind; [apply emits_importConfig | intros; constructor].
  - intros err.
    apply emits_bind; [apply emits_warnLoadFailure | intros; constructor].
Qed.

Lemma emits_Terse_loadConfig (w : World) :
  emits quiet (Terse.loadConfig w).
Proof.
  unfold Terse.loadConfig.
  apply emits_bind; [apply emits_exists | intros present].
  destruct present; [| constructor].
  apply emits_tryCatch.
  - apply emits_bind; [apply emits_importConfig | intros; constructor].
  - intros err.
    apply emits_bind; [apply emits_warnLoadFailure | intros; constructor].
Qed.

Ltac calm_leaf :=
  first
    [ apply emits_parse
    | apply emits_requireEntry
    | apply emits_consoleError
    | apply (emits_weaken quiet calm _ quiet_calm);
      first [ apply emits_shortCircuit | apply emits_Verbose_loadConfig
            | apply emits_Terse_loadConfig | apply emits_resolveEntry
            | apply emits_consoleLog | apply emits_exists
            | apply emits_when; apply emits_consoleLog ] ].

Lemma emits_Verbose_prepare (w : World) : emits calm (Verbose.prepare w).
Proof.
  unfold Verbose.prepare.
  apply emits_bind; [calm_leaf | intros [values positionals]].
  apply emits_bind; [calm_leaf | intros _].
  apply emits_bind; [calm_leaf | intros [config configPath]].
  repeat (apply emits_bind; [calm_leaf | intros ?]).
  constructor.
Qed.

Lemma emits_Terse_prepare (w : World) : emits calm (Terse.prepare w).
Proof.
  unfold Terse.prepare.
  apply emits_bind; [calm_leaf | intros [values positionals]].
  repeat (apply emits_bind; [calm_leaf | intros ?]).
  constructor.
Qed.

Lemma Verbose_prepare_returns (w : World) :
  returnsWith quiet
    (fun ready =>
       let '(config, hasTsConfig, e) := ready in
       exists values positionals configPath,
         parseArgs w = Returned (values, positionals) /\
         version values = false /\ help values = false /\
         outcome (Verbose.loadConfig w) = Ret (config, configPath) /\
         outcome (entryStage w positionals config) = Ret e /\
         truthy e = true /\
         hasTsConfig = fileExists w "tsconfig.json")
    (Verbose.prepare w).
Proof.
  unfold Verbose.prepare.
  eapply returnsWith_bind; [apply parse_returns |].
  intros [values positionals] Hparse.
  eapply returnsWith_bind; [apply shortCircuit_returns |].
  intros _ [Hv Hh].
  eapply returnsWith_bind;
    [apply returnsWith_emits, emits_Verbose_loadConfig |].
  intros [config configPath] Hload.
  eapply returnsWith_bind;
    [apply returnsWith_emits, emits_resolveEntry |].
  intros current Hcur.
  eapply returnsWith_bind; [apply requireEntry_returns |].
  intros e [Hreq He].
  eapply returnsWith_bind;
    [apply returnsWith_emits, emits_consoleLog |].
  intros _ _.
  eapply returnsWith_bind; [apply exists_returns |].
  intros hasTsConfig Hts.
  repeat (eapply returnsWith_bind;
          [apply returnsWith_emits;
           first [apply emits_consoleLog
                 | apply emits_when, emits_consoleLog] |];
          intros _ _).
  apply returnsWith_ret.
  exists values, positionals, configPath.
  repeat split; try assumption.
  unfold entryStage. rewrite outcome_bind, Hcur, Hreq. reflexivity.
Qed.

Lemma Terse_prepare_returns (w : World) :
  returnsWith quiet
    (fun ready =>
       let '(config, e) := ready in
       exists values positionals,
         parseArgs w = Returned (values, positionals) /\
         version values = false /\ help values = false /\
         outcome (Terse.loadConfig w) = Ret config /\
         outcome (entryStage w positionals config) = Ret e /\
         truthy e = true)
    (Terse.prepare w).
Proof.
  unfold Terse.prepare.
  eapply returnsWith_bind; [apply parse_returns |].
  intros [values positionals] Hparse.
  eapply returnsWith_bind; [apply shortCircuit_returns |].
  intros _ [Hv Hh].
  eapply returnsWith_bind;
    [apply returnsWith_emits, emits_Terse_loadConfig |].
  intros config Hload.
  eapply returnsWith_bind;
    [apply returnsWith_emits, emits_when, emits_consoleLog |].
  intros _ _.
  eapply returnsWith_bind;
    [apply returnsWith_emits, emits_resolveEntry |].
  intros current Hcur.
  eapply returnsWith_bind; [apply requireEntry_returns |].
  intros e [Hreq He].
  eapply returnsWith_bind;
    [apply returnsWith_emits, emits_consoleLog |].
  intros _ _.
  apply returnsWith_ret.
  exists values, positionals.
  repeat split; try assumption.
  unfold entryStage. rewrite outcome_bind, Hcur, Hreq. reflexivity.
Qed.

(** ** Bundling and type generation *)

Ltac tell_leaf := apply emits_tell; first [exact I | reflexivity].

Ltac build_walk :=
  repeat first
    [ apply emits_ret | apply emits_processExit | apply emits_ofResult
    | tell_leaf
    | apply emits_when
    | apply emits_forEach; intros ?
    | apply emits_bind; [| intros ?] ].

Lemma Verbose_build_bundles (w : World) (config : option TsBunConfig)
    (hasTsConfig : bool) (e : string) :
  emits (bundlesWith (buildOptions config e))
    (Verbose.build w config hasTsConfig e).
Proof.
  unfold Verbose.build, Verbose.reportArtifact, consoleLog, consoleError.
  cbv zeta. build_walk.
Qed.

Lemma Verbose_build_spawns (w : World) (config : option TsBunConfig)
    (hasTsConfig : bool) (e : string) :
  emits
    (spawnsWith
       ("bun" :: "x" :: "tsc" :: tscArgs hasTsConfig (outdirOf config) e))
    (Verbose.build w config hasTsConfig e).
Proof.
  unfold Verbose.build, Verbose.reportArtifact, consoleLog, consoleError.
  cbv zeta. build_walk.
Qed.

Lemma Terse_build_bundles (w : World) (config : option TsBunConfig)
    (e : string) :
  emits (bundlesWith (buildOptions config e)) (Terse.build w config e).
Proof.
  unfold Terse.build, exists_, existsAfterBuild, consoleLog, consoleError.
  cbv zeta. build_walk.
Qed.

Lemma Terse_build_spawns (w : World) (config : option TsBunConfig)
    (e : string) :
  emits
    (spawnsWith
       ("bun" :: "x" :: "tsc"
        :: tscArgs (fileExistsAfterBuild w "tsconfig.json")
             (outdirOf config) e))
    (Terse.build w config e).
Proof.
  unfold Terse.build, exists_, existsAfterBuild, consoleLog, consoleError.
  cbv zeta.
  repeat first
    [ apply emits_ret | apply emits_processExit | apply emits_ofResult
    | tell_leaf
    | apply emits_when
    | apply emits_forEach; intros ?
    | apply emits_bind_outcome;
      [| intros ? ?;
         try match goal with
             | H : outcome _ = Ret _ |- _ =>
                 cbn in H; first [injection H as <- | clear H]
             end ] ].
Qed.

(** A failed bundle ends the run at the first [process.exit(1)]. *)
Lemma Verbose_build_failed (w : World) (config : option TsBunConfig)
    (hasTsConfig : bool) (e : string) (result : BuildOutput) :
  rmSync w (outdirOf config) = Returned tt ->
  bunBuild w (buildOptions config e) = Returned result ->
  success result = false ->
  Verbose.build w config hasTsConfig e =
  ([RmSync (outdirOf config) true; ConsoleLog "ESM Build start";
    BunBuild (buildOptions config e); ConsoleError "Build failed!"]
   ++ map ConsoleError (logs result), Exit 1)%list.
Proof.
  intros Hrm Hbuild Hfail. unfold Verbose.build. cbv zeta.
  rewrite Hrm, Hbuild. cbn. rewrite Hfail. cbn.
  unfold consoleError. rewrite forEach_tell. cbn.
  rewrite app_nil_r. reflexivity.
Qed.

Lemma Verbose_build_bundler_reached (w : World)
    (config : option TsBunConfig) (hasTsConfig : bool) (e : string)
    (o : BuildOptions) :
  In (BunBuild o) (trace (Verbose.build w config hasTsConfig e)) ->
  rmSync w (outdirOf config) = Returned tt.
Proof.
  unfold Verbose.build. cbv zeta.
  destruct (rmSync w (outdirOf config)) as [err | []]; [| reflexivity].
  cbn. intros [H | []]. discriminate H.
Qed.

Lemma Terse_build_failed (w : World) (config : option TsBunConfig)
    (e : string) (result : BuildOutput) (o : BuildOptions) :
  In (BunBuild o) (trace (Terse.build w config e)) ->
  bunBuild w (buildOptions config e) = Returned result ->
  success result = false ->
  exists cleaning,
    Forall (fun ev => forall argv, ev <> SpawnSync argv) cleaning /\
    Terse.build w config e =
    (cleaning ++ [BunBuild (buildOptions config e);
                  ConsoleError "Build failed!"]
     ++ map ConsoleError (logs result), Exit 1)%list.
Proof.
  intros Hin Hbuild Hfail. unfold Terse.build in *. cbv zeta in *.
  unfold consoleError. cbn in *.
  destruct (fileExists w (outdirOf config)); cbn in *.
  - destruct (rmSync w (outdirOf config)) as [err | []]; cbn in *.
    + destruct Hin as [H | [H | []]]; discriminate H.
    + rewrite Hbuild. cbn. rewrite Hfail. cbn.
      rewrite forEach_tell. cbn. rewrite app_nil_r.
      exists [FileExists (outdirOf config); RmSync (outdirOf config) false].
      split; [| reflexivity].
      repeat constructor; intros argv H; discriminate H.
  - rewrite Hbuild. cbn. rewrite Hfail. cbn.
    rewrite forEach_tell. cbn. rewrite app_nil_r.
    exists [FileExists (outdirOf config)].
    split; [| reflexivity].
    repeat constructor; intros argv H; discriminate H.
Qed.

(** ** Anatomy of a run *)

Lemma Verbose_main_build_event (w : World) (ev : Event) :
  In ev (trace (Verbose.main w)) -> ~ calm ev ->
  exists config hasTsConfig e,
    outcome (Verbose.prepare w) = Ret (config, hasTsConfig, e) /\
    In ev (trace (Verbose.build w config hasTsConfig e)).
Proof.
  intros Hin Hloud. unfold Verbose.main in Hin.
  rewrite trace_tryCatch, trace_bind in Hin.
  pose proof (emits_Verbose_prepare w) as Hprep.
  unfold emits in Hprep. rewrite Forall_forall in Hprep.
  apply in_app_or in Hin as [Hin | Hin];
    [apply in_app_or in Hin as [Hin | Hin] |].
  - exfalso. apply Hloud, Hprep, Hin.
  - destruct (outcome (Verbose.prepare w)) as [[[config b] e] | c | err];
      [| destruct Hin | destruct Hin].
    exists config, b, e. split; [reflexivity | exact Hin].
  - exfalso.
    destruct (outcome (_ <- Verbose.prepare w ;; _)) as [u | c | err];
      [destruct Hin | destruct Hin |].
    pose proof (emits_reportUncaught w err) as Hh.
    unfold emits in Hh. rewrite Forall_forall in Hh.
    apply Hloud, Hh, Hin.
Qed.

Lemma Verbose_main_exit (w : World) (config : option TsBunConfig)
    (hasTsConfig : bool) (e : string) (c : Z) :
  outcome (Verbose.prepare w) = Ret (config, hasTsConfig, e) ->
  outcome (Verbose.build w config hasTsConfig e) = Exit c ->
  Verbose.main w =
  ((trace (Verbose.prepare w)
    ++ trace (Verbose.build w config hasTsConfig e))%list, Exit c).
Proof.
  intros Hprep Hbuild. rewrite (run_eta (Verbose.main w)).
  unfold Verbose.main.
  rewrite trace_tryCatch, outcome_tryCatch, trace_bind, outcome_bind, Hprep.
  rewrite Hbuild, app_nil_r. reflexivity.
Qed.

Lemma Terse_main_build_event (w : World) (ev : Event) :
  In ev (trace (Terse.main w)) -> ~ calm ev ->
  exists config e,
    outcome (Terse.prepare w) = Ret (config, e) /\
    In ev (trace (Terse.build w config e)).
Proof.
  intros Hin Hloud. unfold Terse.main in Hin.
  rewrite trace_tryCatch, trace_bind in Hin.
  pose proof (emits_Terse_prepare w) as Hprep.
  unfold emits in Hprep. rewrite Forall_forall in Hprep.
  apply in_app_or in Hin as [Hin | Hin];
    [apply in_app_or in Hin as [Hin | Hin] |].
  - exfalso. apply Hloud, Hprep, Hin.
  - destruct (outcome (Terse.prepare w)) as [[config e] | c | err];
      [| destruct Hin | destruct Hin].
    exists config, e. split; [reflexivity | exact Hin].
  - exfalso.
    destruct (outcome (_ <- Terse.prepare w ;; _)) as [u | c | err];
      [destruct Hin | destruct Hin |].
    pose proof (emits_reportUncaught w err) as Hh.
    unfold emits in Hh. rewrite Forall_forall in Hh.
    apply Hloud, Hh, Hin.
Qed.

Lemma Terse_main_exit (w : World) (config : option TsBunConfig)
    (e : string) (c : Z) :
  outcome (Terse.prepare w) = Ret (config, e) ->
  outcome (Terse.build w config e) = Exit c ->
  Terse.main w =
  ((trace (Terse.prepare w) ++ trace (Terse.build w config e))%list,
   Exit c).
Proof.
  intros Hprep Hbuild. rewrite (run_eta (Terse.main w)).
  unfold Terse.main.
  rewrite trace_tryCatch, outcome_tryCatch, trace_bind, outcome_bind, Hprep.
  rewrite Hbuild, app_nil_r. reflexivity.
Qed.

(** ** Runs that stop before the build *)

Lemma bind_ret_l {A B} (a : A) (f : A -> M B) : bind ([], Ret a) f = f a.
Proof. cbn. destruct (f a). reflexivity. Qed.

Lemma Verbose_main_prepare_exit (w : World) (t : list Event) (c : Z) :
  Verbose.prepare w = (t, Exit c) -> Verbose.main w = (t, Exit c).
Proof. intros H. unfold Verbose.main. rewrite H. reflexivity. Qed.

Lemma Terse_main_prepare_exit (w : World) (t : list Event) (c : Z) :
  Terse.prepare w = (t, Exit c) -> Terse.main w = (t, Exit c).
Proof. intros H. unfold Terse.main. rewrite H. reflexivity. Qed.

Lemma Verbose_main_prepare_throw (w : World) (t : list Event)
    (message : string) :
  Verbose.prepare w = (t, Throw (ThrownObject message)) ->
  Verbose.main w =
  ((t ++ [ConsoleError (helpMessage (pkg w));
          ConsoleError (nl ++ message ++ nl)])%list, Exit 1).
Proof. intros H. unfold Verbose.main. rewrite H. reflexivity. Qed.

Lemma Terse_main_prepare_throw (w : World) (t : list Event)
    (message : string) :
  Terse.prepare w = (t, Throw (ThrownObject message)) ->
  Terse.main w =
  ((t ++ [ConsoleError (helpMessage (pkg w));
          ConsoleError (nl ++ message ++ nl)])%list, Exit 1).
Proof. intros H. unfold Terse.main. rewrite H. reflexivity. Qed.

Lemma entryStage_cases (w : World) (positionals : list string)
    (config : option TsBunConfig) :
  (exists e,
      truthy e = true /\
      entryStage w positionals config
      = (trace (resolveEntry w positionals config), Ret e)) \/
  entryStage w positionals config
  = ((trace (resolveEntry w positionals config)
      ++ [ConsoleError notFoundMessage])%list, Exit 1).
Proof.
  unfold entryStage.
  pose proof (resolveEntry_outcome w positionals config) as Hres.
  destruct (resolveEntry w positionals config) as [queries result].
  cbn in Hres. rewrite Hres.
  set (current := entryFromConfig _ _). clearbody current.
  unfold requireEntry.
  destruct current as [e |]; [destruct (truthy e) eqn:He |]; cbn;
    rewrite ?He; cbn.
  - left. exists e. rewrite app_nil_r. split; [assumption | reflexivity].
  - right. reflexivity.
  - right. reflexivity.
Qed.

Lemma entryDefined_not_missing (stage : M string) :
  entryDefined stage -> ~ entryMissing stage.
Proof.
  intros (e & _ & Hret & _) [Hexit _]. congruence.
Qed.

Lemma entryStage_exit (w : World) (positionals : list string)
    (config : option TsBunConfig) (c : Z) :
  outcome (entryStage w positionals config) = Exit c ->
  exists current,
    outcome (resolveEntry w positionals config) = Ret current /\
    outcome (requireEntry current) = Exit c.
Proof.
  unfold entryStage. rewrite outcome_bind, resolveEntry_outcome.
  intros H. eexists. split; [reflexivity | exact H].
Qed.

Lemma Verbose_prepare_resumes (w : World) (values : Values)
    (positionals : list string) (config : option TsBunConfig)
    (path : option string) :
  parseArgs w = Returned (values, positionals) ->
  version values = false -> help values = false ->
  outcome (Verbose.loadConfig w) = Ret (config, path) ->
  (forall e, outcome (entryStage w positionals config) = Ret e ->
             outcome (Verbose.prepare w)
             = Ret (config, fileExists w "tsconfig.json", e)) /\
  (forall c, outcome (entryStage w positionals config) = Exit c ->
             Verbose.prepare w
             = ((trace (Verbose.loadConfig w)
                 ++ trace (entryStage w positionals config))%list, Exit c)).
Proof.
  intros Hparse Hv Hh Hload.
  unfold Verbose.prepare.
  rewrite (parse_returned _ _ Hparse), bind_ret_l.
  rewrite (shortCircuit_none _ _ Hv Hh), bind_ret_l.
  split.
  - intros e He. apply bind_returns in He as (current & Hcur & Hreq).
    rewrite outcome_bind, Hload. cbv beta iota.
    rewrite outcome_bind, Hcur, outcome_bind, Hreq.
    cbn. destruct (fileExists w "tsconfig.json"), (truthyOpt path);
      reflexivity.
  - intros c Hc. pose proof Hc as Hstage.
    apply entryStage_exit in Hc as (current & Hcur & Hreq).
    rewrite (run_eta (_ <- Verbose.loadConfig w ;; _)).
    rewrite trace_bind, outcome_bind, Hload. cbv beta iota.
    rewrite trace_bind, outcome_bind, Hcur, trace_bind, outcome_bind, Hreq.
    unfold entryStage. rewrite trace_bind, Hcur, app_nil_r. reflexivity.
Qed.

Lemma Terse_prepare_resumes (w : World) (values : Values)
    (positionals : list string) (config : option TsBunConfig) :
  parseArgs w = Returned (values, positionals) ->
  version values = false -> help values = false ->
  outcome (Terse.loadConfig w) = Ret config ->
  (forall e, outcome (entryStage w positionals config) = Ret e ->
             outcome (Terse.prepare w) = Ret (config, e)) /\
  (forall c, outcome (entryStage w positionals config) = Exit c ->
             Terse.prepare w
             = ((trace (Terse.loadConfig w)
                 ++ match config with
                    | Some _ => [ConsoleLog "Using tsbun.config.ts..."]
                    | None => []
                    end
                 ++ trace (entryStage w positionals config))%list,
                Exit c)).
Proof.
  intros Hparse Hv Hh Hload.
  unfold Terse.prepare.
  rewrite (parse_returned _ _ Hparse), bind_ret_l.
  rewrite (shortCircuit_none _ _ Hv Hh), bind_ret_l.
  split.
  - intros e He. apply bind_returns in He as (current & Hcur & Hreq).
    rewrite outcome_bind, Hload, outcome_bind.
    replace (outcome (when _ _)) with (Ret (A := unit) tt)
      by (destruct config; reflexivity).
    rewrite outcome_bind, Hcur, outcome_bind, Hreq. reflexivity.
  - intros c Hc. pose proof Hc as Hstage.
    apply entryStage_exit in Hc as (current & Hcur & Hreq).
    rewrite (run_eta (_ <- Terse.loadConfig w ;; _)).
    rewrite trace_bind, outcome_bind, Hload, trace_bind, outcome_bind.
    replace (outcome (when _ _)) with (Ret (A := unit) tt)
      by (destruct config; reflexivity).
    rewrite trace_bind, outcome_bind, Hcur, trace_bind, outcome_bind, Hreq.
    unfold entryStage. rewrite trace_bind, Hcur, app_nil_r.
    destruct config; reflexivity.
Qed.

Lemma Verbose_loadConfig_absent (w : World) :
  fileExists w (configPath w) = false ->
  Verbose.loadConfig w = ([FileExists (configPath w)], Ret (None, None)).
Proof.
  intros H. unfold Verbose.loadConfig, exists_. fold (configPath w).
  cbn. rewrite H. reflexivity.
Qed.

Lemma Terse_loadConfig_absent (w : World) :
  fileExists w (configPath w) = false ->
  Terse.loadConfig w = ([FileExists (configPath w)], Ret None).
Proof.
  intros H. unfold Terse.loadConfig, exists_. fold (configPath w).
  cbn. rewrite H. reflexivity.
Qed.

Lemma firstDefault_none (w : World) :
  firstDefault w = None ->
  fileExists w "index.ts" = false /\ fileExists w "src/index.ts" = false.
Proof.
  unfold firstDefault. cbn.
  destruct (fileExists w "index.ts"); [discriminate |].
  destruct (fileExists w "src/index.ts"); [discriminate |].
  split; reflexivity.
Qed.

(** With nothing on the command line and no default file, resolution asks
    for both defaults and then depends on the configuration alone. *)
Lemma entryStage_no_candidates (w : World) (config : option TsBunConfig) :
  firstDefault w = None ->
  entryFromConfig None config = None ->
  entryStage w [] config
  = ([FileExists "index.ts"; FileExists "src/index.ts";
      ConsoleError notFoundMessage], Exit 1).
Proof.
  intros Hnone Hconfig. apply firstDefault_none in Hnone as [Hindex Hsrc].
  unfold entryStage, resolveEntry, exists_. cbn.
  rewrite Hindex. cbn. rewrite Hsrc. cbn. rewrite Hconfig. reflexivity.
Qed.

Lemma entryStage_defined (w : World) (positionals : list string)
    (config : option TsBunConfig) (e : string) :
  truthy e = true ->
  entryStage w positionals config
  = (trace (resolveEntry w positionals config), Ret e) ->
  entryDefined (entryStage w positionals config).
Proof.
  intros He Hrun. exists e. rewrite Hrun.
  split; [apply truthy_nonempty, He | split; [reflexivity |]].
  apply emits_resolveEntry.
Qed.

Lemma entryStage_missing (w : World) (positionals : list string)
    (config : option TsBunConfig) :
  entryStage w positionals config
  = ((trace (resolveEntry w positionals config)
      ++ [ConsoleError notFoundMessage])%list, Exit 1) ->
  entryMissing (entryStage w positionals config).
Proof.
  intros Hrun. rewrite Hrun. split; [reflexivity |].
  eexists. reflexivity.
Qed.

(** ** Loading the configuration *)

Lemma Verbose_loadConfig_loaded (w : World) (m : ConfigModule) :
  fileExists w (configPath w) = true ->
  importModule w (configUrl w) = Returned m ->
  Verbose.loadConfig w
  = ([FileExists (configPath w); Import (configUrl w)],
     Ret (Some (exported m), Some (configPath w))).
Proof.
  intros Hfile Himport. unfold Verbose.loadConfig, exists_, importConfig.
  fold (configPath w). fold (configUrl w).
  cbn. rewrite Hfile. cbn. rewrite Himport. reflexivity.
Qed.

Lemma Terse_loadConfig_loaded (w : World) (m : ConfigModule) :
  fileExists w (configPath w) = true ->
  importModule w (configUrl w) = Returned m ->
  Terse.loadConfig w
  = ([FileExists (configPath w); Import (configUrl w)],
     Ret (Some (exported m))).
Proof.
  intros Hfile Himport. unfold Terse.loadConfig, exists_, importConfig.
  fold (configPath w). fold (configUrl w).
  cbn. rewrite Hfile. cbn. rewrite Himport. reflexivity.
Qed.


Lemma loadConfig_nullish (w : World) :
  fileExists w (configPath w) = true ->
  importModule w (configUrl w) = Raised ThrownNullish ->
  Verbose.loadConfig w
  = ([FileExists (configPath w); Import (configUrl w)],
     Throw (ThrownObject (typeErrorText w))) /\
  Terse.loadConfig w
  = ([FileExists (configPath w); Import (configUrl w)],
     Throw (ThrownObject (typeErrorText w))).
Proof.
  intros Hfile Himport.
  unfold Verbose.loadConfig, Terse.loadConfig, exists_, importConfig,
    warnLoadFailure.
  fold (configPath w). fold (configUrl w).
  cbn. rewrite Hfile. cbn. rewrite Himport. split; reflexivity.
Qed.

Lemma loud_SpawnSync (argv : list string) : ~ calm (SpawnSync argv).
Proof. intros H. exact H. Qed.

Lemma loud_BunBuild (o : BuildOptions) : ~ calm (BunBuild o).
Proof. intros H. exact H. Qed.

Lemma emits_In {A} (P : Event -> Prop) (m : M A) (ev : Event) :
  emits P m -> In ev (trace m) -> P ev.
Proof. unfold emits. rewrite Forall_forall. intros H. apply H. Qed.

Lemma no_spawn_in_errors (argv : list string) (lines : list string) :
  ~ In (SpawnSync argv) (map ConsoleError lines).
Proof.
  intros H. apply in_map_iff in H as (line & Heq & _). discriminate Heq.
Qed.

(** * The claims *)

(** ** C1: entry resolution priority *)

(** The priority as literally worded fails on an empty positional: it is
    present, yet [index.ts] is built. *)
Lemma entry_priority_empty_positional :
  ~ entry_priority_as_stated
      (sampleWorld (Returned (noFlags, [EmptyString])) ["index.ts"]
         (Raised ThrownNullish) bundled (Some 0))
      [EmptyString] None.
Proof.
  intros [H _]. specialize (H EmptyString [] eq_refl).
  vm_compute in H. discriminate H.
Qed.

(** C1 (amended).  The entry handed to the build follows the priority
    positional argument, default file, configuration: a first positional
    that is a non-empty string is taken verbatim and without any file
    query; with no positional, or an empty one, the first of [index.ts],
    [src/index.ts] present on disk is taken; failing that, a non-empty
    string [entry] of the configuration, or the non-empty first element of
    a list [entry].  In both scripts the entry so resolved is the one
    preparation passes on to the build. *)
Theorem entry_priority (w : World) (values : Values)
    (positionals : list string) (config : option TsBunConfig) :
  let resolved := outcome (entryStage w positionals config) in
  (forall p rest,
      positionals = p :: rest -> p <> EmptyString ->
      entryStage w positionals config = ([], Ret p)) /\
  (positionals = [] \/ (exists rest, positionals = EmptyString :: rest) ->
   (forall e, firstDefault w = Some e -> resolved = Ret e) /\
   (firstDefault w = None ->
    (forall s, field config entry = Some (EntryString s) ->
               s <> EmptyString -> resolved = Ret s) /\
    (forall first others,
        field config entry = Some (EntryList (first :: others)) ->
        first <> EmptyString -> resolved = Ret first))) /\
  (parseArgs w = Returned (values, positionals) ->
   version values = false -> help values = false ->
   forall e, resolved = Ret e ->
   (forall path,
       outcome (Verbose.loadConfig w) = Ret (config, path) ->
       outcome (Verbose.prepare w)
       = Ret (config, fileExists w "tsconfig.json", e)) /\
   (outcome (Terse.loadConfig w) = Ret config ->
    outcome (Terse.prepare w) = Ret (config, e))).
Proof.
  cbv zeta. split; [| split].
  - intros p rest -> Hp. apply truthy_nonempty in Hp.
    unfold entryStage, resolveEntry. cbn. rewrite Hp. cbn.
    rewrite (entryFromConfig_truthy _ _ Hp), (requireEntry_truthy _ Hp).
    reflexivity.
  - intros Hpos. rewrite entryStage_outcome.
    assert (Hfalsy : truthyOpt (nth_error positionals 0) = false).
    { destruct Hpos as [-> | [rest ->]]; reflexivity. }
    rewrite Hfalsy. split.
    + intros e He. rewrite He.
      pose proof (firstDefault_truthy _ _ He) as Ht.
      rewrite (entryFromConfig_truthy _ _ Ht), (requireEntry_truthy _ Ht).
      reflexivity.
    + intros Hnone. rewrite Hnone. unfold entryFromConfig.
      rewrite Hfalsy. split.
      * intros s -> Hs. apply truthy_nonempty in Hs. rewrite Hs.
        rewrite (requireEntry_truthy _ Hs). reflexivity.
      * intros first others -> Hf. apply truthy_nonempty in Hf.
        rewrite (requireEntry_truthy _ Hf). reflexivity.
  - intros Hparse Hv Hh e He. split.
    + intros path Hload.
      exact (proj1 (Verbose_prepare_resumes w values positionals config path
                      Hparse Hv Hh Hload) e He).
    + intros Hload.
      exact (proj1 (Terse_prepare_resumes w values positionals config
                      Hparse Hv Hh Hload) e He).
Qed.

Lemma entry_priority_witness :
  entryStage
    (sampleWorld (Returned (noFlags, ["cli.ts"])) ["index.ts"]
       (Raised ThrownNullish) bundled (Some 0))
    ["cli.ts"] None = ([], Ret "cli.ts") /\
  outcome
    (entryStage
       (sampleWorld (Returned (noFlags, [])) ["src/index.ts"]
          (Raised ThrownNullish) bundled (Some 0))
       [] (Some {| entry := Some (EntryString "other.ts"); outdir := None;
                   minify := None; target := None |}))
  = Ret "src/index.ts" /\
  outcome
    (entryStage
       (sampleWorld (Returned (noFlags, [])) [] (Raised ThrownNullish)
          bundled (Some 0))
       [] (Some {| entry := Some (EntryList ["a.ts"; "b.ts"]);
                   outdir := None; minify := None; target := None |}))
  = Ret "a.ts" /\
  outcome
    (Terse.prepare
       (sampleWorld (Returned (noFlags, ["cli.ts"])) ["index.ts"]
          (Raised ThrownNullish) bundled (Some 0)))
  = Ret (None, "cli.ts").
Proof.
  refine (conj _ (conj _ (conj _ _))).
  - destruct (entry_priority
                (sampleWorld (Returned (noFlags, ["cli.ts"])) ["index.ts"]
                   (Raised ThrownNullish) bundled (Some 0))
                noFlags ["cli.ts"] None) as [Hcli _].
    apply (Hcli "cli.ts" []); [reflexivity | discriminate].
  - destruct (entry_priority
                (sampleWorld (Returned (noFlags, [])) ["src/index.ts"]
                   (Raised ThrownNullish) bundled (Some 0)) noFlags []
                (Some {| entry := Some (EntryString "other.ts");
                         outdir := None; minify := None; target := None |}))
      as (_ & Hrest & _).
    destruct (Hrest (or_introl eq_refl)) as [Hdefault _].
    apply Hdefault. reflexivity.
  - destruct (entry_priority
                (sampleWorld (Returned (noFlags, [])) []
                   (Raised ThrownNullish) bundled (Some 0)) noFlags []
                (Some {| entry := Some (EntryList ["a.ts"; "b.ts"]);
                         outdir := None; minify := None; target := None |}))
      as (_ & Hrest & _).
    destruct (Hrest (or_introl eq_refl)) as [_ Hconfig].
    destruct (Hconfig eq_refl) as [_ Hlist].
    apply (Hlist "a.ts" ["b.ts"]); [reflexivity | discriminate].
  - destruct (entry_priority
                (sampleWorld (Returned (noFlags, ["cli.ts"])) ["index.ts"]
                   (Raised ThrownNullish) bundled (Some 0))
                noFlags ["cli.ts"] None) as (_ & _ & Hscripts).
    destruct (Hscripts eq_refl eq_refl eq_refl "cli.ts" eq_refl)
      as [_ Hterse].
    apply Hterse. reflexivity.
Defined.

(** ** C2: size formatting *)

Lemma exactLog1024_bounds (b : Z) :
  0 < b ->
  0 <= exactLog1024 b /\
  1024 ^ exactLog1024 b <= b < 1024 ^ (exactLog1024 b + 1).
Proof.
  intros Hb. unfold exactLog1024.
  pose proof (Z.log2_nonneg b) as Hl.
  pose proof (Z.log2_spec b Hb) as [Hlo Hhi].
  set (l := Z.log2 b) in *.
  assert (Hq : 0 <= l / 10) by (apply Z.div_pos; lia).
  assert (Hdm : 10 * (l / 10) <= l < 10 * (l / 10) + 10).
  { pose proof (Z.div_mod l 10 ltac:(lia)).
    pose proof (Z.mod_pos_bound l 10 ltac:(lia)). lia. }
  change 1024 with (2 ^ 10).
  rewrite <- !Z.pow_mul_r by lia.
  split; [assumption|]. split.
  - apply Z.le_trans with (2 ^ l); [|assumption].
    apply Z.pow_le_mono_r; lia.
  - apply Z.lt_le_trans with (2 ^ Z.succ l); [assumption|].
    apply Z.pow_le_mono_r; lia.
Qed.

Lemma nearestHundredth_bounds (num den : Z) :
  0 <= num -> 0 < den ->
  0 <= nearestHundredth num den /\
  2 * Z.abs (100 * num - nearestHundredth num den * den) <= den.
Proof.
  intros Hn Hd. unfold nearestHundredth.
  pose proof (Z.div_mod (200 * num + den) (2 * den) ltac:(lia)) as Hdm.
  pose proof (Z.mod_pos_bound (200 * num + den) (2 * den) ltac:(lia)) as Hr.
  set (n := (200 * num + den) / (2 * den)) in *.
  split.
  - apply Z.div_pos; lia.
  - lia.
Qed.

Lemma sizes_index (i : nat) (unit : string) :
  nth_error sizes i = Some unit -> (i < 5)%nat.
Proof.
  intros H.
  change 5%nat with (List.length sizes).
  apply nth_error_Some. congruence.
Qed.

Lemma formatSize_spec_range (floorLog : Z -> Z) (b : Z) :
  formatSize_spec floorLog b -> 0 < b < 1024 ^ 5.
Proof.
  intros (i & unit & n & Hnth & _ & _ & _ & [Hlo Hhi] & _).
  apply sizes_index in Hnth.
  split.
  - apply Z.lt_le_trans with (1024 ^ Z.of_nat i); [|assumption].
    apply Z.pow_pos_nonneg; lia.
  - apply Z.lt_le_trans with (1024 ^ (Z.of_nat i + 1)); [assumption|].
    apply Z.pow_le_mono_r; lia.
Qed.

(** No choice of unit from [sizes] fits 32 PiB, whatever index the
    platform computes for it. *)
Lemma formatSize_exbibytes : ~ formatSize_spec exactLog1024 (2 ^ 55).
Proof.
  intros H. apply formatSize_spec_range in H.
  vm_compute in H. destruct H as [_ H]. discriminate H.
Qed.

Lemma sizeAt_nth (i : Z) :
  0 <= i < 5 -> nth_error sizes (Z.to_nat i) = Some (sizeAt i).
Proof.
  intros Hi.
  assert (Hc : i = 0 \/ i = 1 \/ i = 2 \/ i = 3 \/ i = 4) by lia.
  destruct Hc as [-> | [-> | [-> | [-> | ->]]]]; reflexivity.
Qed.

(** C2 (amended).  [formatSize 0] is exactly ["0 B"].  For a byte count
    [0 < b < 1024^5] on which the double-precision index
    [Math.floor(Math.log(b) / Math.log(1024))] equals the true
    [floor (log_1024 b)], the result is a value with exactly two decimals
    (the hundredth nearest to [b / 1024^i]), a space and the unit
    [sizes[i]], where [1024^i <= b < 1024^(i+1)]; below 1024 the unit is
    [B].  The function is total. *)
Theorem formatSize_units (floorLog : Z -> Z) (b : Z) :
  0 <= b < 1024 ^ 5 ->
  (0 < b -> floorLog b = exactLog1024 b) ->
  (b = 0 -> formatSize floorLog b = "0 B") /\
  (0 < b -> formatSize_spec floorLog b).
Proof.
  intros [Hb0 Hb5] Hexact. split.
  - intros ->. reflexivity.
  - intros Hpos. specialize (Hexact Hpos).
    destruct (exactLog1024_bounds b Hpos) as (Hi0 & Hlo & Hhi).
    remember (exactLog1024 b) as i eqn:Ei.
    assert (Hi5 : i < 5).
    { apply (Z.pow_lt_mono_r_iff 1024); [lia | lia |].
      apply Z.le_lt_trans with b; assumption. }
    destruct (nearestHundredth_bounds b (1024 ^ i)) as [Hn0 Hn];
      [lia | apply Z.pow_pos_nonneg; lia |].
    exists (Z.to_nat i), (sizeAt i), (nearestHundredth b (1024 ^ i)).
    rewrite Z2Nat.id by assumption.
    repeat split; try assumption.
    + apply sizeAt_nth. lia.
    + unfold formatSize.
      destruct (Z.eqb_spec b 0) as [|_]; [lia|].
      destruct (Z.ltb_spec b 0) as [|_]; [lia|].
      cbv zeta. rewrite Hexact.
      destruct (Z.leb_spec 0 i) as [_|]; [|lia].
      reflexivity.
    + intros Hsmall.
      assert (i = 0) as ->; [|reflexivity].
      assert (i < 1); [|lia].
      apply (Z.pow_lt_mono_r_iff 1024); [lia | lia |].
      change (1024 ^ 1) with 1024. lia.
Qed.

Lemma formatSize_units_witness :
  formatSize exactLog1024 0 = "0 B" /\ formatSize_spec exactLog1024 1536.
Proof.
  split.
  - apply (formatSize_units exactLog1024 0);
      [ vm_compute; split; [discriminate | reflexivity]
      | reflexivity | reflexivity ].
  - apply (formatSize_units exactLog1024 1536);
      [ vm_compute; split; [discriminate | reflexivity]
      | reflexivity | reflexivity ].
Defined.

(** ** C3: a configuration that fails to load *)

(** C3 (the code departs from the claim).  When the imported module throws
    [null] or [undefined], the handler's own [err.message] raises: the
    loader throws instead of returning, no warning is printed, and either
    script prints the help text and the [TypeError] and exits with
    status 1 before resolving an entry. *)
Theorem loadConfig_nullish_rejection (w : World) (values : Values)
    (positionals : list string) :
  parseArgs w = Returned (values, positionals) ->
  version values = false -> help values = false ->
  fileExists w (configPath w) = true ->
  importModule w (configUrl w) = Raised ThrownNullish ->
  outcome (Verbose.loadConfig w) = Throw (ThrownObject (typeErrorText w)) /\
  Verbose.main w
  = ([FileExists (configPath w); Import (configUrl w);
      ConsoleError (helpMessage (pkg w));
      ConsoleError (nl ++ typeErrorText w ++ nl)], Exit 1) /\
  Terse.main w
  = ([FileExists (configPath w); Import (configUrl w);
      ConsoleError (helpMessage (pkg w));
      ConsoleError (nl ++ typeErrorText w ++ nl)], Exit 1).
Proof.
  intros Hparse Hv Hh Hfile Himport.
  destruct (loadConfig_nullish w Hfile Himport) as [Hverbose Hterse].
  split; [rewrite Hverbose; reflexivity | split].
  - rewrite (Verbose_main_prepare_throw w
               [FileExists (configPath w); Import (configUrl w)]
               (typeErrorText w)); [reflexivity |].
    unfold Verbose.prepare.
    rewrite (parse_returned _ _ Hparse), bind_ret_l.
    rewrite (shortCircuit_none _ _ Hv Hh), bind_ret_l.
    rewrite Hverbose. reflexivity.
  - rewrite (Terse_main_prepare_throw w
               [FileExists (configPath w); Import (configUrl w)]
               (typeErrorText w)); [reflexivity |].
    unfold Terse.prepare.
    rewrite (parse_returned _ _ Hparse), bind_ret_l.
    rewrite (shortCircuit_none _ _ Hv Hh), bind_ret_l.
    rewrite Hterse. reflexivity.
Qed.

Lemma loadConfig_nullish_rejection_witness :
  outcome
    (Verbose.main
       (sampleWorld (Returned (noFlags, []))
          ["/work/tsbun.config.ts"; "index.ts"]
          (Raised ThrownNullish) bundled (Some 0))) = Exit 1 /\
  outcome
    (Terse.main
       (sampleWorld (Returned (noFlags, []))
          ["/work/tsbun.config.ts"; "index.ts"]
          (Raised ThrownNullish) bundled (Some 0))) = Exit 1.
Proof.
  destruct (loadConfig_nullish_rejection
              (sampleWorld (Returned (noFlags, []))
                 ["/work/tsbun.config.ts"; "index.ts"]
                 (Raised ThrownNullish) bundled (Some 0))
              noFlags [] eq_refl eq_refl eq_refl eq_refl eq_refl)
    as (_ & Hverbose & Hterse).
  split.
  - exact (f_equal snd Hverbose).
  - exact (f_equal snd Hterse).
Defined.

(** ** C4: bundler failure *)

(** C4.  In a run where the bundler was invoked and its result has
    [success = false], the process exits with status 1, the last things it
    printed are ["Build failed!"] and then every log message of the result
    in order, and no child process was started: type generation never
    runs. *)
Theorem bundler_failure_is_fatal (w : World) (o : BuildOptions)
    (result : BuildOutput) :
  bunBuild w o = Returned result ->
  success result = false ->
  (In (BunBuild o) (trace (Verbose.main w)) ->
   outcome (Verbose.main w) = Exit 1 /\
   (exists before,
       trace (Verbose.main w)
       = (before ++ ConsoleError "Build failed!"
            :: map ConsoleError (logs result))%list) /\
   (forall argv, ~ In (SpawnSync argv) (trace (Verbose.main w)))) /\
  (In (BunBuild o) (trace (Terse.main w)) ->
   outcome (Terse.main w) = Exit 1 /\
   (exists before,
       trace (Terse.main w)
       = (before ++ ConsoleError "Build failed!"
            :: map ConsoleError (logs result))%list) /\
   (forall argv, ~ In (SpawnSync argv) (trace (Terse.main w)))).
Proof.
  intros Hresult Hfail. split; intros Hin.
  - destruct (Verbose_main_build_event w _ Hin (loud_BunBuild o))
      as (config & hasTsConfig & e & Hprep & Hbuild).
    pose proof (emits_In _ _ _ (Verbose_build_bundles w config hasTsConfig e)
                  Hbuild) as Ho.
    cbn in Ho. subst o.
    pose proof (Verbose_build_bundler_reached _ _ _ _ _ Hbuild) as Hrm.
    pose proof (Verbose_build_failed w config hasTsConfig e result Hrm
                  Hresult Hfail) as Hrun.
    rewrite (Verbose_main_exit w config hasTsConfig e 1 Hprep)
      by (rewrite Hrun; reflexivity).
    rewrite Hrun. cbn [trace outcome fst snd]. split; [reflexivity | split].
    + exists (trace (Verbose.prepare w)
              ++ [RmSync (outdirOf config) true; ConsoleLog "ESM Build start";
                  BunBuild (buildOptions config e)])%list.
      rewrite <- app_assoc. reflexivity.
    + intros argv Hspawn.
      apply in_app_or in Hspawn as [Hspawn | Hspawn].
      * exact (emits_In _ _ _ (emits_Verbose_prepare w) Hspawn).
      * cbn in Hspawn.
        repeat (destruct Hspawn as [Hspawn | Hspawn];
                [discriminate Hspawn |]).
        exact (no_spawn_in_errors _ _ Hspawn).
  - destruct (Terse_main_build_event w _ Hin (loud_BunBuild o))
      as (config & e & Hprep & Hbuild).
    pose proof (emits_In _ _ _ (Terse_build_bundles w config e) Hbuild)
      as Ho.
    cbn in Ho. subst o.
    destruct (Terse_build_failed w config e result _ Hbuild Hresult Hfail)
      as (cleaning & Hclean & Hrun).
    rewrite (Terse_main_exit w config e 1 Hprep)
      by (rewrite Hrun; reflexivity).
    rewrite Hrun. cbn [trace outcome fst snd]. split; [reflexivity | split].
    + exists (trace (Terse.prepare w) ++ cleaning
              ++ [BunBuild (buildOptions config e)])%list.
      rewrite <- !app_assoc. reflexivity.
    + intros argv Hspawn.
      apply in_app_or in Hspawn as [Hspawn | Hspawn].
      * exact (emits_In _ _ _ (emits_Terse_prepare w) Hspawn).
      * apply in_app_or in Hspawn as [Hspawn | Hspawn].
        -- rewrite Forall_forall in Hclean.
           exact (Hclean _ Hspawn argv eq_refl).
        -- cbn in Hspawn.
           repeat (destruct Hspawn as [Hspawn | Hspawn];
                   [discriminate Hspawn |]).
           exact (no_spawn_in_errors _ _ Hspawn).
Qed.

Lemma bundler_failure_is_fatal_witness :
  outcome
    (Verbose.main
       (sampleWorld (Returned (noFlags, [])) ["index.ts"]
          (Raised ThrownNullish) bundleFailed (Some 0))) = Exit 1 /\
  outcome
    (Terse.main
       (sampleWorld (Returned (noFlags, [])) ["index.ts"]
          (Raised ThrownNullish) bundleFailed (Some 0))) = Exit 1.
Proof.
  destruct (bundler_failure_is_fatal
              (sampleWorld (Returned (noFlags, [])) ["index.ts"]
                 (Raised ThrownNullish) bundleFailed (Some 0))
              (buildOptions None "index.ts")
              {| success := false;
                 logs := ["error: Could not resolve ./missing"];
                 outputs := [] |}
              eq_refl eq_refl) as [Hverbose Hterse].
  split.
  - apply Hverbose. vm_compute. do 9 right. left. reflexivity.
  - apply Hterse. vm_compute. do 4 right. left. reflexivity.
Defined.

(** ** C5: arguments of the type generator *)

(** C5.  The arguments given to [tsc] are the declaration flags with the
    effective [outdir], followed by exactly [--project tsconfig.json] when
    [tsconfig.json] exists (none of the fallback flags is among these two)
    and otherwise by exactly the fallback flags and the resolved entry
    ([--project] is not a fallback flag).  Every child process either
    script starts is [bun x tsc] with these arguments, for the loaded
    configuration and the entry that resolution produced. *)
Theorem tsc_arguments (w : World) (argv : list string) :
  (forall out e,
      tscArgs true out e
      = ["--declaration"; "--emitDeclarationOnly"; "--noEmit"; "false";
         "--outDir"; out; "--project"; "tsconfig.json"] /\
      tscArgs false out e
      = ["--declaration"; "--emitDeclarationOnly"; "--noEmit"; "false";
         "--outDir"; out; "--esModuleInterop"; "--skipLibCheck";
         "--moduleResolution"; "bundler"; "--target"; "esnext"; e]) /\
  (forall flag, In flag fallbackFlags -> ~ In flag projectFlags) /\
  ~ In "--project" fallbackFlags /\
  (In (SpawnSync argv) (trace (Verbose.main w)) ->
   exists values positionals config configPath e,
     parseArgs w = Returned (values, positionals) /\
     outcome (Verbose.loadConfig w) = Ret (config, configPath) /\
     outcome (entryStage w positionals config) = Ret e /\
     argv = "bun" :: "x" :: "tsc"
            :: tscArgs (fileExists w "tsconfig.json") (outdirOf config) e) /\
  (In (SpawnSync argv) (trace (Terse.main w)) ->
   exists values positionals config e,
     parseArgs w = Returned (values, positionals) /\
     outcome (Terse.loadConfig w) = Ret config /\
     outcome (entryStage w positionals config) = Ret e /\
     argv = "bun" :: "x" :: "tsc"
            :: tscArgs (fileExistsAfterBuild w "tsconfig.json")
                 (outdirOf config) e).
Proof.
  split; [| split; [| split; [| split]]].
  - intros out e. split; reflexivity.
  - intros flag Hin Hproject.
    cbn in Hin, Hproject.
    repeat (destruct Hin as [<- | Hin];
            [destruct Hproject as [H | [H | []]]; discriminate H |]).
    exact Hin.
  - cbn. intros H.
    repeat (destruct H as [H | H]; [discriminate H |]). exact H.
  - intros Hin.
    destruct (Verbose_main_build_event w _ Hin (loud_SpawnSync argv))
      as (config & hasTsConfig & e & Hprep & Hbuild).
    destruct (Verbose_prepare_returns w _ Hprep)
      as (_ & values & positionals & configPath & Hparse & _ & _ & Hload
          & Hentry & _ & ->).
    exists values, positionals, config, configPath, e.
    repeat split; try assumption.
    exact (emits_In _ _ _ (Verbose_build_spawns w config _ e) Hbuild).
  - intros Hin.
    destruct (Terse_main_build_event w _ Hin (loud_SpawnSync argv))
      as (config & e & Hprep & Hbuild).
    destruct (Terse_prepare_returns w _ Hprep)
      as (_ & values & positionals & Hparse & _ & _ & Hload & Hentry & _).
    exists values, positionals, config, e.
    repeat split; try assumption.
    exact (emits_In _ _ _ (Terse_build_spawns w config e) Hbuild).
Qed.

Lemma tsc_arguments_witness :
  exists e,
    outcome
      (entryStage
         (sampleWorld (Returned (noFlags, [])) ["index.ts"; "tsconfig.json"]
            (Raised ThrownNullish) bundled (Some 0))
         [] None) = Ret e /\
    ["bun"; "x"; "tsc"; "--declaration"; "--emitDeclarationOnly";
     "--noEmit"; "false"; "--outDir"; "dist"; "--project"; "tsconfig.json"]
    = "bun" :: "x" :: "tsc" :: tscArgs true "dist" e.
Proof.
  destruct (tsc_arguments
              (sampleWorld (Returned (noFlags, []))
                 ["index.ts"; "tsconfig.json"] (Raised ThrownNullish)
                 bundled (Some 0))
              ["bun"; "x"; "tsc"; "--declaration"; "--emitDeclarationOnly";
               "--noEmit"; "false"; "--outDir"; "dist"; "--project";
               "tsconfig.json"])
    as (_ & _ & _ & Hverbose & _).
  destruct Hverbose
    as (values & positionals & config & configPath & e & Hparse & Hload
        & Hentry & Hargv).
  - vm_compute. do 13 right. left. reflexivity.
  - injection Hparse as <- <-. injection Hload as <- <-.
    exists e. split; [exact Hentry | exact Hargv].
Defined.

(** ** C6: effective options *)

(** A configured [outdir] that is the empty string is not used. *)
Lemma effective_options_empty_outdir :
  ~ effective_options_as_stated
      {| entry := None; outdir := Some EmptyString; minify := None;
         target := None |}.
Proof.
  intros [H _]. specialize (H EmptyString eq_refl). discriminate H.
Qed.

(** C6 (amended).  For a loaded configuration the build runs with: the
    configured [outdir] when it is given and not the empty string,
    otherwise ["dist"]; the configured [minify] whenever it is set, [false]
    included, otherwise [true]; the configured [target] when given,
    otherwise ["bun"].  These are the options handed to the bundler. *)
Theorem effective_options (c : TsBunConfig) (e : string) :
  (forall d, outdir c = Some d -> d <> EmptyString ->
             outdirOf (Some c) = d) /\
  (outdir c = None \/ outdir c = Some EmptyString ->
   outdirOf (Some c) = "dist") /\
  (forall b, minify c = Some b -> minifyOf (Some c) = b) /\
  (minify c = None -> minifyOf (Some c) = true) /\
  (forall t, target c = Some t -> targetOf (Some c) = t) /\
  (target c = None -> targetOf (Some c) = TargetBun) /\
  buildOptions (Some c) e =
  {| entrypoints := [e];
     build_outdir := outdirOf (Some c);
     build_target := targetOf (Some c);
     build_minify := minifyOf (Some c) |}.
Proof.
  unfold outdirOf, minifyOf, targetOf, orString, field.
  repeat split.
  - intros d -> Hd. apply truthy_nonempty in Hd. rewrite Hd. reflexivity.
  - intros [-> | ->]; reflexivity.
  - intros b ->. reflexivity.
  - intros ->. reflexivity.
  - intros t ->. reflexivity.
  - intros ->. reflexivity.
Qed.

Lemma effective_options_witness :
  outdirOf (Some {| entry := None; outdir := Some "out";
                    minify := Some false; target := Some TargetNode |})
  = "out" /\
  minifyOf (Some {| entry := None; outdir := Some "out";
                    minify := Some false; target := Some TargetNode |})
  = false /\
  targetOf (Some {| entry := None; outdir := Some "out";
                    minify := Some false; target := Some TargetNode |})
  = TargetNode /\
  outdirOf (Some noFields) = "dist" /\
  minifyOf (Some noFields) = true /\
  targetOf (Some noFields) = TargetBun.
Proof.
  destruct (effective_options
              {| entry := None; outdir := Some "out"; minify := Some false;
                 target := Some TargetNode |} "index.ts")
    as (Hout & _ & Hmin & _ & Htarget & _).
  destruct (effective_options noFields "index.ts")
    as (_ & Hout' & _ & Hmin' & _ & Htarget' & _).
  refine (conj _ (conj _ (conj _ (conj _ (conj _ _))))).
  - apply Hout; [reflexivity | discriminate].
  - apply Hmin. reflexivity.
  - apply Htarget. reflexivity.
  - apply Hout'. left. reflexivity.
  - apply Hmin'. reflexivity.
  - apply Htarget'. reflexivity.
Defined.

(** ** C7: the two flags short-circuit *)

(** C7.  When the parsed flags include [--version] or [--help], either
    script prints one line, the version string for [--version] or the help
    text for [--help], and exits with status 0; the run makes no other
    platform call, so neither the configuration loader (whose first act is
    a file query), nor entry resolution, nor the bundler is reached. *)
Theorem flags_short_circuit (w : World) (values : Values)
    (positionals : list string) :
  parseArgs w = Returned (values, positionals) ->
  version values = true \/ help values = true ->
  exists line,
    (version values = true /\ line = versionLine (pkg w) \/
     help values = true /\ line = helpMessage (pkg w)) /\
    Verbose.main w = ([ConsoleLog line], Exit 0) /\
    Terse.main w = ([ConsoleLog line], Exit 0).
Proof.
  intros Hparse Hflag.
  destruct (version values) eqn:Hv.
  - exists (versionLine (pkg w)). split; [left; split; reflexivity|].
    unfold Verbose.main, Terse.main, Verbose.prepare, Terse.prepare.
    rewrite (parse_returned _ _ Hparse).
    cbn. rewrite (shortCircuit_version _ _ Hv). split; reflexivity.
  - destruct Hflag as [Hf | Hh]; [discriminate Hf|].
    exists (helpMessage (pkg w)).
    split; [right; split; [assumption | reflexivity] |].
    unfold Verbose.main, Terse.main, Verbose.prepare, Terse.prepare.
    rewrite (parse_returned _ _ Hparse).
    cbn. rewrite (shortCircuit_help _ _ Hv Hh). split; reflexivity.
Qed.

Lemma flags_short_circuit_witness :
  exists line,
    line = helpMessage samplePackage /\
    Terse.main
      (sampleWorld
         (Returned ({| help := true; version := false; watch := false |},
                    ["cli.ts"]))
         ["index.ts"] (Raised ThrownNullish) bundled (Some 0))
    = ([ConsoleLog line], Exit 0).
Proof.
  destruct (flags_short_circuit
              (sampleWorld
                 (Returned ({| help := true; version := false;
                               watch := false |}, ["cli.ts"]))
                 ["index.ts"] (Raised ThrownNullish) bundled (Some 0))
              {| help := true; version := false; watch := false |}
              ["cli.ts"] eq_refl (or_intror eq_refl))
    as (line & [[Hv _] | [_ Hline]] & _ & Hterse).
  - discriminate Hv.
  - exists line. split; [exact Hline | exact Hterse].
Defined.

(** ** C8: an entry or an exit *)

(** C8.  Entry resolution ends in exactly one of two ways: it yields a
    non-empty entry without writing to standard error, or its last act is
    to print the "could not find entry point" message and exit with
    status 1.  In a run that gets as far as resolution (the arguments
    parse, neither flag is set, the configuration loader returns) the
    first way hands the entry on to the build and the second is how the
    whole process ends, before any bundling.  With no positional, no
    configuration file and no default file, it is the second. *)
Theorem entry_defined_or_exit (w : World) (values : Values)
    (positionals : list string) (config : option TsBunConfig) :
  let stage := entryStage w positionals config in
  (entryDefined stage /\ ~ entryMissing stage \/
   entryMissing stage /\ ~ entryDefined stage) /\
  (parseArgs w = Returned (values, positionals) ->
   version values = false -> help values = false ->
   (forall path,
       outcome (Verbose.loadConfig w) = Ret (config, path) ->
       (forall e, outcome stage = Ret e ->
                  outcome (Verbose.prepare w)
                  = Ret (config, fileExists w "tsconfig.json", e)) /\
       (entryMissing stage ->
        outcome (Verbose.main w) = Exit 1 /\
        exists before,
          trace (Verbose.main w)
          = (before ++ [ConsoleError notFoundMessage])%list)) /\
   (outcome (Terse.loadConfig w) = Ret config ->
    (forall e, outcome stage = Ret e ->
               outcome (Terse.prepare w) = Ret (config, e)) /\
    (entryMissing stage ->
     outcome (Terse.main w) = Exit 1 /\
     exists before,
       trace (Terse.main w)
       = (before ++ [ConsoleError notFoundMessage])%list)) /\
   (positionals = [] -> config = None ->
    fileExists w (configPath w) = false -> firstDefault w = None ->
    Verbose.main w
    = ([FileExists (configPath w); FileExists "index.ts";
        FileExists "src/index.ts"; ConsoleError notFoundMessage], Exit 1) /\
    Terse.main w
    = ([FileExists (configPath w); FileExists "index.ts";
        FileExists "src/index.ts"; ConsoleError notFoundMessage], Exit 1))).
Proof.
  cbv zeta. split.
  - destruct (entryStage_cases w positionals config)
      as [(e & He & Hrun) | Hrun].
    + left. pose proof (entryStage_defined _ _ _ _ He Hrun) as Hdef.
      split; [exact Hdef | exact (entryDefined_not_missing _ Hdef)].
    + right. pose proof (entryStage_missing _ _ _ Hrun) as Hmiss.
      split; [exact Hmiss |].
      intros Hdef. exact (entryDefined_not_missing _ Hdef Hmiss).
  - intros Hparse Hv Hh. split; [| split].
    + intros path Hload.
      destruct (Verbose_prepare_resumes w values positionals config path
                  Hparse Hv Hh Hload) as [Hgo Hstop].
      split; [exact Hgo |].
      intros [Hout (queries & Htrace)].
      rewrite (Verbose_main_prepare_exit w _ 1 (Hstop 1 Hout)).
      split; [reflexivity |].
      exists (trace (Verbose.loadConfig w) ++ queries)%list.
      cbn [trace fst]. rewrite Htrace, app_assoc. reflexivity.
    + intros Hload.
      destruct (Terse_prepare_resumes w values positionals config
                  Hparse Hv Hh Hload) as [Hgo Hstop].
      split; [exact Hgo |].
      intros [Hout (queries & Htrace)].
      rewrite (Terse_main_prepare_exit w _ 1 (Hstop 1 Hout)).
      split; [reflexivity |].
      exists (trace (Terse.loadConfig w)
              ++ match config with
                 | Some _ => [ConsoleLog "Using tsbun.config.ts..."]
                 | None => []
                 end
              ++ queries)%list.
      cbn [trace fst]. rewrite Htrace, <- !app_assoc. reflexivity.
    + intros -> -> Habsent Hnone.
      pose proof (entryStage_no_candidates w None Hnone eq_refl) as Hstage.
      split.
      * destruct (Verbose_prepare_resumes w values [] None None Hparse Hv Hh)
          as [_ Hstop].
        { rewrite (Verbose_loadConfig_absent w Habsent). reflexivity. }
        apply Verbose_main_prepare_exit.
        rewrite (Hstop 1) by (rewrite Hstage; reflexivity).
        rewrite Hstage, (Verbose_loadConfig_absent w Habsent). reflexivity.
      * destruct (Terse_prepare_resumes w values [] None Hparse Hv Hh)
          as [_ Hstop].
        { rewrite (Terse_loadConfig_absent w Habsent). reflexivity. }
        apply Terse_main_prepare_exit.
        rewrite (Hstop 1) by (rewrite Hstage; reflexivity).
        rewrite Hstage, (Terse_loadConfig_absent w Habsent). reflexivity.
Qed.

Lemma entry_defined_or_exit_witness :
  Verbose.main
    (sampleWorld (Returned (noFlags, [])) [] (Raised ThrownNullish) bundled
       (Some 0))
  = ([FileExists "/work/tsbun.config.ts"; FileExists "index.ts";
      FileExists "src/index.ts"; ConsoleError notFoundMessage], Exit 1) /\
  Terse.main
    (sampleWorld (Returned (noFlags, [])) [] (Raised ThrownNullish) bundled
       (Some 0))
  = ([FileExists "/work/tsbun.config.ts"; FileExists "index.ts";
      FileExists "src/index.ts"; ConsoleError notFoundMessage], Exit 1) /\
  outcome
    (Verbose.prepare
       (sampleWorld (Returned (noFlags, [])) ["src/index.ts"]
          (Raised ThrownNullish) bundled (Some 0)))
  = Ret (None, false, "src/index.ts").
Proof.
  destruct (entry_defined_or_exit
              (sampleWorld (Returned (noFlags, [])) [] (Raised ThrownNullish)
                 bundled (Some 0))
              noFlags [] None) as (_ & Hrun).
  destruct (Hrun eq_refl eq_refl eq_refl) as (_ & _ & Hnothing).
  destruct (entry_defined_or_exit
              (sampleWorld (Returned (noFlags, [])) ["src/index.ts"]
                 (Raised ThrownNullish) bundled (Some 0))
              noFlags [] None) as (_ & Hrun').
  destruct (Hrun' eq_refl eq_refl eq_refl) as (Hverbose & _ & _).
  destruct (Hverbose None eq_refl) as [Hgo _].
  refine (conj _ (conj _ _)).
  - exact (proj1 (Hnothing eq_refl eq_refl eq_refl eq_refl)).
  - exact (proj2 (Hnothing eq_refl eq_refl eq_refl eq_refl)).
  - exact (Hgo "src/index.ts" eq_refl).
Defined.

(** ** C9: an empty entry list *)

(** C9.  With no positional and no default file, a configuration whose
    [entry] is the empty list is treated as one without [entry]: either
    way the run is the same, the "could not find entry point" message
    followed by exit status 1, and no element is read from the list. *)
Theorem empty_entry_list_is_no_entry (w : World) (values : Values)
    (m : ConfigModule) :
  parseArgs w = Returned (values, []) ->
  version values = false -> help values = false ->
  fileExists w (configPath w) = true ->
  importModule w (configUrl w) = Returned m ->
  firstDefault w = None ->
  entry (exported m) = Some (EntryList []) \/ entry (exported m) = None ->
  Verbose.main w
  = ([FileExists (configPath w); Import (configUrl w);
      FileExists "index.ts"; FileExists "src/index.ts";
      ConsoleError notFoundMessage], Exit 1) /\
  Terse.main w
  = ([FileExists (configPath w); Import (configUrl w);
      ConsoleLog "Using tsbun.config.ts...";
      FileExists "index.ts"; FileExists "src/index.ts";
      ConsoleError notFoundMessage], Exit 1).
Proof.
  intros Hparse Hv Hh Hfile Himport Hnone Hentry.
  assert (Hconfig : entryFromConfig None (Some (exported m)) = None).
  { unfold entryFromConfig. cbn. destruct Hentry as [-> | ->]; reflexivity. }
  pose proof (entryStage_no_candidates w _ Hnone Hconfig) as Hstage.
  split.
  - pose proof (Verbose_loadConfig_loaded w m Hfile Himport) as Hload.
    destruct (Verbose_prepare_resumes w values [] _ _ Hparse Hv Hh
                (f_equal snd Hload)) as [_ Hstop].
    apply Verbose_main_prepare_exit.
    rewrite (Hstop 1) by (rewrite Hstage; reflexivity).
    rewrite Hstage, Hload. reflexivity.
  - pose proof (Terse_loadConfig_loaded w m Hfile Himport) as Hload.
    destruct (Terse_prepare_resumes w values [] _ Hparse Hv Hh
                (f_equal snd Hload)) as [_ Hstop].
    apply Terse_main_prepare_exit.
    rewrite (Hstop 1) by (rewrite Hstage; reflexivity).
    rewrite Hstage, Hload. reflexivity.
Qed.

Lemma empty_entry_list_is_no_entry_witness :
  Verbose.main
    (sampleWorld (Returned (noFlags, [])) ["/work/tsbun.config.ts"]
       (Returned (moduleOf {| entry := Some (EntryList []); outdir := None;
                              minify := None; target := None |}))
       bundled (Some 0))
  = Verbose.main
      (sampleWorld (Returned (noFlags, [])) ["/work/tsbun.config.ts"]
         (Returned (moduleOf noFields)) bundled (Some 0)) /\
  outcome
    (Terse.main
       (sampleWorld (Returned (noFlags, [])) ["/work/tsbun.config.ts"]
          (Returned (moduleOf {| entry := Some (EntryList []); outdir := None;
                                 minify := None; target := None |}))
          bundled (Some 0))) = Exit 1.
Proof.
  destruct (empty_entry_list_is_no_entry
              (sampleWorld (Returned (noFlags, [])) ["/work/tsbun.config.ts"]
                 (Returned (moduleOf {| entry := Some (EntryList []);
                                        outdir := None; minify := None;
                                        target := None |}))
                 bundled (Some 0))
              noFlags _ eq_refl eq_refl eq_refl eq_refl eq_refl eq_refl
              (or_introl eq_refl)) as [Hlist Hterse].
  destruct (empty_entry_list_is_no_entry
              (sampleWorld (Returned (noFlags, [])) ["/work/tsbun.config.ts"]
                 (Returned (moduleOf noFields)) bundled (Some 0))
              noFlags _ eq_refl eq_refl eq_refl eq_refl eq_refl eq_refl
              (or_intror eq_refl)) as [Hnone _].
  split.
  - exact (eq_trans Hlist (eq_sym Hnone)).
  - exact (f_equal snd Hterse).
Defined.

(** ** C10: version before help *)

Lemma versionLine_shorter (p : PackageJson) :
  (String.length (versionLine p) < String.length (helpMessage p))%nat.
Proof.
  unfold helpMessage, versionLine. cbn [unlines].
  repeat rewrite length_append. cbn. lia.
Qed.

(** C10.  With both [--version] and [--help] set the version branch wins:
    the run prints the single line [<name>@<version>] and exits 0, and the
    help text is never printed. *)
Theorem version_wins_over_help (w : World) (values : Values)
    (positionals : list string) :
  parseArgs w = Returned (values, positionals) ->
  version values = true -> help values = true ->
  Verbose.main w = ([ConsoleLog (versionLine (pkg w))], Exit 0) /\
  Terse.main w = ([ConsoleLog (versionLine (pkg w))], Exit 0) /\
  versionLine (pkg w) <> helpMessage (pkg w).
Proof.
  intros Hparse Hv _.
  unfold Verbose.main, Terse.main, Verbose.prepare, Terse.prepare.
  rewrite (parse_returned _ _ Hparse). cbn.
  rewrite (shortCircuit_version _ _ Hv).
  repeat split.
  intros Heq. pose proof (versionLine_shorter (pkg w)) as Hlen.
  rewrite Heq in Hlen. lia.
Qed.

Lemma version_wins_over_help_witness :
  Verbose.main
    (sampleWorld
       (Returned ({| help := true; version := true; watch := false |}, []))
       ["index.ts"] (Raised ThrownNullish) bundled (Some 0))
  = ([ConsoleLog "tsbun@1.0.0"], Exit 0).
Proof.
  exact (proj1 (version_wins_over_help
                  (sampleWorld
                     (Returned ({| help := true; version := true;
                                   watch := false |}, []))
                     ["index.ts"] (Raised ThrownNullish) bundled (Some 0))
                  {| help := true; version := true; watch := false |} []
                  eq_refl eq_refl eq_refl)).
Defined.

(** * Further properties *)

#[local] Arguments forEach : simpl never.
#[local] Arguments tscArgs : simpl never.

(** ** How a build ends *)

Lemma Verbose_build_cases (w : World) (config : option TsBunConfig)
    (hasTsConfig : bool) (e : string) :
  let out := outdirOf config in
  let options := buildOptions config e in
  let argv := tscCommand hasTsConfig config e in
  (exists err,
      rmSync w out = Raised err /\
      Verbose.build w config hasTsConfig e
      = ([RmSync out true], Throw err)) \/
  (exists err,
      rmSync w out = Returned tt /\
      bunBuild w options = Raised err /\
      Verbose.build w config hasTsConfig e
      = ([RmSync out true; ConsoleLog "ESM Build start"; BunBuild options],
         Throw err)) \/
  (exists result,
      rmSync w out = Returned tt /\
      bunBuild w options = Returned result /\
      success result = false /\
      Verbose.build w config hasTsConfig e
      = ([RmSync out true; ConsoleLog "ESM Build start"; BunBuild options;
          ConsoleError "Build failed!"]
         ++ map ConsoleError (logs result), Exit 1)%list) \/
  (exists result,
      rmSync w out = Returned tt /\
      bunBuild w options = Returned result /\
      success result = true /\
      exists ending final,
        Verbose.build w config hasTsConfig e
        = ([RmSync out true; ConsoleLog "ESM Build start"; BunBuild options]
           ++ map (artifactLine w) (outputs result)
           ++ [ConsoleLog ("ESM ⚡️ Build success in " ++ showZ (elapsed w)
                           ++ "ms");
               SpawnSync argv]
           ++ ending, final)%list /\
        ((exists err,
             spawnSync w argv = Raised err /\
             ending = [] /\ final = Throw err) \/
         (spawnSync w argv = Returned (Some 0) /\
          ending = [] /\ final = Exit 0) \/
         (exists code,
             spawnSync w argv = Returned code /\ code <> Some 0 /\
             ending = [ConsoleError "Type generation failed!"] /\
             final = Exit 1))).
Proof.
  cbv zeta. unfold Verbose.build, tscCommand. cbv zeta.
  destruct (rmSync w (outdirOf config)) as [err | []] eqn:Hrm.
  { left. exists err. split; reflexivity. }
  right.
  destruct (bunBuild w (buildOptions config e)) as [err | result] eqn:Hbuild.
  { left. exists err. repeat split. }
  right. cbn.
  destruct (success result) eqn:Hok; cbn.
  - right. exists result. do 3 (split; [first [reflexivity | assumption] |]).
    change (Verbose.reportArtifact w) with (fun o => tell (artifactLine w o)).
    rewrite forEach_tell. cbn.
    destruct (spawnSync w _) as [err | code] eqn:Hspawn; cbn.
    + exists [], (Throw err). split; [reflexivity |].
      left. exists err. repeat split.
    + destruct code as [[| p | p] |]; cbn.
      * exists [], (Exit 0). split; [reflexivity |].
        right. left. repeat split.
      * exists [ConsoleError "Type generation failed!"], (Exit 1).
        split; [reflexivity |].
        right. right. exists (Some (Z.pos p)).
        repeat split. discriminate.
      * exists [ConsoleError "Type generation failed!"], (Exit 1).
        split; [reflexivity |].
        right. right. exists (Some (Z.neg p)).
        repeat split. discriminate.
      * exists [ConsoleError "Type generation failed!"], (Exit 1).
        split; [reflexivity |].
        right. right. exists None.
        repeat split. discriminate.
  - left. exists result. do 3 (split; [first [reflexivity | assumption] |]).
    unfold consoleError. rewrite forEach_tell. cbn.
    rewrite app_nil_r. reflexivity.
Qed.

Lemma Terse_build_cases (w : World) (config : option TsBunConfig)
    (e : string) :
  let out := outdirOf config in
  let options := buildOptions config e in
  let hasTsConfig := fileExistsAfterBuild w "tsconfig.json" in
  let argv := tscCommand hasTsConfig config e in
  (exists err,
      fileExists w out = true /\ rmSync w out = Raised err /\
      Terse.build w config e
      = ([FileExists out; RmSync out false], Throw err)) \/
  ((fileExists w out = false \/ rmSync w out = Returned tt) /\
   ((exists err,
        bunBuild w options = Raised err /\
        Terse.build w config e
        = (terseCleaning w out ++ [BunBuild options], Throw err)%list) \/
    (exists result,
        bunBuild w options = Returned result /\
        success result = false /\
        Terse.build w config e
        = (terseCleaning w out
           ++ [BunBuild options; ConsoleError "Build failed!"]
           ++ map ConsoleError (logs result), Exit 1)%list) \/
    (exists result,
        bunBuild w options = Returned result /\
        success result = true /\
        exists ending final,
          Terse.build w config e
          = (terseCleaning w out ++ [BunBuild options]
             ++ terseAnnounce hasTsConfig ++ [SpawnSync argv] ++ ending,
             final)%list /\
          ((exists err,
               spawnSync w argv = Raised err /\
               ending = [] /\ final = Throw err) \/
           (spawnSync w argv = Returned (Some 0) /\
            ending = [ConsoleLog "Build complete!"] /\ final = Exit 0) \/
           (exists code,
               spawnSync w argv = Returned code /\ code <> Some 0 /\
               ending = [ConsoleError "Type generation failed!"] /\
               final = Exit 1))))).
Proof.
  cbv zeta. unfold Terse.build, tscCommand, terseCleaning, terseAnnounce,
    exists_, existsAfterBuild.
  cbv zeta. cbn.
  destruct (fileExists w (outdirOf config)) eqn:Hdir; cbn.
  - destruct (rmSync w (outdirOf config)) as [err | []] eqn:Hrm; cbn.
    { left. exists err. repeat split. }
    right. split; [right; reflexivity |].
    destruct (bunBuild w (buildOptions config e)) as [err | result]
      eqn:Hbuild; cbn.
    { left. exists err. repeat split. }
    right.
    destruct (success result) eqn:Hok; cbn.
    + right. exists result. do 2 (split; [first [reflexivity | assumption] |]).
      destruct (fileExistsAfterBuild w "tsconfig.json"); cbn;
        (destruct (spawnSync w _) as [err | code] eqn:Hspawn; cbn;
         [ exists [], (Throw err); split; [reflexivity |];
           left; exists err; repeat split
         | destruct code as [[| p | p] |]; cbn;
           [ exists [ConsoleLog "Build complete!"], (Exit 0);
             split; [reflexivity |]; right; left; repeat split
           | exists [ConsoleError "Type generation failed!"], (Exit 1);
             split; [reflexivity |]; right; right;
             eexists; repeat split; discriminate
           | exists [ConsoleError "Type generation failed!"], (Exit 1);
             split; [reflexivity |]; right; right;
             eexists; repeat split; discriminate
           | exists [ConsoleError "Type generation failed!"], (Exit 1);
             split; [reflexivity |]; right; right;
             eexists; repeat split; discriminate ] ]).
    + left. exists result. do 2 (split; [first [reflexivity | assumption] |]).
      unfold consoleError. rewrite forEach_tell. cbn.
      rewrite app_nil_r. reflexivity.
  - right. split; [left; reflexivity |].
    destruct (bunBuild w (buildOptions config e)) as [err | result]
      eqn:Hbuild; cbn.
    { left. exists err. repeat split. }
    right.
    destruct (success result) eqn:Hok; cbn.
    + right. exists result. do 2 (split; [first [reflexivity | assumption] |]).
      destruct (fileExistsAfterBuild w "tsconfig.json"); cbn;
        (destruct (spawnSync w _) as [err | code] eqn:Hspawn; cbn;
         [ exists [], (Throw err); split; [reflexivity |];
           left; exists err; repeat split
         | destruct code as [[| p | p] |]; cbn;
           [ exists [ConsoleLog "Build complete!"], (Exit 0);
             split; [reflexivity |]; right; left; repeat split
           | exists [ConsoleError "Type generation failed!"], (Exit 1);
             split; [reflexivity |]; right; right;
             eexists; repeat split; discriminate
           | exists [ConsoleError "Type generation failed!"], (Exit 1);
             split; [reflexivity |]; right; right;
             eexists; repeat split; discriminate
           | exists [ConsoleError "Type generation failed!"], (Exit 1);
             split; [reflexivity |]; right; right;
             eexists; repeat split; discriminate ] ]).
    + left. exists result. do 2 (split; [first [reflexivity | assumption] |]).
      unfold consoleError. rewrite forEach_tell. cbn.
      rewrite app_nil_r. reflexivity.
Qed.

(** ** How a run ends *)

Lemma reportUncaught_run (w : World) (err : Thrown) :
  reportUncaught w err
  = match err with
    | ThrownNullish =>
        ([ConsoleError (helpMessage (pkg w))],
         Throw (ThrownObject (typeErrorText w)))
    | ThrownObject message => (uncaughtReport w message, Exit 1)
    end.
Proof. destruct err; reflexivity. Qed.

Lemma Verbose_main_run (w : World) :
  Verbose.main w
  = match outcome (Verbose.prepare w) with
    | Ret (config, hasTsConfig, e) =>
        tryCatch
          ((trace (Verbose.prepare w)
            ++ trace (Verbose.build w config hasTsConfig e))%list,
           outcome (Verbose.build w config hasTsConfig e))
          (reportUncaught w)
    | Exit c => (trace (Verbose.prepare w), Exit c)
    | Throw err =>
        tryCatch (trace (Verbose.prepare w), Throw err) (reportUncaught w)
    end.
Proof.
  unfold Verbose.main.
  destruct (Verbose.prepare w) as [t [[[config b] e] | c | err]];
    cbv beta iota delta [bind trace outcome fst snd]; try reflexivity.
  destruct (Verbose.build w config b e) as [t' o]. reflexivity.
Qed.

Lemma Terse_main_run (w : World) :
  Terse.main w
  = match outcome (Terse.prepare w) with
    | Ret (config, e) =>
        tryCatch
          ((trace (Terse.prepare w) ++ trace (Terse.build w config e))%list,
           outcome (Terse.build w config e))
          (reportUncaught w)
    | Exit c => (trace (Terse.prepare w), Exit c)
    | Throw err =>
        tryCatch (trace (Terse.prepare w), Throw err) (reportUncaught w)
    end.
Proof.
  unfold Terse.main.
  destruct (Terse.prepare w) as [t [[config e] | c | err]];
    cbv beta iota delta [bind trace outcome fst snd]; try reflexivity.
  destruct (Terse.build w config e) as [t' o]. reflexivity.
Qed.

Lemma toolCalls_app (t1 t2 : list Event) :
  toolCalls (t1 ++ t2) = (toolCalls t1 ++ toolCalls t2)%list.
Proof. apply filter_app. Qed.

Lemma toolCalls_calm (t : list Event) :
  Forall calm t -> toolCalls t = [].
Proof.
  induction 1 as [| ev t Hev _ IH]; [reflexivity |].
  unfold toolCalls in *. cbn [filter].
  destruct ev; cbn in *; try exact IH; contradiction.
Qed.

Lemma toolCalls_map (A : Type) (f : A -> Event) (xs : list A) :
  (forall x, isToolCall (f x) = false) -> toolCalls (map f xs) = [].
Proof.
  intros H. induction xs as [| x xs IH]; [reflexivity |].
  unfold toolCalls in *. cbn [map filter]. rewrite H. exact IH.
Qed.

Lemma toolCalls_uncaught (w : World) (err : Thrown) :
  toolCalls (trace (reportUncaught w err)) = [].
Proof. apply toolCalls_calm, emits_reportUncaught. Qed.

(** Preparation never exits with a status other than 0 or 1, and status 0
    there means one of the two flags. *)
Lemma bind_exits {A B} (m : M A) (f : A -> M B) (c : Z) :
  outcome (bind m f) = Exit c ->
  outcome m = Exit c \/ exists a, outcome m = Ret a /\ outcome (f a) = Exit c.
Proof.
  rewrite outcome_bind. destruct (outcome m) as [a | c' | err];
    try discriminate.
  - intros H. right. exists a. split; [reflexivity | exact H].
  - intros H. left. injection H as ->. reflexivity.
Qed.

Lemma parse_never_exits (w : World) (c : Z) : outcome (parse w) <> Exit c.
Proof.
  unfold parse. destruct (parseArgs w) as [[| message] | parsed]; discriminate.
Qed.

Lemma Verbose_loadConfig_never_exits (w : World) (c : Z) :
  outcome (Verbose.loadConfig w) <> Exit c.
Proof.
  unfold Verbose.loadConfig, exists_, importConfig, warnLoadFailure. cbn.
  destruct (fileExists w _); [| discriminate]. cbn.
  destruct (importModule w _) as [[| message] | m]; discriminate.
Qed.

Lemma Terse_loadConfig_never_exits (w : World) (c : Z) :
  outcome (Terse.loadConfig w) <> Exit c.
Proof.
  unfold Terse.loadConfig, exists_, importConfig, warnLoadFailure. cbn.
  destruct (fileExists w _); [| discriminate]. cbn.
  destruct (importModule w _) as [[| message] | m]; discriminate.
Qed.

Lemma shortCircuit_exits (w : World) (values : Values) (c : Z) :
  outcome (shortCircuit w values) = Exit c ->
  c = 0 /\ (version values = true \/ help values = true).
Proof.
  unfold shortCircuit.
  destruct (version values), (help values); cbn; intros H;
    try discriminate H; injection H as <-; auto.
Qed.

Lemma requireEntry_exits (current : option string) (c : Z) :
  outcome (requireEntry current) = Exit c -> c = 1.
Proof.
  unfold requireEntry.
  destruct current as [e |]; [destruct (truthy e) |]; cbn; intros H;
    try discriminate H; injection H as <-; reflexivity.
Qed.

Lemma Verbose_prepare_exits (w : World) (c : Z) :
  outcome (Verbose.prepare w) = Exit c ->
  (c = 0 /\
   exists values positionals,
     parseArgs w = Returned (values, positionals) /\
     (version values = true \/ help values = true)) \/
  c = 1.
Proof.
  unfold Verbose.prepare. intros H.
  apply bind_exits in H as [H | ([values positionals] & Hparse & H)];
    [exfalso; exact (parse_never_exits _ _ H) |].
  apply parse_returns in Hparse as [_ Hparse].
  apply bind_exits in H as [H | (_ & _ & H)].
  { apply shortCircuit_exits in H as [-> Hflag].
    left. split; [reflexivity |]. exists values, positionals. auto. }
  apply bind_exits in H as [H | ([config path] & _ & H)];
    [exfalso; exact (Verbose_loadConfig_never_exits _ _ H) |].
  apply bind_exits in H as [H | (current & _ & H)].
  { rewrite resolveEntry_outcome in H. discriminate H. }
  apply bind_exits in H as [H | (e & _ & H)].
  { right. exact (requireEntry_exits _ _ H). }
  cbn in H. destruct (fileExists w "tsconfig.json"), (truthyOpt path);
    discriminate H.
Qed.

Lemma Terse_prepare_exits (w : World) (c : Z) :
  outcome (Terse.prepare w) = Exit c ->
  (c = 0 /\
   exists values positionals,
     parseArgs w = Returned (values, positionals) /\
     (version values = true \/ help values = true)) \/
  c = 1.
Proof.
  unfold Terse.prepare. intros H.
  apply bind_exits in H as [H | ([values positionals] & Hparse & H)];
    [exfalso; exact (parse_never_exits _ _ H) |].
  apply parse_returns in Hparse as [_ Hparse].
  apply bind_exits in H as [H | (_ & _ & H)].
  { apply shortCircuit_exits in H as [-> Hflag].
    left. split; [reflexivity |]. exists values, positionals. auto. }
  apply bind_exits in H as [H | (config & _ & H)];
    [exfalso; exact (Terse_loadConfig_never_exits _ _ H) |].
  apply bind_exits in H as [H | (_ & _ & H)].
  { destruct config; discriminate H. }
  apply bind_exits in H as [H | (current & _ & H)].
  { rewrite resolveEntry_outcome in H. discriminate H. }
  apply bind_exits in H as [H | (e & _ & H)].
  { right. exact (requireEntry_exits _ _ H). }
  discriminate H.
Qed.

Lemma uncaught_outcome (w : World) (t : list Event) (o : Outcome unit) :
  outcome (tryCatch (t, o) (reportUncaught w))
  = match o with
    | Throw ThrownNullish => Throw (ThrownObject (typeErrorText w))
    | Throw (ThrownObject _) => Exit 1
    | other => other
    end.
Proof.
  rewrite outcome_tryCatch. cbn [outcome snd].
  destruct o as [u | c | [| message]]; reflexivity.
Qed.

Lemma uncaught_trace (w : World) (t : list Event) (o : Outcome unit) :
  trace (tryCatch (t, o) (reportUncaught w))
  = (t ++ match o with
          | Throw ThrownNullish => [ConsoleError (helpMessage (pkg w))]
          | Throw (ThrownObject message) => uncaughtReport w message
          | _ => []
          end)%list.
Proof.
  rewrite trace_tryCatch. cbn [trace outcome fst snd].
  destruct o as [u | c | [| message]]; reflexivity.
Qed.

Lemma uncaught_toolCalls (w : World) (t : list Event) (o : Outcome unit) :
  toolCalls (trace (tryCatch (t, o) (reportUncaught w))) = toolCalls t.
Proof.
  rewrite uncaught_trace, toolCalls_app.
  destruct o as [u | c | [| message]]; cbn; apply app_nil_r.
Qed.

Lemma Verbose_main_toolCalls (w : World) :
  toolCalls (trace (Verbose.main w))
  = match outcome (Verbose.prepare w) with
    | Ret (config, hasTsConfig, e) =>
        toolCalls (trace (Verbose.build w config hasTsConfig e))
    | _ => []
    end.
Proof.
  rewrite Verbose_main_run.
  pose proof (toolCalls_calm _ (emits_Verbose_prepare w)) as Hprep.
  destruct (outcome (Verbose.prepare w)) as [[[config b] e] | c | err].
  - rewrite uncaught_toolCalls, toolCalls_app, Hprep. reflexivity.
  - exact Hprep.
  - rewrite uncaught_toolCalls. exact Hprep.
Qed.

Lemma Terse_main_toolCalls (w : World) :
  toolCalls (trace (Terse.main w))
  = match outcome (Terse.prepare w) with
    | Ret (config, e) => toolCalls (trace (Terse.build w config e))
    | _ => []
    end.
Proof.
  rewrite Terse_main_run.
  pose proof (toolCalls_calm _ (emits_Terse_prepare w)) as Hprep.
  destruct (outcome (Terse.prepare w)) as [[config e] | c | err].
  - rewrite uncaught_toolCalls, toolCalls_app, Hprep. reflexivity.
  - exact Hprep.
  - rewrite uncaught_toolCalls. exact Hprep.
Qed.

Lemma toolCalls_errors (lines : list string) :
  toolCalls (map ConsoleError lines) = [].
Proof. apply toolCalls_map. reflexivity. Qed.

Lemma toolCalls_artifacts (w : World) (outputs : list BuildArtifact) :
  toolCalls (map (artifactLine w) outputs) = [].
Proof. apply toolCalls_map. reflexivity. Qed.

Lemma toolCalls_terseCleaning (w : World) (out : string) :
  toolCalls (terseCleaning w out) = [].
Proof. unfold terseCleaning. destruct (fileExists w out); reflexivity. Qed.

Lemma toolCalls_terseAnnounce (b : bool) : toolCalls (terseAnnounce b) = [].
Proof. destruct b; reflexivity. Qed.

Lemma statusAfter_failed (code : option Z) :
  code <> Some 0 -> statusAfter code = 1.
Proof.
  destruct code as [[| p | p] |]; intros H; try reflexivity.
  exfalso. apply H. reflexivity.
Qed.

Ltac verbose_build_cases w config b e :=
  let H := fresh "Hcases" in
  pose proof (Verbose_build_cases w config b e) as H; cbv zeta in H;
  destruct H
    as [(?err & ?Hrm & ?Hrun)
       | [(?err & ?Hrm & ?Hbundle & ?Hrun)
         | [(?result & ?Hrm & ?Hbundle & ?Hok & ?Hrun)
           | (?result & ?Hrm & ?Hbundle & ?Hok & ?ending & ?final & ?Hrun
              & [(?err & ?Hspawn & ?Hending & ?Hfinal)
                | [(?Hspawn & ?Hending & ?Hfinal)
                  | (?code & ?Hspawn & ?Hcode & ?Hending & ?Hfinal)]])]]].

Ltac terse_build_cases w config e :=
  let H := fresh "Hcases" in
  pose proof (Terse_build_cases w config e) as H; cbv zeta in H;
  destruct H
    as [(?err & ?Hdir & ?Hrm & ?Hrun)
       | (?Hclean
          & [(?err & ?Hbundle & ?Hrun)
            | [(?result & ?Hbundle & ?Hok & ?Hrun)
              | (?result & ?Hbundle & ?Hok & ?ending & ?final & ?Hrun
                 & [(?err & ?Hspawn & ?Hending & ?Hfinal)
                   | [(?Hspawn & ?Hending & ?Hfinal)
                     | (?code & ?Hspawn & ?Hcode & ?Hending & ?Hfinal)]])]])].

Lemma Verbose_build_summary (w : World) (config : option TsBunConfig)
    (hasTsConfig : bool) (e : string) :
  rmSync w (outdirOf config) = Returned tt ->
  (toolCalls (trace (Verbose.build w config hasTsConfig e)),
   outcome (Verbose.build w config hasTsConfig e))
  = buildSummary w config hasTsConfig e.
Proof.
  intros Hclean. unfold buildSummary. cbv zeta.
  verbose_build_cases w config hasTsConfig e; subst;
    try congruence; rewrite Hrun, Hbundle; cbn [trace outcome fst snd].
  - reflexivity.
  - rewrite Hok, toolCalls_app, toolCalls_errors. reflexivity.
  - rewrite Hok, Hspawn, !toolCalls_app, toolCalls_artifacts. reflexivity.
  - rewrite Hok, Hspawn, !toolCalls_app, toolCalls_artifacts. reflexivity.
  - rewrite Hok, Hspawn, !toolCalls_app, toolCalls_artifacts.
    rewrite (statusAfter_failed _ Hcode). reflexivity.
Qed.

Lemma Terse_build_summary (w : World) (config : option TsBunConfig)
    (e : string) :
  fileExists w (outdirOf config) = false \/
  rmSync w (outdirOf config) = Returned tt ->
  (toolCalls (trace (Terse.build w config e)),
   outcome (Terse.build w config e))
  = buildSummary w config (fileExistsAfterBuild w "tsconfig.json") e.
Proof.
  intros Hcleaned. unfold buildSummary. cbv zeta.
  terse_build_cases w config e; subst.
  { destruct Hcleaned; congruence. }
  all: rewrite Hrun, Hbundle; cbn [trace outcome fst snd];
    rewrite ?Hok, ?Hspawn, !toolCalls_app, toolCalls_terseCleaning,
      ?toolCalls_terseAnnounce, ?toolCalls_errors;
    try reflexivity.
  rewrite (statusAfter_failed _ Hcode). reflexivity.
Qed.



Lemma Verbose_build_ends (w : World) (config : option TsBunConfig)
    (hasTsConfig : bool) (e : string) :
  exists final,
    outcome (Verbose.build w config hasTsConfig e) = final /\
    (final = Exit 0 \/ final = Exit 1 \/ exists err, final = Throw err).
Proof.
  verbose_build_cases w config hasTsConfig e; subst; rewrite Hrun;
    cbn [outcome snd]; eexists; (split; [reflexivity |]); eauto.
Qed.

Lemma Terse_build_ends (w : World) (config : option TsBunConfig)
    (e : string) :
  exists final,
    outcome (Terse.build w config e) = final /\
    (final = Exit 0 \/ final = Exit 1 \/ exists err, final = Throw err).
Proof.
  terse_build_cases w config e; subst; rewrite Hrun;
    cbn [outcome snd]; eexists; (split; [reflexivity |]); eauto.
Qed.

Lemma uncaught_endsProperly (w : World) (t : list Event)
    (final : Outcome unit) :
  final = Exit 0 \/ final = Exit 1 \/ (exists err, final = Throw err) ->
  endsProperly w (tryCatch (t, final) (reportUncaught w)).
Proof.
  unfold endsProperly. rewrite uncaught_outcome, uncaught_trace.
  intros [-> | [-> | [[| message] ->]]]; auto.
  right. right. split; [reflexivity |]. exists t. reflexivity.
Qed.

(** ** Exit status *)

(** X1.  A run of either script ends with exit status 0 or 1; it never falls
    off the end of [main], and the one exception that can escape is the
    [TypeError] of the top-level handler reading [err.message] of a thrown
    [null] or [undefined], after it has printed the help text. *)
Theorem exit_status_is_zero_or_one (w : World) :
  endsProperly w (Verbose.main w) /\ endsProperly w (Terse.main w).
Proof.
  split.
  - rewrite Verbose_main_run.
    destruct (outcome (Verbose.prepare w)) as [[[config b] e] | c | err]
      eqn:Hprep.
    + destruct (Verbose_build_ends w config b e) as (final & -> & Hfinal).
      apply uncaught_endsProperly. exact Hfinal.
    + apply Verbose_prepare_exits in Hprep as [[-> _] | ->];
        [left | right; left]; reflexivity.
    + apply uncaught_endsProperly. eauto.
  - rewrite Terse_main_run.
    destruct (outcome (Terse.prepare w)) as [[config e] | c | err] eqn:Hprep.
    + destruct (Terse_build_ends w config e) as (final & -> & Hfinal).
      apply uncaught_endsProperly. exact Hfinal.
    + apply Terse_prepare_exits in Hprep as [[-> _] | ->];
        [left | right; left]; reflexivity.
    + apply uncaught_endsProperly. eauto.
Qed.

(** X2.  The bundler runs at most once and the type generator at most once;
    the type generator runs only after the bundler, and exactly when the
    bundler returned [success = true]. *)
Theorem tools_run_in_order (w : World) :
  toolOrder w (toolCalls (trace (Verbose.main w))) /\
  toolOrder w (toolCalls (trace (Terse.main w))).
Proof.
  assert (Hsummary :
    forall config b e, toolOrder w (fst (buildSummary w config b e))).
  { intros config b e. unfold buildSummary. cbv zeta.
    destruct (bunBuild w (buildOptions config e)) as [err | result]
      eqn:Hbundle.
    - right. left. eexists. split; [reflexivity |]. congruence.
    - destruct (success result) eqn:Hok; cbn [fst].
      + right. right. exists (buildOptions config e), result.
        eexists. repeat split; assumption.
      + right. left. eexists. split; [reflexivity |]. congruence. }
  split.
  - rewrite Verbose_main_toolCalls.
    destruct (outcome (Verbose.prepare w)) as [[[config b] e] | c | err];
      try (left; reflexivity).
    destruct (rmSync w (outdirOf config)) as [err | []] eqn:Hrm.
    + verbose_build_cases w config b e; try congruence.
      rewrite Hrun. left. reflexivity.
    + pose proof (Verbose_build_summary w config b e Hrm) as Heq.
      specialize (Hsummary config b e). rewrite <- Heq in Hsummary.
      exact Hsummary.
  - rewrite Terse_main_toolCalls.
    destruct (outcome (Terse.prepare w)) as [[config e] | c | err];
      try (left; reflexivity).
    terse_build_cases w config e;
      [rewrite Hrun; left; reflexivity | ..];
      specialize
        (Hsummary config (fileExistsAfterBuild w "tsconfig.json") e);
      rewrite <- (Terse_build_summary w config e Hclean) in Hsummary;
      exact Hsummary.
Qed.

(** X3.  Exit status 0 means one of two things: a flag short-circuited the
    run before any tool was called, or the bundler returned success and
    the type generator, called right after it, exited with code 0. *)
Theorem status_zero_means_done (w : World) :
  (outcome (Verbose.main w) = Exit 0 ->
   reachedStatusZero w (toolCalls (trace (Verbose.main w)))) /\
  (outcome (Terse.main w) = Exit 0 ->
   reachedStatusZero w (toolCalls (trace (Terse.main w)))).
Proof.
  split.
  - rewrite Verbose_main_toolCalls, Verbose_main_run.
    destruct (outcome (Verbose.prepare w)) as [[[config b] e] | c | err]
      eqn:Hprep.
    + rewrite uncaught_outcome.
      verbose_build_cases w config b e; subst; rewrite Hrun;
        cbn [trace outcome fst snd];
        try (destruct err; discriminate); try discriminate.
      intros _. right.
      exists (buildOptions config e), result, (tscCommand b config e).
      rewrite !toolCalls_app, toolCalls_artifacts.
      repeat split; assumption.
    + cbn [outcome snd]. intros H. injection H as ->.
      apply Verbose_prepare_exits in Hprep
        as [(_ & values & positionals & Hparse & Hflag) | H];
        [| discriminate H].
      left. exists values, positionals. auto.
    + rewrite uncaught_outcome. destruct err; discriminate.
  - rewrite Terse_main_toolCalls, Terse_main_run.
    destruct (outcome (Terse.prepare w)) as [[config e] | c | err] eqn:Hprep.
    + rewrite uncaught_outcome.
      terse_build_cases w config e; subst; rewrite Hrun;
        cbn [trace outcome fst snd];
        try (destruct err; discriminate); try discriminate.
      intros _. right.
      exists (buildOptions config e), result,
        (tscCommand (fileExistsAfterBuild w "tsconfig.json") config e).
      rewrite !toolCalls_app, toolCalls_terseCleaning,
        toolCalls_terseAnnounce.
      repeat split; assumption.
    + cbn [outcome snd]. intros H. injection H as ->.
      apply Terse_prepare_exits in Hprep
        as [(_ & values & positionals & Hparse & Hflag) | H];
        [| discriminate H].
      left. exists values, positionals. auto.
    + rewrite uncaught_outcome. destruct err; discriminate.
Qed.

Lemma status_zero_means_done_witness :
  reachedStatusZero
    (sampleWorld (Returned (noFlags, [])) ["index.ts"]
       (Raised ThrownNullish) bundled (Some 0))
    [BunBuild (buildOptions None "index.ts");
     SpawnSync (tscCommand false None "index.ts")].
Proof.
  exact (proj1 (status_zero_means_done
                  (sampleWorld (Returned (noFlags, [])) ["index.ts"]
                     (Raised ThrownNullish) bundled (Some 0)))
               eq_refl).
Defined.



(** ** The type generator *)

Lemma In_toolCalls (ev : Event) (t : list Event) :
  In ev t -> isToolCall ev = true -> In ev (toolCalls t).
Proof. intros Hin Htool. apply filter_In. split; assumption. Qed.

Lemma Verbose_main_after_build (w : World) (config : option TsBunConfig)
    (hasTsConfig : bool) (e : string) (t : list Event)
    (final : Outcome unit) :
  outcome (Verbose.prepare w) = Ret (config, hasTsConfig, e) ->
  Verbose.build w config hasTsConfig e = (t, final) ->
  Verbose.main w
  = tryCatch ((trace (Verbose.prepare w) ++ t)%list, final)
      (reportUncaught w).
Proof.
  intros Hprep Hrun. rewrite Verbose_main_run, Hprep, Hrun. reflexivity.
Qed.

Lemma Terse_main_after_build (w : World) (config : option TsBunConfig)
    (e : string) (t : list Event) (final : Outcome unit) :
  outcome (Terse.prepare w) = Ret (config, e) ->
  Terse.build w config e = (t, final) ->
  Terse.main w
  = tryCatch ((trace (Terse.prepare w) ++ t)%list, final)
      (reportUncaught w).
Proof.
  intros Hprep Hrun. rewrite Terse_main_run, Hprep, Hrun. reflexivity.
Qed.

(** A build whose trace holds a child process got past the bundle. *)
Lemma Verbose_build_spawned (w : World) (config : option TsBunConfig)
    (hasTsConfig : bool) (e : string) (argv : list string) :
  In (SpawnSync argv) (trace (Verbose.build w config hasTsConfig e)) ->
  argv = tscCommand hasTsConfig config e /\
  exists result before ending final,
    bunBuild w (buildOptions config e) = Returned result /\
    success result = true /\
    Verbose.build w config hasTsConfig e
    = ((before ++ [SpawnSync argv]) ++ ending, final)%list /\
    Forall calm ending /\
    ((exists err,
         spawnSync w argv = Raised err /\ ending = [] /\ final = Throw err) \/
     (spawnSync w argv = Returned (Some 0) /\
      ending = [] /\ final = Exit 0) \/
     (exists code,
         spawnSync w argv = Returned code /\ code <> Some 0 /\
         ending = [ConsoleError "Type generation failed!"] /\
         final = Exit 1)).
Proof.
  intros Hin.
  pose proof (emits_In _ _ _ (Verbose_build_spawns w config hasTsConfig e)
                Hin) as Hargv.
  cbn in Hargv. fold (tscCommand hasTsConfig config e) in Hargv.
  split; [exact Hargv |]. subst argv.
  apply In_toolCalls in Hin; [| reflexivity].
  verbose_build_cases w config hasTsConfig e; rewrite Hrun in Hin;
    cbn [trace fst] in Hin;
    rewrite ?toolCalls_app, ?toolCalls_errors, ?toolCalls_artifacts in Hin;
    try (cbn in Hin; intuition discriminate).
  - exists result,
      ([RmSync (outdirOf config) true; ConsoleLog "ESM Build start";
        BunBuild (buildOptions config e)]
       ++ map (artifactLine w) (outputs result)
       ++ [ConsoleLog ("ESM ⚡️ Build success in " ++ showZ (elapsed w)
                       ++ "ms")])%list,
      ending, final.
    split; [assumption |]. split; [assumption |].
    split; [rewrite Hrun, <- !app_assoc; reflexivity |].
    subst. split; [constructor |]. left. eauto.
  - exists result,
      ([RmSync (outdirOf config) true; ConsoleLog "ESM Build start";
        BunBuild (buildOptions config e)]
       ++ map (artifactLine w) (outputs result)
       ++ [ConsoleLog ("ESM ⚡️ Build success in " ++ showZ (elapsed w)
                       ++ "ms")])%list,
      ending, final.
    split; [assumption |]. split; [assumption |].
    split; [rewrite Hrun, <- !app_assoc; reflexivity |].
    subst. split; [constructor |]. right. left. auto.
  - exists result,
      ([RmSync (outdirOf config) true; ConsoleLog "ESM Build start";
        BunBuild (buildOptions config e)]
       ++ map (artifactLine w) (outputs result)
       ++ [ConsoleLog ("ESM ⚡️ Build success in " ++ showZ (elapsed w)
                       ++ "ms")])%list,
      ending, final.
    split; [assumption |]. split; [assumption |].
    split; [rewrite Hrun, <- !app_assoc; reflexivity |].
    subst. split; [repeat constructor |]. right. right. eauto.
Qed.

Lemma Terse_build_spawned (w : World) (config : option TsBunConfig)
    (e : string) (argv : list string) :
  In (SpawnSync argv) (trace (Terse.build w config e)) ->
  argv = tscCommand (fileExistsAfterBuild w "tsconfig.json") config e /\
  exists result before ending final,
    bunBuild w (buildOptions config e) = Returned result /\
    success result = true /\
    Terse.build w config e
    = ((before ++ [SpawnSync argv]) ++ ending, final)%list /\
    Forall calm ending /\
    ((exists err,
         spawnSync w argv = Raised err /\ ending = [] /\ final = Throw err) \/
     (spawnSync w argv = Returned (Some 0) /\
      ending = [ConsoleLog "Build complete!"] /\ final = Exit 0) \/
     (exists code,
         spawnSync w argv = Returned code /\ code <> Some 0 /\
         ending = [ConsoleError "Type generation failed!"] /\
         final = Exit 1)).
Proof.
  intros Hin.
  pose proof (emits_In _ _ _ (Terse_build_spawns w config e) Hin) as Hargv.
  cbn in Hargv.
  fold (tscCommand (fileExistsAfterBuild w "tsconfig.json") config e)
    in Hargv.
  split; [exact Hargv |]. subst argv.
  apply In_toolCalls in Hin; [| reflexivity].
  terse_build_cases w config e; rewrite Hrun in Hin;
    cbn [trace fst] in Hin;
    rewrite ?toolCalls_app, ?toolCalls_errors, ?toolCalls_terseCleaning,
      ?toolCalls_terseAnnounce in Hin;
    try (cbn in Hin; intuition discriminate).
  - exists result,
      (terseCleaning w (outdirOf config)
       ++ [BunBuild (buildOptions config e)]
       ++ terseAnnounce (fileExistsAfterBuild w "tsconfig.json"))%list,
      ending, final.
    split; [assumption |]. split; [assumption |].
    split; [rewrite Hrun, <- !app_assoc; reflexivity |].
    subst. split; [constructor |]. left. eauto.
  - exists result,
      (terseCleaning w (outdirOf config)
       ++ [BunBuild (buildOptions config e)]
       ++ terseAnnounce (fileExistsAfterBuild w "tsconfig.json"))%list,
      ending, final.
    split; [assumption |]. split; [assumption |].
    split; [rewrite Hrun, <- !app_assoc; reflexivity |].
    subst. split; [repeat constructor |]. right. left. auto.
  - exists result,
      (terseCleaning w (outdirOf config)
       ++ [BunBuild (buildOptions config e)]
       ++ terseAnnounce (fileExistsAfterBuild w "tsconfig.json"))%list,
      ending, final.
    split; [assumption |]. split; [assumption |].
    split; [rewrite Hrun, <- !app_assoc; reflexivity |].
    subst. split; [repeat constructor |]. right. right. eauto.
Qed.

(** X5.  Once the type generator has been started, its exit code alone
    decides the exit status: code 0 gives status 0; any other code, or
    none, gives status 1 with ["Type generation failed!"] as the last thing
    printed. *)
Theorem type_generation_decides_status (w : World) (argv : list string)
    (code : option Z) :
  spawnSync w argv = Returned code ->
  (In (SpawnSync argv) (trace (Verbose.main w)) ->
   outcome (Verbose.main w) = Exit (statusAfter code) /\
   exists before,
     trace (Verbose.main w)
     = (before ++ SpawnSync argv
          :: match code with
             | Some 0 => []
             | _ => [ConsoleError "Type generation failed!"]
             end)%list) /\
  (In (SpawnSync argv) (trace (Terse.main w)) ->
   outcome (Terse.main w) = Exit (statusAfter code) /\
   exists before,
     trace (Terse.main w)
     = (before ++ SpawnSync argv
          :: match code with
             | Some 0 => [ConsoleLog "Build complete!"]
             | _ => [ConsoleError "Type generation failed!"]
             end)%list).
Proof.
  intros Hcode. split; intros Hin.
  - destruct (Verbose_main_build_event w _ Hin (loud_SpawnSync argv))
      as (config & b & e & Hprep & Hbuild).
    destruct (Verbose_build_spawned w config b e argv Hbuild)
      as (_ & result & before & ending & final & _ & _ & Hrun & _ & Hend).
    rewrite (Verbose_main_after_build w config b e _ _ Hprep Hrun).
    rewrite uncaught_outcome, uncaught_trace.
    destruct Hend as [(err & Hspawn & -> & ->)
                     | [(Hspawn & -> & ->) | (c & Hspawn & Hc & -> & ->)]];
      rewrite Hspawn in Hcode; try discriminate Hcode;
      injection Hcode as <-.
    + split; [reflexivity |].
      exists (trace (Verbose.prepare w) ++ before)%list.
      rewrite !app_nil_r, app_assoc. reflexivity.
    + rewrite (statusAfter_failed _ Hc). split; [reflexivity |].
      exists (trace (Verbose.prepare w) ++ before)%list.
      rewrite app_nil_r, <- !app_assoc.
      destruct c as [[| p | p] |]; try reflexivity.
      exfalso. apply Hc. reflexivity.
  - destruct (Terse_main_build_event w _ Hin (loud_SpawnSync argv))
      as (config & e & Hprep & Hbuild).
    destruct (Terse_build_spawned w config e argv Hbuild)
      as (_ & result & before & ending & final & _ & _ & Hrun & _ & Hend).
    rewrite (Terse_main_after_build w config e _ _ Hprep Hrun).
    rewrite uncaught_outcome, uncaught_trace.
    destruct Hend as [(err & Hspawn & -> & ->)
                     | [(Hspawn & -> & ->) | (c & Hspawn & Hc & -> & ->)]];
      rewrite Hspawn in Hcode; try discriminate Hcode;
      injection Hcode as <-.
    + split; [reflexivity |].
      exists (trace (Terse.prepare w) ++ before)%list.
      rewrite app_nil_r, <- !app_assoc. reflexivity.
    + rewrite (statusAfter_failed _ Hc). split; [reflexivity |].
      exists (trace (Terse.prepare w) ++ before)%list.
      rewrite app_nil_r, <- !app_assoc.
      destruct c as [[| p | p] |]; try reflexivity.
      exfalso. apply Hc. reflexivity.
Qed.

Lemma type_generation_decides_status_witness :
  outcome
    (Verbose.main
       (sampleWorld (Returned (noFlags, [])) ["index.ts"]
          (Raised ThrownNullish) bundled (Some 2))) = Exit 1 /\
  outcome
    (Terse.main
       (sampleWorld (Returned (noFlags, [])) ["index.ts"]
          (Raised ThrownNullish) bundled (Some 0))) = Exit 0.
Proof.
  split.
  - destruct (type_generation_decides_status
                (sampleWorld (Returned (noFlags, [])) ["index.ts"]
                   (Raised ThrownNullish) bundled (Some 2))
                (tscCommand false None "index.ts") (Some 2) eq_refl)
      as [Hverbose _].
    apply Hverbose. vm_compute. do 12 right. left. reflexivity.
  - destruct (type_generation_decides_status
                (sampleWorld (Returned (noFlags, [])) ["index.ts"]
                   (Raised ThrownNullish) bundled (Some 0))
                (tscCommand false None "index.ts") (Some 0) eq_refl)
      as [_ Hterse].
    apply Hterse. vm_compute. do 8 right. left. reflexivity.
Defined.

(** ** Exceptions of the platform *)

Lemma reportedAfter_intro (w : World) (t before : list Event) (call : Event)
    (message : string) :
  reportedAfter w
    (tryCatch ((t ++ before ++ [call])%list, Throw (ThrownObject message))
       (reportUncaught w))
    call message.
Proof.
  split.
  - rewrite uncaught_outcome. reflexivity.
  - exists (t ++ before)%list. rewrite uncaught_trace, <- !app_assoc.
    reflexivity.
Qed.

(** X6.  An exception with a message thrown by the bundler or by the child
    process ends the run at that call: the help text and the message are
    the last things printed, the exit status is 1, and after a bundler
    exception the type generator is never started. *)
Theorem tool_exception_is_reported (w : World) (message : string) :
  (forall o,
      bunBuild w o = Raised (ThrownObject message) ->
      (In (BunBuild o) (trace (Verbose.main w)) ->
       reportedAfter w (Verbose.main w) (BunBuild o) message /\
       toolCalls (trace (Verbose.main w)) = [BunBuild o]) /\
      (In (BunBuild o) (trace (Terse.main w)) ->
       reportedAfter w (Terse.main w) (BunBuild o) message /\
       toolCalls (trace (Terse.main w)) = [BunBuild o])) /\
  (forall argv,
      spawnSync w argv = Raised (ThrownObject message) ->
      (In (SpawnSync argv) (trace (Verbose.main w)) ->
       reportedAfter w (Verbose.main w) (SpawnSync argv) message) /\
      (In (SpawnSync argv) (trace (Terse.main w)) ->
       reportedAfter w (Terse.main w) (SpawnSync argv) message)).
Proof.
  split.
  - intros o Hraise. split; intros Hin.
    + destruct (Verbose_main_build_event w _ Hin (loud_BunBuild o))
        as (config & b & e & Hprep & Hbuild).
      pose proof (emits_In _ _ _ (Verbose_build_bundles w config b e) Hbuild)
        as Ho.
      cbn in Ho. subst o.
      apply In_toolCalls in Hbuild; [| reflexivity].
      verbose_build_cases w config b e; try congruence.
      * rewrite Hrun in Hbuild. destruct Hbuild.
      * rewrite Hbundle in Hraise. injection Hraise as ->.
        rewrite (Verbose_main_after_build w config b e _ _ Hprep Hrun).
        split.
        -- exact (reportedAfter_intro w _
                    [RmSync (outdirOf config) true;
                     ConsoleLog "ESM Build start"] _ _).
        -- rewrite uncaught_toolCalls, toolCalls_app.
           rewrite (toolCalls_calm _ (emits_Verbose_prepare w)).
           reflexivity.
    + destruct (Terse_main_build_event w _ Hin (loud_BunBuild o))
        as (config & e & Hprep & Hbuild).
      pose proof (emits_In _ _ _ (Terse_build_bundles w config e) Hbuild)
        as Ho.
      cbn in Ho. subst o.
      apply In_toolCalls in Hbuild; [| reflexivity].
      terse_build_cases w config e; try congruence.
      * rewrite Hrun in Hbuild. destruct Hbuild.
      * rewrite Hbundle in Hraise. injection Hraise as ->.
        rewrite (Terse_main_after_build w config e _ _ Hprep Hrun).
        split.
        -- exact (reportedAfter_intro w _ (terseCleaning w (outdirOf config))
                    _ _).
        -- rewrite uncaught_toolCalls, !toolCalls_app.
           rewrite (toolCalls_calm _ (emits_Terse_prepare w)).
           rewrite toolCalls_terseCleaning. reflexivity.
  - intros argv Hraise. split; intros Hin.
    + destruct (Verbose_main_build_event w _ Hin (loud_SpawnSync argv))
        as (config & b & e & Hprep & Hbuild).
      destruct (Verbose_build_spawned w config b e argv Hbuild)
        as (_ & result & before & ending & final & _ & _ & Hrun & _ & Hend).
      rewrite (Verbose_main_after_build w config b e _ _ Hprep Hrun).
      destruct Hend as [(err & Hspawn & -> & ->)
                       | [(Hspawn & _) | (c & Hspawn & _)]];
        try congruence.
      rewrite Hspawn in Hraise. injection Hraise as ->.
      rewrite app_nil_r. exact (reportedAfter_intro w _ before _ _).
    + destruct (Terse_main_build_event w _ Hin (loud_SpawnSync argv))
        as (config & e & Hprep & Hbuild).
      destruct (Terse_build_spawned w config e argv Hbuild)
        as (_ & result & before & ending & final & _ & _ & Hrun & _ & Hend).
      rewrite (Terse_main_after_build w config e _ _ Hprep Hrun).
      destruct Hend as [(err & Hspawn & -> & ->)
                       | [(Hspawn & _) | (c & Hspawn & _)]];
        try congruence.
      rewrite Hspawn in Hraise. injection Hraise as ->.
      rewrite app_nil_r. exact (reportedAfter_intro w _ before _ _).
Qed.

Lemma tool_exception_is_reported_witness :
  reportedAfter
    (sampleWorld (Returned (noFlags, [])) ["index.ts"]
       (Raised ThrownNullish) (Raised (ThrownObject "bundler crashed"))
       (Some 0))
    (Terse.main
       (sampleWorld (Returned (noFlags, [])) ["index.ts"]
          (Raised ThrownNullish) (Raised (ThrownObject "bundler crashed"))
          (Some 0)))
    (BunBuild (buildOptions None "index.ts")) "bundler crashed".
Proof.
  destruct (tool_exception_is_reported
              (sampleWorld (Returned (noFlags, [])) ["index.ts"]
                 (Raised ThrownNullish)
                 (Raised (ThrownObject "bundler crashed")) (Some 0))
              "bundler crashed") as [Hbundler _].
  destruct (Hbundler (buildOptions None "index.ts") eq_refl) as [_ Hterse].
  apply Hterse. vm_compute. do 4 right. left. reflexivity.
Defined.

(** ** Cleaning and reporting *)

(** X7.  The bundler is called only on a cleaned output directory, and the
    directory cleaned is the bundler's own [outdir].  The verbose script
    always calls [rmSync] on it, which must have returned; the terse script
    first asks whether it exists and calls [rmSync] only if it does. *)
Theorem bundler_runs_after_cleaning (w : World) (o : BuildOptions) :
  (In (BunBuild o) (trace (Verbose.main w)) ->
   rmSync w (build_outdir o) = Returned tt /\
   exists before after,
     trace (Verbose.main w)
     = (before
        ++ [RmSync (build_outdir o) true; ConsoleLog "ESM Build start";
            BunBuild o]
        ++ after)%list) /\
  (In (BunBuild o) (trace (Terse.main w)) ->
   (fileExists w (build_outdir o) = false \/
    rmSync w (build_outdir o) = Returned tt) /\
   exists before after,
     trace (Terse.main w)
     = (before
        ++ FileExists (build_outdir o)
           :: (if fileExists w (build_outdir o)
               then [RmSync (build_outdir o) false]
               else [])
        ++ [BunBuild o]
        ++ after)%list).
Proof.
  split; intros Hin.
  - destruct (Verbose_main_build_event w _ Hin (loud_BunBuild o))
      as (config & b & e & Hprep & Hbuild).
    pose proof (emits_In _ _ _ (Verbose_build_bundles w config b e) Hbuild)
      as Ho.
    cbn in Ho. subst o. cbn [build_outdir buildOptions].
    apply In_toolCalls in Hbuild; [| reflexivity].
    verbose_build_cases w config b e;
      [ rewrite Hrun in Hbuild; destruct Hbuild | .. ];
      (split; [assumption |]);
      rewrite (Verbose_main_after_build w config b e _ _ Hprep Hrun),
        uncaught_trace;
      exists (trace (Verbose.prepare w)); eexists;
      rewrite <- !app_assoc; cbn [app]; reflexivity.
  - destruct (Terse_main_build_event w _ Hin (loud_BunBuild o))
      as (config & e & Hprep & Hbuild).
    pose proof (emits_In _ _ _ (Terse_build_bundles w config e) Hbuild)
      as Ho.
    cbn in Ho. subst o. cbn [build_outdir buildOptions].
    apply In_toolCalls in Hbuild; [| reflexivity].
    terse_build_cases w config e;
      [ rewrite Hrun in Hbuild; destruct Hbuild | .. ];
      (split; [assumption |]);
      rewrite (Terse_main_after_build w config e _ _ Hprep Hrun),
        uncaught_trace;
      exists (trace (Terse.prepare w)); eexists;
      unfold terseCleaning; rewrite <- !app_assoc; cbn [app]; reflexivity.
Qed.

Lemma bundler_runs_after_cleaning_witness :
  rmSync
    (sampleWorld (Returned (noFlags, [])) ["index.ts"; "dist"]
       (Raised ThrownNullish) bundled (Some 0)) "dist" = Returned tt /\
  (onDisk ["index.ts"] "dist" = false \/
   rmSync
     (sampleWorld (Returned (noFlags, [])) ["index.ts"]
        (Raised ThrownNullish) bundled (Some 0)) "dist" = Returned tt).
Proof.
  split.
  - destruct (bundler_runs_after_cleaning
                (sampleWorld (Returned (noFlags, [])) ["index.ts"; "dist"]
                   (Raised ThrownNullish) bundled (Some 0))
                (buildOptions None "index.ts")) as [Hverbose _].
    apply Hverbose. vm_compute. do 9 right. left. reflexivity.
  - destruct (bundler_runs_after_cleaning
                (sampleWorld (Returned (noFlags, [])) ["index.ts"]
                   (Raised ThrownNullish) bundled (Some 0))
                (buildOptions None "index.ts")) as [_ Hterse].
    apply Hterse. vm_compute. do 4 right. left. reflexivity.
Defined.

(** X8.  After a successful bundle the verbose script prints one line per
    artifact, in the order the bundler listed them and before the
    "Build success" line: the path relative to the working directory and
    the size as [formatSize] renders it. *)
Theorem artifacts_are_reported (w : World) (o : BuildOptions)
    (result : BuildOutput) :
  bunBuild w o = Returned result -> success result = true ->
  In (BunBuild o) (trace (Verbose.main w)) ->
  exists before after,
    trace (Verbose.main w)
    = (before ++ [BunBuild o]
       ++ map (fun output =>
                 ConsoleLog
                   ("ESM " ++ relative w (cwd w) (path output) ++ " "
                    ++ formatSize (floorLog1024 w) (size output)))
            (outputs result)
       ++ [ConsoleLog ("ESM ⚡️ Build success in " ++ showZ (elapsed w)
                       ++ "ms")]
       ++ after)%list.
Proof.
  intros Hresult Hsuccess Hin.
  destruct (Verbose_main_build_event w _ Hin (loud_BunBuild o))
    as (config & b & e & Hprep & Hbuild).
  pose proof (emits_In _ _ _ (Verbose_build_bundles w config b e) Hbuild)
    as Ho.
  cbn in Ho. subst o.
  apply In_toolCalls in Hbuild; [| reflexivity].
  verbose_build_cases w config b e; try congruence.
  - rewrite Hrun in Hbuild. destruct Hbuild.
  - rewrite Hbundle in Hresult. injection Hresult as <-.
    rewrite (Verbose_main_after_build w config b e _ _ Hprep Hrun),
      uncaught_trace.
    exists (trace (Verbose.prepare w)
            ++ [RmSync (outdirOf config) true;
                ConsoleLog "ESM Build start"])%list.
    eexists. rewrite <- !app_assoc. cbn [app]. reflexivity.
  - rewrite Hbundle in Hresult. injection Hresult as <-.
    rewrite (Verbose_main_after_build w config b e _ _ Hprep Hrun),
      uncaught_trace.
    exists (trace (Verbose.prepare w)
            ++ [RmSync (outdirOf config) true;
                ConsoleLog "ESM Build start"])%list.
    eexists. rewrite <- !app_assoc. cbn [app]. reflexivity.
  - rewrite Hbundle in Hresult. injection Hresult as <-.
    rewrite (Verbose_main_after_build w config b e _ _ Hprep Hrun),
      uncaught_trace.
    exists (trace (Verbose.prepare w)
            ++ [RmSync (outdirOf config) true;
                ConsoleLog "ESM Build start"])%list.
    eexists. rewrite <- !app_assoc. cbn [app]. reflexivity.
Qed.

Lemma artifacts_are_reported_witness :
  exists before after,
    trace
      (Verbose.main
         (sampleWorld (Returned (noFlags, [])) ["index.ts"]
            (Raised ThrownNullish) bundled (Some 0)))
    = (before ++ [BunBuild (buildOptions None "index.ts")]
       ++ [ConsoleLog "ESM dist/index.js 1.50 KB"]
       ++ [ConsoleLog "ESM ⚡️ Build success in 12ms"]
       ++ after)%list.
Proof.
  apply (artifacts_are_reported
           (sampleWorld (Returned (noFlags, [])) ["index.ts"]
              (Raised ThrownNullish) bundled (Some 0))
           (buildOptions None "index.ts")
           {| success := true; logs := [];
              outputs := [ {| path := "dist/index.js"; size := 1536 |} ] |}
           eq_refl eq_refl).
  vm_compute. do 9 right. left. reflexivity.
Defined.

(** ** Arguments that do not parse *)

(** X9.  When [parseArgs] throws an error with a message, the run prints
    the help text and then the message under the prefix
    ["Error parsing arguments: "], both to standard error, and exits with
    status 1; it does nothing else. *)
Theorem argument_error_is_reported (w : World) (message : string) :
  parseArgs w = Raised (ThrownObject message) ->
  parse w = ([], Throw (ThrownObject ("Error parsing arguments: " ++ message)))
  /\
  Verbose.main w
  = ([ConsoleError (helpMessage (pkg w));
      ConsoleError (nl ++ ("Error parsing arguments: " ++ message) ++ nl)],
     Exit 1) /\
  Terse.main w
  = ([ConsoleError (helpMessage (pkg w));
      ConsoleError (nl ++ ("Error parsing arguments: " ++ message) ++ nl)],
     Exit 1).
Proof.
  intros Hparse.
  assert (Hthrow :
    parse w
    = ([], Throw (ThrownObject ("Error parsing arguments: " ++ message)))).
  { unfold parse. rewrite Hparse. reflexivity. }
  split; [exact Hthrow | split].
  - apply (Verbose_main_prepare_throw w []).
    unfold Verbose.prepare. rewrite Hthrow. reflexivity.
  - apply (Terse_main_prepare_throw w []).
    unfold Terse.prepare. rewrite Hthrow. reflexivity.
Qed.

Lemma argument_error_is_reported_witness :
  outcome
    (Verbose.main
       (sampleWorld (Raised (ThrownObject "Unknown option")) ["index.ts"]
          (Raised ThrownNullish) bundled (Some 0))) = Exit 1.
Proof.
  destruct (argument_error_is_reported
              (sampleWorld (Raised (ThrownObject "Unknown option"))
                 ["index.ts"] (Raised ThrownNullish) bundled (Some 0))
              "Unknown option" eq_refl) as (_ & Hverbose & _).
  exact (f_equal snd Hverbose).
Defined.

(** ** Default candidates *)

(** X10.  The scan over the default candidates asks for each candidate in
    order and stops at the first that exists, which becomes the entry;
    candidates after it are never looked at.  When none exists every
    candidate has been asked for and the entry is left as it was. *)
Theorem scan_stops_at_first_match (w : World) (current : option string) :
  (forall missing e later,
      Forall (fun c => fileExists w c = false) missing ->
      fileExists w e = true ->
      scanDefaults w (missing ++ e :: later) current
      = (map FileExists (missing ++ [e]), Ret (Some e))) /\
  (forall candidates,
      Forall (fun c => fileExists w c = false) candidates ->
      scanDefaults w candidates current
      = (map FileExists candidates, Ret current)).
Proof.
  split.
  - intros missing e later Hmissing He.
    induction Hmissing as [| c missing Hc _ IH]; cbn [app scanDefaults].
    + unfold exists_. cbn. rewrite He. reflexivity.
    + unfold exists_ in *. cbn. rewrite Hc. cbn.
      rewrite IH. reflexivity.
  - intros candidates Hnone.
    induction Hnone as [| c candidates Hc _ IH]; cbn [scanDefaults].
    + reflexivity.
    + unfold exists_ in *. cbn. rewrite Hc. cbn. rewrite IH. reflexivity.
Qed.

Lemma scan_stops_at_first_match_witness :
  scanDefaults
    (sampleWorld (Returned (noFlags, [])) ["index.ts"; "src/index.ts"]
       (Raised ThrownNullish) bundled (Some 0))
    defaultEntries None
  = ([FileExists "index.ts"], Ret (Some "index.ts")) /\
  scanDefaults
    (sampleWorld (Returned (noFlags, [])) ["src/index.ts"]
       (Raised ThrownNullish) bundled (Some 0))
    defaultEntries None
  = ([FileExists "index.ts"; FileExists "src/index.ts"],
     Ret (Some "src/index.ts")).
Proof.
  split.
  - apply (proj1 (scan_stops_at_first_match
                    (sampleWorld (Returned (noFlags, []))
                       ["index.ts"; "src/index.ts"] (Raised ThrownNullish)
                       bundled (Some 0)) None)
             [] "index.ts" ["src/index.ts"]);
      [constructor | reflexivity].
  - apply (proj1 (scan_stops_at_first_match
                    (sampleWorld (Returned (noFlags, [])) ["src/index.ts"]
                       (Raised ThrownNullish) bundled (Some 0)) None)
             ["index.ts"] "src/index.ts" []);
      [repeat constructor | reflexivity].
Defined.

(** ** The configuration file *)

Lemma plain_scanDefaults (w : World) (candidates : list string)
    (current : option string) :
  emits withoutImport (scanDefaults w candidates current).
Proof.
  induction candidates as [| e rest IH]; cbn [scanDefaults].
  - constructor.
  - apply emits_bind; [unfold exists_; emits_walk |].
    intros found. destruct found; [constructor | exact IH].
Qed.

Lemma plain_resolveEntry (w : World) (positionals : list string)
    (config : option TsBunConfig) :
  emits withoutImport (resolveEntry w positionals config).
Proof.
  unfold resolveEntry. apply emits_bind; [| intros; constructor].
  destruct (truthyOpt _); [constructor | apply plain_scanDefaults].
Qed.

Lemma plain_reportUncaught (w : World) (err : Thrown) :
  emits withoutImport (reportUncaught w err).
Proof.
  unfold reportUncaught, consoleError.
  apply emits_bind; [emits_walk | intros _].
  apply emits_bind; [apply emits_messageOf | intros; emits_walk].
Qed.

Ltac plain_leaf :=
  first
    [ apply emits_parse
    | apply plain_resolveEntry
    | progress (unfold shortCircuit, requireEntry, exists_, consoleLog,
                consoleError; emits_walk) ].

Lemma plain_Verbose_build (w : World) (config : option TsBunConfig)
    (hasTsConfig : bool) (e : string) :
  emits withoutImport (Verbose.build w config hasTsConfig e).
Proof.
  unfold Verbose.build, Verbose.reportArtifact, consoleLog, consoleError.
  cbv zeta. build_walk.
Qed.

Lemma plain_Terse_build (w : World) (config : option TsBunConfig)
    (e : string) :
  emits withoutImport (Terse.build w config e).
Proof.
  unfold Terse.build, exists_, existsAfterBuild, consoleLog, consoleError.
  cbv zeta. build_walk.
Qed.

Lemma plain_Verbose_main (w : World) :
  emits withoutImport (Verbose.loadConfig w) ->
  emits withoutImport (Verbose.main w).
Proof.
  intros Hload. unfold Verbose.main.
  apply emits_tryCatch; [| apply plain_reportUncaught].
  apply emits_bind;
    [| intros [[config b] e]; apply plain_Verbose_build].
  unfold Verbose.prepare.
  apply emits_bind; [plain_leaf | intros [values positionals]].
  apply emits_bind; [plain_leaf | intros _].
  apply emits_bind; [exact Hload | intros [config path]].
  repeat (apply emits_bind; [plain_leaf | intros ?]).
  constructor.
Qed.

Lemma plain_Terse_main (w : World) :
  emits withoutImport (Terse.loadConfig w) ->
  emits withoutImport (Terse.main w).
Proof.
  intros Hload. unfold Terse.main.
  apply emits_tryCatch; [| apply plain_reportUncaught].
  apply emits_bind; [| intros [config e]; apply plain_Terse_build].
  unfold Terse.prepare.
  apply emits_bind; [plain_leaf | intros [values positionals]].
  apply emits_bind; [plain_leaf | intros _].
  apply emits_bind; [exact Hload | intros config].
  repeat (apply emits_bind; [plain_leaf | intros ?]).
  constructor.
Qed.

(** A bundler call of the verbose script gets its options from the
    configuration the loader returned. *)
Lemma Verbose_main_bundles (w : World) (o : BuildOptions) :
  In (BunBuild o) (trace (Verbose.main w)) ->
  exists config path e,
    outcome (Verbose.loadConfig w) = Ret (config, path) /\
    o = buildOptions config e.
Proof.
  intros Hin.
  destruct (Verbose_main_build_event w _ Hin (fun H => H))
    as (config & b & e & Hprep & Hbuild).
  destruct (Verbose_prepare_returns w _ Hprep)
    as (_ & values & positionals & path & _ & _ & _ & Hload & _).
  exists config, path, e. split; [exact Hload |].
  exact (emits_In _ _ _ (Verbose_build_bundles w config b e) Hbuild).
Qed.

Lemma Terse_main_bundles (w : World) (o : BuildOptions) :
  In (BunBuild o) (trace (Terse.main w)) ->
  exists config e,
    outcome (Terse.loadConfig w) = Ret config /\
    o = buildOptions config e.
Proof.
  intros Hin.
  destruct (Terse_main_build_event w _ Hin (fun H => H))
    as (config & e & Hprep & Hbuild).
  destruct (Terse_prepare_returns w _ Hprep)
    as (_ & values & positionals & _ & _ & _ & Hload & _).
  exists config, e. split; [exact Hload |].
  exact (emits_In _ _ _ (Terse_build_bundles w config e) Hbuild).
Qed.



(** X11.  Without a [tsbun.config.ts] in the working directory neither
    script imports anything or prints a warning, and whenever the bundler
    is called it gets the defaults: output directory ["dist"], target
    [bun], minification on. *)
Theorem missing_config_means_defaults (w : World) :
  fileExists w (configPath w) = false ->
  (emits withoutImport (Verbose.main w) /\
   emits withoutImport (Terse.main w)) /\
  (forall o,
      In (BunBuild o) (trace (Verbose.main w)) \/
      In (BunBuild o) (trace (Terse.main w)) ->
      exists e, o = defaultOptions e).
Proof.
  intros Habsent.
  pose proof (Verbose_loadConfig_absent w Habsent) as Hverbose.
  pose proof (Terse_loadConfig_absent w Habsent) as Hterse.
  split; [split |].
  - apply plain_Verbose_main. rewrite Hverbose.
    unfold emits. cbn. repeat constructor.
  - apply plain_Terse_main. rewrite Hterse.
    unfold emits. cbn. repeat constructor.
  - intros o [Hin | Hin].
    + destruct (Verbose_main_bundles w o Hin)
        as (config & path & e & Hload & ->).
      rewrite Hverbose in Hload. injection Hload as <- _.
      exists e. reflexivity.
    + destruct (Terse_main_bundles w o Hin) as (config & e & Hload & ->).
      rewrite Hterse in Hload. injection Hload as <-.
      exists e. reflexivity.
Qed.

Lemma missing_config_means_defaults_witness :
  emits withoutImport
    (Verbose.main
       (sampleWorld (Returned (noFlags, [])) ["index.ts"]
          (Raised ThrownNullish) bundled (Some 0))) /\
  forall o,
    In (BunBuild o)
      (trace
         (Verbose.main
            (sampleWorld (Returned (noFlags, [])) ["index.ts"]
               (Raised ThrownNullish) bundled (Some 0)))) ->
    exists e, o = defaultOptions e.
Proof.
  destruct (missing_config_means_defaults
              (sampleWorld (Returned (noFlags, [])) ["index.ts"]
                 (Raised ThrownNullish) bundled (Some 0))
              eq_refl) as [[Hverbose _] Hoptions].
  split; [exact Hverbose |].
  intros o Hin. apply Hoptions. left. exact Hin.
Defined.



(** X13.  When the configuration file exists and its import returns a
    module, the configuration in effect is the module's default export if
    it has one and the module itself otherwise; whenever the bundler is
    called, its output directory, target and minification are the ones
    derived from that configuration. *)
Theorem loaded_config_reaches_bundler (w : World) (m : ConfigModule) :
  fileExists w (configPath w) = true ->
  importModule w (configUrl w) = Returned m ->
  (forall c, default m = Some c -> exported m = c) /\
  (default m = None -> exported m = namespace m) /\
  (forall o,
      In (BunBuild o) (trace (Verbose.main w)) \/
      In (BunBuild o) (trace (Terse.main w)) ->
      exists e, o = buildOptions (Some (exported m)) e).
Proof.
  intros Hfile Himport.
  pose proof (Verbose_loadConfig_loaded w m Hfile Himport) as Hverbose.
  pose proof (Terse_loadConfig_loaded w m Hfile Himport) as Hterse.
  split; [| split].
  - intros c Hc. unfold exported. rewrite Hc. reflexivity.
  - intros Hc. unfold exported. rewrite Hc. reflexivity.
  - intros o [Hin | Hin].
    + destruct (Verbose_main_bundles w o Hin)
        as (config & path & e & Hload & ->).
      rewrite Hverbose in Hload. injection Hload as <- _.
      exists e. reflexivity.
    + destruct (Terse_main_bundles w o Hin) as (config & e & Hload & ->).
      rewrite Hterse in Hload. injection Hload as <-.
      exists e. reflexivity.
Qed.

Lemma loaded_config_reaches_bundler_witness :
  exported
    (moduleOf
       {| entry := None; outdir := Some "out"; minify := Some false;
          target := Some TargetNode |})
  = {| entry := None; outdir := Some "out"; minify := Some false;
       target := Some TargetNode |} /\
  forall o,
    In (BunBuild o)
      (trace
         (Verbose.main
            (sampleWorld (Returned (noFlags, []))
               ["/work/tsbun.config.ts"; "index.ts"]
               (Returned
                  (moduleOf
                     {| entry := None; outdir := Some "out";
                        minify := Some false;
                        target := Some TargetNode |}))
               bundled (Some 0)))) ->
    exists e,
      o = {| entrypoints := [e]; build_outdir := "out";
             build_target := TargetNode; build_minify := false |}.
Proof.
  destruct (loaded_config_reaches_bundler
              (sampleWorld (Returned (noFlags, []))
                 ["/work/tsbun.config.ts"; "index.ts"]
                 (Returned
                    (moduleOf
                       {| entry := None; outdir := Some "out";
                          minify := Some false;
                          target := Some TargetNode |}))
                 bundled (Some 0))
              (moduleOf
                 {| entry := None; outdir := Some "out";
                    minify := Some false; target := Some TargetNode |})
              eq_refl eq_refl) as (Hdefault & _ & Hoptions).
  split; [exact (Hdefault _ eq_refl) |].
  intros o Hin.
  destruct (Hoptions o (or_introl Hin)) as [e He].
  exists e. exact He.
Defined.

(** ** Sizes *)

Lemma append_assoc (s1 s2 s3 : string) :
  ((s1 ++ s2) ++ s3 = s1 ++ (s2 ++ s3))%string.
Proof.
  induction s1 as [| c s1 IH].
  - reflexivity.
  - change (String c ((s1 ++ s2) ++ s3) = String c (s1 ++ (s2 ++ s3))).
    now rewrite IH.
Qed.

Lemma fixed2_whole (b : Z) : 0 <= b -> fixed2 (100 * b) = showZ b ++ ".00".
Proof.
  intros Hb. unfold fixed2.
  replace (100 * b / 100) with b
    by (rewrite Z.mul_comm, Z.div_mul; lia).
  replace (100 * b / 10) with (10 * b)
    by (replace (100 * b) with (10 * b * 10) by lia;
        rewrite Z.div_mul; lia).
  replace (10 * b mod 10) with 0
    by (rewrite Z.mul_comm, Z.mod_mul; lia).
  replace (100 * b mod 10) with 0
    by (replace (100 * b) with (10 * b * 10) by lia;
        rewrite Z.mod_mul; lia).
  reflexivity.
Qed.

Lemma formatSize_positive (floorLog : Z -> Z) (b : Z) :
  0 < b -> floorLog b = exactLog1024 b ->
  formatSize floorLog b
  = toFixed2 b (1024 ^ exactLog1024 b) ++ " " ++ sizeAt (exactLog1024 b).
Proof.
  intros Hb Hexact. unfold formatSize.
  destruct (Z.eqb_spec b 0) as [| _]; [lia |].
  destruct (Z.ltb_spec b 0) as [| _]; [lia |].
  cbv zeta. rewrite Hexact.
  destruct (exactLog1024_bounds b Hb) as [Hi _].
  destruct (Z.leb_spec 0 (exactLog1024 b)) as [_ |]; [reflexivity | lia].
Qed.

Lemma nearestHundredth_range (b d : Z) :
  0 < d -> d <= b < 1024 * d ->
  100 <= nearestHundredth b d <= 102400 /\
  (200 * (1024 * d - b) <= d -> nearestHundredth b d = 102400).
Proof.
  intros Hd [Hlo Hhi]. unfold nearestHundredth.
  assert (Hlow : 100 <= (200 * b + d) / (2 * d))
    by (apply Z.div_le_lower_bound; lia).
  assert (Hup : (200 * b + d) / (2 * d) < 102401)
    by (apply Z.div_lt_upper_bound; lia).
  split; [lia |].
  intros Hnear.
  assert (102400 <= (200 * b + d) / (2 * d))
    by (apply Z.div_le_lower_bound; lia).
  lia.
Qed.

Lemma formatSize_shown (floorLog : Z -> Z) (b : Z) :
  0 < b -> floorLog b = exactLog1024 b ->
  100 <= nearestHundredth b (1024 ^ exactLog1024 b) <= 102400 /\
  (200 * (1024 ^ (exactLog1024 b + 1) - b) <= 1024 ^ exactLog1024 b ->
   nearestHundredth b (1024 ^ exactLog1024 b) = 102400).
Proof.
  intros Hb Hexact.
  destruct (exactLog1024_bounds b Hb) as (Hi0 & Hlo & Hhi).
  rewrite Z.pow_add_r, Z.pow_1_r, Z.mul_comm in Hhi by lia.
  rewrite Z.pow_add_r, Z.pow_1_r, (Z.mul_comm _ 1024) by lia.
  assert (Hd : 0 < 1024 ^ exactLog1024 b)
    by (apply Z.pow_pos_nonneg; lia).
  exact (nearestHundredth_range b (1024 ^ exactLog1024 b) Hd
           (conj Hlo Hhi)).
Qed.

(** X14.  A byte count below 1024 prints as the count itself with [.00]
    and the unit [B], as in [512.00 B], provided the platform's index for
    it is the true one. *)
Theorem formatSize_below_kilobyte (floorLog : Z -> Z) (b : Z) :
  0 < b < 1024 -> floorLog b = exactLog1024 b ->
  formatSize floorLog b = showZ b ++ ".00 B".
Proof.
  intros [Hb0 Hb1] Hexact.
  rewrite (formatSize_positive floorLog b Hb0 Hexact).
  destruct (exactLog1024_bounds b Hb0) as (Hi0 & Hlo & _).
  assert (Hi : exactLog1024 b = 0).
  { assert (exactLog1024 b < 1); [| lia].
    apply (Z.pow_lt_mono_r_iff 1024); [lia | lia |].
    change (1024 ^ 1) with 1024. lia. }
  rewrite Hi. unfold toFixed2, nearestHundredth.
  change (1024 ^ 0) with 1.
  replace ((200 * b + 1) / (2 * 1)) with (100 * b).
  - rewrite (fixed2_whole b) by lia.
    rewrite append_assoc. reflexivity.
  - apply Z.div_unique with 1; lia.
Qed.

Lemma formatSize_below_kilobyte_witness :
  formatSize exactLog1024 512 = "512.00 B".
Proof.
  apply (formatSize_below_kilobyte exactLog1024 512);
    [split; reflexivity | reflexivity].
Defined.

(** X15.  For a positive byte count whose index the platform computes
    truly, the printed number lies between [1.00] and [1024.00], both
    included, and it is followed by [sizes[i]] for that index.  The upper
    end is reached: a count within a two-hundredth of a unit below the
    next power of 1024 prints as [1024.00] of the smaller unit, not as
    [1.00] of the larger. *)
Theorem formatSize_value_range (floorLog : Z -> Z) (b : Z) :
  0 < b -> floorLog b = exactLog1024 b ->
  (exists n,
      100 <= n <= 102400 /\
      formatSize floorLog b
      = fixed2 n ++ " " ++ sizeAt (exactLog1024 b)) /\
  (200 * (1024 ^ (exactLog1024 b + 1) - b) <= 1024 ^ exactLog1024 b ->
   formatSize floorLog b = "1024.00" ++ " " ++ sizeAt (exactLog1024 b)).
Proof.
  intros Hb Hexact.
  rewrite (formatSize_positive floorLog b Hb Hexact).
  destruct (formatSize_shown floorLog b Hb Hexact) as [Hrange Hnear].
  split.
  - exists (nearestHundredth b (1024 ^ exactLog1024 b)).
    split; [exact Hrange | reflexivity].
  - intros Hclose. unfold toFixed2. rewrite (Hnear Hclose). reflexivity.
Qed.

Lemma formatSize_value_range_witness :
  formatSize exactLog1024 1048575 = "1024.00 KB".
Proof.
  apply (proj2 (formatSize_value_range exactLog1024 1048575
                  eq_refl eq_refl)).
  vm_compute. discriminate.
Defined.

(** X16.  The table of units ends at [TB].  A byte count of [1024^5] or
    more, with its index computed truly, prints a number between [1.00]
    and [1024.00] followed by the word [undefined] in place of a unit. *)
Theorem formatSize_beyond_terabytes (floorLog : Z -> Z) (b : Z) :
  1024 ^ 5 <= b -> floorLog b = exactLog1024 b ->
  exists n,
    100 <= n <= 102400 /\
    formatSize floorLog b = fixed2 n ++ " undefined".
Proof.
  intros Hbig Hexact.
  assert (Hb : 0 < b) by (assert (0 < 1024 ^ 5) by reflexivity; lia).
  destruct (formatSize_shown floorLog b Hb Hexact) as [Hn _].
  exists (nearestHundredth b (1024 ^ exactLog1024 b)).
  split; [exact Hn |].
  rewrite (formatSize_positive floorLog b Hb Hexact). unfold toFixed2.
  destruct (exactLog1024_bounds b Hb) as (Hi0 & _ & Hhi).
  assert (Hi : 5 <= exactLog1024 b).
  { assert (5 < exactLog1024 b + 1); [| lia].
    apply (Z.pow_lt_mono_r_iff 1024); [lia | lia |].
    apply Z.le_lt_trans with b; assumption. }
  unfold sizeAt.
  destruct (Z.ltb_spec (exactLog1024 b) 0) as [| _]; [lia |].
  assert (Hnone : nth_error sizes (Z.to_nat (exactLog1024 b)) = None).
  { apply nth_error_None. change (List.length sizes) with 5%nat. lia. }
  rewrite Hnone. reflexivity.
Qed.

Lemma formatSize_beyond_terabytes_witness :
  exists n,
    100 <= n <= 102400 /\
    formatSize exactLog1024 (2 ^ 55) = fixed2 n ++ " undefined".
Proof.
  apply (formatSize_beyond_terabytes exactLog1024 (2 ^ 55));
    [vm_compute; discriminate | reflexivity].
Defined.

(** ** What the two tools are given *)

(** X17.  In one run the bundler and the type generator work on the same
    build: the bundler gets a single, non-empty entry point; the type
    generator writes its declarations to the bundler's output directory;
    and when there is no [tsconfig.json] the file it is given is the
    bundler's entry point. *)
Theorem tools_share_entry_and_outdir (w : World) (o : BuildOptions)
    (argv : list string) :
  (In (BunBuild o) (trace (Verbose.main w)) ->
   In (SpawnSync argv) (trace (Verbose.main w)) ->
   exists e,
     e <> EmptyString /\ entrypoints o = [e] /\
     argv = ("bun" :: "x" :: "tsc"
             :: tscArgs (fileExists w "tsconfig.json") (build_outdir o) e))
  /\
  (In (BunBuild o) (trace (Terse.main w)) ->
   In (SpawnSync argv) (trace (Terse.main w)) ->
   exists e,
     e <> EmptyString /\ entrypoints o = [e] /\
     argv = ("bun" :: "x" :: "tsc"
             :: tscArgs (fileExistsAfterBuild w "tsconfig.json")
                  (build_outdir o) e)).
Proof.
  split; intros Hbundle Hspawn.
  - destruct (Verbose_main_build_event w _ Hbundle (fun H => H))
      as (config & b & e & Hprep & Hbuilt).
    destruct (Verbose_main_build_event w _ Hspawn (fun H => H))
      as (config' & b' & e' & Hprep' & Hspawned).
    rewrite Hprep in Hprep'. injection Hprep' as <- <- <-.
    destruct (Verbose_prepare_returns w _ Hprep)
      as (_ & values & positionals & path & _ & _ & _ & _ & _ & He & Hb).
    pose proof (emits_In _ _ _ (Verbose_build_bundles w config b e) Hbuilt)
      as Ho.
    pose proof (emits_In _ _ _ (Verbose_build_spawns w config b e) Hspawned)
      as Hargv.
    cbn in Ho, Hargv. subst o argv b.
    exists e. split; [apply truthy_nonempty, He |].
    split; reflexivity.
  - destruct (Terse_main_build_event w _ Hbundle (fun H => H))
      as (config & e & Hprep & Hbuilt).
    destruct (Terse_main_build_event w _ Hspawn (fun H => H))
      as (config' & e' & Hprep' & Hspawned).
    rewrite Hprep in Hprep'. injection Hprep' as <- <-.
    destruct (Terse_prepare_returns w _ Hprep)
      as (_ & values & positionals & _ & _ & _ & _ & _ & He).
    pose proof (emits_In _ _ _ (Terse_build_bundles w config e) Hbuilt)
      as Ho.
    pose proof (emits_In _ _ _ (Terse_build_spawns w config e) Hspawned)
      as Hargv.
    cbn in Ho, Hargv. subst o argv.
    exists e. split; [apply truthy_nonempty, He |].
    split; reflexivity.
Qed.

Lemma tools_share_entry_and_outdir_witness :
  exists e,
    e <> EmptyString /\
    entrypoints (buildOptions None "index.ts") = [e] /\
    ["bun"; "x"; "tsc"; "--declaration"; "--emitDeclarationOnly";
     "--noEmit"; "false"; "--outDir"; "dist"; "--esModuleInterop";
     "--skipLibCheck"; "--moduleResolution"; "bundler"; "--target";
     "esnext"; "index.ts"]
    = ("bun" :: "x" :: "tsc"
       :: tscArgs false (build_outdir (buildOptions None "index.ts")) e).
Proof.
  refine (proj1 (tools_share_entry_and_outdir
                   (sampleWorld (Returned (noFlags, [])) ["index.ts"]
                      (Raised ThrownNullish) bundled (Some 0))
                   (buildOptions None "index.ts")
                   ["bun"; "x"; "tsc"; "--declaration";
                    "--emitDeclarationOnly"; "--noEmit"; "false";
                    "--outDir"; "dist"; "--esModuleInterop";
                    "--skipLibCheck"; "--moduleResolution"; "bundler";
                    "--target"; "esnext"; "index.ts"]) _ _);
    vm_compute; repeat (first [left; reflexivity | right]).
Defined.

(** ** The [watch] option *)

(** X18.  The help text lists [--watch] and the parser accepts it, but the
    option changes nothing: with it set or cleared a run prints the same,
    calls the same tools and ends the same way. *)
Theorem watch_flag_is_ignored (w : World) (values : Values)
    (positionals : list string) (b : bool) :
  parseArgs w = Returned (values, positionals) ->
  Verbose.main (withArguments w (Returned (setWatch b values, positionals)))
  = Verbose.main w /\
  Terse.main (withArguments w (Returned (setWatch b values, positionals)))
  = Terse.main w.
Proof.
  intros Hparse.
  unfold Verbose.main, Terse.main, Verbose.prepare, Terse.prepare.
  rewrite (parse_returned w _ Hparse).
  rewrite (parse_returned
             (withArguments w (Returned (setWatch b values, positionals)))
             _ eq_refl).
  rewrite !bind_ret_l.
  split; reflexivity.
Qed.

Lemma watch_flag_is_ignored_witness :
  Verbose.main
    (withArguments
       (sampleWorld (Returned (noFlags, [])) ["index.ts"]
          (Raised ThrownNullish) bundled (Some 0))
       (Returned (setWatch true noFlags, [])))
  = Verbose.main
      (sampleWorld (Returned (noFlags, [])) ["index.ts"]
         (Raised ThrownNullish) bundled (Some 0)).
Proof.
  exact (proj1 (watch_flag_is_ignored
                  (sampleWorld (Returned (noFlags, [])) ["index.ts"]
                     (Raised ThrownNullish) bundled (Some 0))
                  noFlags [] true eq_refl)).
Defined.

(** ** An output directory that cannot be cleaned *)

Lemma Verbose_build_cleans (w : World) (config : option TsBunConfig)
    (hasTsConfig : bool) (e out : string) (force : bool) :
  In (RmSync out force) (trace (Verbose.build w config hasTsConfig e)) ->
  out = outdirOf config.
Proof.
  apply (emits_In
           (fun ev => match ev with
                      | RmSync d _ => d = outdirOf config
                      | _ => True
                      end)).
  unfold Verbose.build, Verbose.reportArtifact, consoleLog, consoleError.
  cbv zeta. build_walk.
Qed.

Lemma Terse_build_cleans (w : World) (config : option TsBunConfig)
    (e out : string) (force : bool) :
  In (RmSync out force) (trace (Terse.build w config e)) ->
  out = outdirOf config.
Proof.
  apply (emits_In
           (fun ev => match ev with
                      | RmSync d _ => d = outdirOf config
                      | _ => True
                      end)).
  unfold Terse.build, exists_, existsAfterBuild, consoleLog, consoleError.
  cbv zeta. build_walk.
Qed.

Ltac forall_events :=
  repeat first
    [ apply Forall_nil
    | apply Forall_cons; [exact I |]
    | apply Forall_app; split
    | apply Forall_forall; intros ? ?Hev;
      apply in_map_iff in Hev as (? & <- & _); exact I ].

(** The terse script leaves a missing output directory alone. *)
Lemma Terse_build_unclean (w : World) (config : option TsBunConfig)
    (e out : string) (force : bool) :
  fileExists w (outdirOf config) = false ->
  ~ In (RmSync out force) (trace (Terse.build w config e)).
Proof.
  intros Hdir Hin.
  refine (emits_In
            (fun ev => match ev with
                       | RmSync _ _ => False
                       | _ => True
                       end) _ (RmSync out force) _ Hin).
  clear Hin. unfold emits.
  terse_build_cases w config e; try congruence;
    rewrite Hrun; unfold terseCleaning, terseAnnounce; rewrite Hdir;
    cbn [trace fst]; subst;
    try destruct (fileExistsAfterBuild w "tsconfig.json");
    forall_events.
Qed.

(** X19.  When removing the output directory throws an error with a
    message, the run ends there: the help text and the message are the
    last things printed, the exit status is 1, and neither the bundler nor
    the type generator is called. *)
Theorem cleaning_exception_stops_build (w : World) (out message : string) :
  rmSync w out = Raised (ThrownObject message) ->
  (In (RmSync out true) (trace (Verbose.main w)) ->
   reportedAfter w (Verbose.main w) (RmSync out true) message /\
   toolCalls (trace (Verbose.main w)) = []) /\
  (In (RmSync out false) (trace (Terse.main w)) ->
   reportedAfter w (Terse.main w) (RmSync out false) message /\
   toolCalls (trace (Terse.main w)) = []).
Proof.
  intros Hraise. split; intros Hin.
  - destruct (Verbose_main_build_event w _ Hin (fun H => H))
      as (config & b & e & Hprep & Hbuild).
    pose proof (Verbose_build_cleans w config b e out true Hbuild) as ->.
    verbose_build_cases w config b e; try congruence.
    rewrite Hrm in Hraise. injection Hraise as ->.
    rewrite (Verbose_main_after_build w config b e _ _ Hprep Hrun).
    split.
    + exact (reportedAfter_intro w _ [] _ _).
    + rewrite uncaught_toolCalls, toolCalls_app.
      rewrite (toolCalls_calm _ (emits_Verbose_prepare w)).
      reflexivity.
  - destruct (Terse_main_build_event w _ Hin (fun H => H))
      as (config & e & Hprep & Hbuild).
    pose proof (Terse_build_cleans w config e out false Hbuild) as ->.
    terse_build_cases w config e;
      [| destruct Hclean as [Hclean | Hclean]; [| congruence];
         destruct (Terse_build_unclean w config e _ _ Hclean Hbuild) ..].
    rewrite Hrm in Hraise. injection Hraise as ->.
    rewrite (Terse_main_after_build w config e _ _ Hprep Hrun).
    split.
    + exact (reportedAfter_intro w _ [FileExists (outdirOf config)] _ _).
    + rewrite uncaught_toolCalls, toolCalls_app.
      rewrite (toolCalls_calm _ (emits_Terse_prepare w)).
      reflexivity.
Qed.

Lemma cleaning_exception_stops_build_witness :
  reportedAfter
    (withoutRemoval
       (sampleWorld (Returned (noFlags, [])) ["index.ts"]
          (Raised ThrownNullish) bundled (Some 0))
       "EACCES: permission denied")
    (Verbose.main
       (withoutRemoval
          (sampleWorld (Returned (noFlags, [])) ["index.ts"]
             (Raised ThrownNullish) bundled (Some 0))
          "EACCES: permission denied"))
    (RmSync "dist" true) "EACCES: permission denied" /\
  toolCalls
    (trace
       (Verbose.main
          (withoutRemoval
             (sampleWorld (Returned (noFlags, [])) ["index.ts"]
                (Raised ThrownNullish) bundled (Some 0))
             "EACCES: permission denied"))) = [].
Proof.
  refine (proj1 (cleaning_exception_stops_build
                   (withoutRemoval
                      (sampleWorld (Returned (noFlags, [])) ["index.ts"]
                         (Raised ThrownNullish) bundled (Some 0))
                      "EACCES: permission denied")
                   "dist" "EACCES: permission denied" eq_refl) _).
  vm_compute. repeat (first [left; reflexivity | right]).
Defined.
